(** * apexApi: the [states] resource (routes/state.js, controllers/stateController.js)

    A shallow embedding of the route table, of the five request handlers
    of the states controller, of the [asyncHandler] wrapper that renders
    thrown errors, and of the calls they make on the persistence client.

    Conventions.
    - The numbers the handlers compute with are doubles whose value is an
      integer, an infinity or NaN.  They are modelled by [Js.Number]: an
      integer that a double holds, [Inf] or [NaN]; every operation rounds
      as IEEE 754 does (to nearest, ties to even), so that integers above
      2^53 lose their low bits and those of 2^1024 and more are infinite.
    - Strings are [string]s of one-byte characters (code units below
      256); [length] is the JavaScript [length] for such strings.
    - The handlers are asynchronous functions that either resolve after
      sending a response or reject with an error.  They are modelled in a
      state-and-exception monad over the [World] (the states table, the
      persistence client, the journal of calls made on it, the console).
    - The persistence client is a library outside the sources.  What it
      refuses before it runs a query, how its [contains] filter matches
      and how it orders names are parameters of the world ([Client]). *)

From Stdlib Require Import ZArith List String Ascii Bool Lia.
Import ListNotations.

Local Open Scope string_scope.
Local Open Scope list_scope.
Local Open Scope Z_scope.

(* ================================================================== *)
(** ** JavaScript values *)

Module Js.

(** A number as the handlers see it: an integer that a double holds, an
    infinity ([Inf true] is the negative one) or NaN.  The two zeros are
    one. *)
Inductive Number : Type :=
| NaN
| Num (n : Z)
| Inf (negative : bool).

(** The values that travel in request bodies and in JSON responses.
    [JDate] is a [Date] column value, as milliseconds. *)
#[warnings="-register-all"]
Inductive Value : Type :=
| JUndefined
| JNull
| JBool (b : bool)
| JNum (n : Z)
| JStr (s : string)
| JDate (ms : Z)
| JArr (items : list Value)
| JObj (fields : list (string * Value)).

(** Property lookup on an object given by its own properties. *)
Fixpoint get (k : string) (fields : list (string * Value)) : option Value :=
  match fields with
  | [] => None
  | (k', v) :: rest => if String.eqb k k' then Some v else get k rest
  end.

(** [Object.keys]. *)
Definition keys (fields : list (string * Value)) : list string :=
  map fst fields.

(** *** Doubles of integer value *)

(** Up to 2^53 every integer is a double. *)
Definition two53 : Z := 2 ^ 53.

(** From 2^1024 on (after rounding) a number is infinite. *)
Definition two1024 : Z := 2 ^ 1024.

(** The double nearest to the positive integer [m], ties to the even
    mantissa; [None] when it is infinite.  Above 2^53 a double has 53
    significant bits: between 2^e and 2^(e+1) the doubles are the
    multiples of 2^(e-52). *)
Definition round_magnitude (m : Z) : option Z :=
  if m <=? two53 then Some m
  else
    let ulp := 2 ^ (Z.log2 m - 52) in
    let q := m / ulp in
    let r := m mod ulp in
    let q' :=
      if 2 * r <? ulp then q
      else if ulp <? 2 * r then q + 1
      else if Z.even q then q else q + 1 in
    if two1024 <=? q' * ulp then None else Some (q' * ulp).

(** The number that holds the result of an operation whose exact value
    is the integer [n]. *)
Definition of_Z (n : Z) : Number :=
  match round_magnitude (Z.abs n) with
  | Some v => Num (Z.sgn n * v)
  | None => Inf (n <? 0)
  end.

(** Truthiness of a number: [!n] holds for 0 and NaN. *)
Definition truthy (x : Number) : bool :=
  match x with
  | NaN => false
  | Num n => negb (n =? 0)
  | Inf _ => true
  end.

(** [x || d] on numbers, for a default [d]. *)
Definition or_else (x : Number) (d : Z) : Number :=
  if truthy x then x else Num d.

(** Truthiness of a string: the empty string is falsy. *)
Definition truthy_str (s : string) : bool :=
  negb (String.eqb s "").

(** [Math.max(a, b)]. *)
Definition Math_max (a b : Number) : Number :=
  match a, b with
  | NaN, _ | _, NaN => NaN
  | Inf false, _ | _, Inf false => Inf false
  | Inf true, x | x, Inf true => x
  | Num x, Num y => Num (Z.max x y)
  end.

(** [a - b]. *)
Definition minus (a b : Number) : Number :=
  match a, b with
  | NaN, _ | _, NaN => NaN
  | Num x, Num y => of_Z (x - y)
  | Inf s, Num _ => Inf s
  | Num _, Inf s => Inf (negb s)
  | Inf s, Inf t => if Bool.eqb s t then NaN else Inf s
  end.

(** [a * b]: zero times an infinity is NaN. *)
Definition times (a b : Number) : Number :=
  match a, b with
  | NaN, _ | _, NaN => NaN
  | Num x, Num y => of_Z (x * y)
  | Num x, Inf s | Inf s, Num x =>
      if x =? 0 then NaN else Inf (xorb s (x <? 0))
  | Inf s, Inf t => Inf (xorb s t)
  end.

(** [Math.ceil(a / b)] for an integer [a] that a double holds exactly (a
    count of rows).  A finite quotient by an infinity is zero; a quotient
    by zero is an infinity, or NaN for 0 / 0. *)
Definition Math_ceil_div (a : Z) (b : Number) : Number :=
  match b with
  | NaN => NaN
  | Inf _ => Num 0
  | Num d =>
      if d =? 0 then (if a =? 0 then NaN else Inf (a <? 0))
      else of_Z (- ((- a) / d))
  end.

(** *** parseInt *)

(** StrWhiteSpaceChar among the one-byte characters: TAB, LF, VT, FF,
    CR, SP and the no-break space. *)
Definition is_space (c : ascii) : bool :=
  let n := nat_of_ascii c in
  (Nat.eqb n 9 || Nat.eqb n 10 || Nat.eqb n 11 || Nat.eqb n 12
   || Nat.eqb n 13 || Nat.eqb n 32 || Nat.eqb n 160)%bool.

Fixpoint trim_start (s : string) : string :=
  match s with
  | String c rest => if is_space c then trim_start rest else s
  | EmptyString => EmptyString
  end.

(** The value of a character as a digit in radix 10 or 16. *)
Definition digit_value (radix : Z) (c : ascii) : option Z :=
  let n := Z.of_nat (nat_of_ascii c) in
  let v :=
    if (48 <=? n) && (n <=? 57) then Some (n - 48)
    else if (97 <=? n) && (n <=? 102) then Some (n - 87)
    else if (65 <=? n) && (n <=? 70) then Some (n - 55)
    else None in
  match v with
  | Some d => if d <? radix then Some d else None
  | None => None
  end.

(** Reads the longest prefix of digits; [acc] is [None] until a digit
    has been read. *)
Fixpoint read_digits (radix : Z) (s : string) (acc : option Z) : option Z :=
  match s with
  | EmptyString => acc
  | String c rest =>
      match digit_value radix c with
      | Some d =>
          read_digits radix rest
            (Some (match acc with Some a => a * radix + d | None => d end))
      | None => acc
      end
  end.

(** The sign read by [parseInt], and the rest of the string. *)
Definition strip_sign (s : string) : Z * string :=
  match s with
  | String c rest =>
      if Ascii.eqb c "-" then (-1, rest)
      else if Ascii.eqb c "+" then (1, rest)
      else (1, s)
  | EmptyString => (1, s)
  end.

(** The radix: 16 after a [0x] or [0X] prefix, which is dropped, and 10
    otherwise. *)
Definition strip_radix (s : string) : Z * string :=
  match s with
  | String c0 (String c1 rest) =>
      if Ascii.eqb c0 "0" && (Ascii.eqb c1 "x" || Ascii.eqb c1 "X")
      then (16, rest)
      else (10, s)
  | _ => (10, s)
  end.

(** [parseInt(string)] with no radix argument: leading white space is
    skipped, a sign is read, a [0x] or [0X] prefix selects radix 16, and
    the longest prefix of digits is the result, as the double nearest to
    it; with no digit, NaN. *)
Definition parseInt (input : string) : Number :=
  let '(sign, s) := strip_sign (trim_start input) in
  let '(radix, s) := strip_radix s in
  match read_digits radix s None with
  | Some n => of_Z (sign * n)
  | None => NaN
  end.

(** [parseInt] of a path or query parameter: a missing parameter is
    [undefined], whose string is ["undefined"]. *)
Definition parseInt_param (p : option string) : Number :=
  match p with
  | Some s => parseInt s
  | None => parseInt "undefined"
  end.

(** [haystack.includes(needle)]. *)
Fixpoint includes (needle haystack : string) : bool :=
  if String.prefix needle haystack then true
  else match haystack with
       | EmptyString => false
       | String _ rest => includes needle rest
       end.

End Js.

(* ================================================================== *)
(** ** Errors, responses and the world *)

(** [err.meta.target] of a known request error: a column name or an
    array of column names, depending on the database connector. *)
Inductive MetaTarget : Type :=
| TStr (s : string)
| TArr (cols : list string).

(** One issue of a Zod error.  [message] is [Some] where the schema
    gives the message and [None] where the library's default text is
    used. *)
Record ZodIssue : Type := mkIssue {
  issue_code : string;
  issue_path : list string;
  issue_message : option string
}.

(** The errors a handler can reject with. *)
Inductive Error : Type :=
| HttpError (status : Z) (message : string)
| ZodError (issues : list ZodIssue)
| PrismaClientValidationError (message : string)
| PrismaClientKnownRequestError (code : string) (target : option MetaTarget)
| OtherError (name message : string).

(** [createError(status, message)] of http-errors. *)
Definition createError (status : Z) (message : string) : Error :=
  HttpError status message.

(** [err.status]: only http errors carry one. *)
Definition err_status (e : Error) : option Z :=
  match e with
  | HttpError st _ => Some st
  | _ => None
  end.

(** [err.expose]: http-errors exposes the client errors (below 500);
    on other errors the property is undefined. *)
Definition err_expose (e : Error) : bool :=
  match e with
  | HttpError st _ => st <? 500
  | _ => false
  end.

(** [err.name]. *)
Definition err_name (e : Error) : string :=
  match e with
  | HttpError st _ =>
      if st =? 400 then "BadRequestError"
      else if st =? 404 then "NotFoundError"
      else "HttpError"
  | ZodError _ => "ZodError"
  | PrismaClientValidationError _ => "PrismaClientValidationError"
  | PrismaClientKnownRequestError _ _ => "PrismaClientKnownRequestError"
  | OtherError n _ => n
  end.

(** [err.message]; the library texts of Zod and of known request errors
    are not modelled. *)
Definition err_message (e : Error) : string :=
  match e with
  | HttpError _ m => m
  | PrismaClientValidationError m => m
  | OtherError _ m => m
  | ZodError _ => "(zod issues)"
  | PrismaClientKnownRequestError _ _ => "(known request error)"
  end.

Definition issue_json (i : ZodIssue) : Js.Value :=
  Js.JObj
    [("code", Js.JStr (issue_code i));
     ("path", Js.JArr (map Js.JStr (issue_path i)));
     ("message",
      match issue_message i with
      | Some m => Js.JStr m
      | None => Js.JUndefined
      end)].

(** [err.errors]: the issues of a Zod error, undefined elsewhere. *)
Definition err_errors (e : Error) : option Js.Value :=
  match e with
  | ZodError issues => Some (Js.JArr (map issue_json issues))
  | _ => None
  end.

(** [err instanceof Prisma.PrismaClientKnownRequestError]. *)
Definition is_known_request_error (e : Error) : bool :=
  match e with
  | PrismaClientKnownRequestError _ _ => true
  | _ => false
  end.

Definition err_code (e : Error) : option string :=
  match e with
  | PrismaClientKnownRequestError c _ => Some c
  | _ => None
  end.

(** [err.meta?.target]. *)
Definition err_meta_target (e : Error) : option MetaTarget :=
  match e with
  | PrismaClientKnownRequestError _ t => t
  | _ => None
  end.

(** Truthiness of a target: the empty string is falsy, every array is
    truthy. *)
Definition target_truthy (t : MetaTarget) : bool :=
  match t with
  | TStr s => Js.truthy_str s
  | TArr _ => true
  end.

(** [Array.isArray(target) ? target[0] : target], as it is used as a
    property key and in a template string: an empty array gives
    [undefined], which both uses print as ["undefined"]. *)
Definition target_field (t : MetaTarget) : string :=
  match t with
  | TStr s => s
  | TArr (c :: _) => c
  | TArr [] => "undefined"
  end.

(** The HTTP response sent through [res]: [res.status(s).json(body)]. *)
Record Response : Type := mkResponse {
  status : Z;
  json : Js.Value
}.

(** A row of the states table. *)
Record State : Type := mkState {
  id : Z;
  stateName : string;
  createdAt : Z;
  updatedAt : Z
}.

(** Whether a value is [undefined]. *)
Definition is_undefined (v : Js.Value) : bool :=
  match v with
  | Js.JUndefined => true
  | _ => false
  end.

(** The calls made on [prisma.states], as the journal records them, with
    the numbers as the handler passes them. *)
Inductive Call : Type :=
| CFindMany (where_ : option string) (skip take : Js.Number)
            (orderBy : string * string)
| CCount (where_ : option string)
| CFindUnique (id_ : Js.Number)
| CCreate (name : string)
| CUpdate (id_ : Js.Number) (data : list (string * Js.Value))
| CDelete (id_ : Js.Number).

(** The persistence client and the database behind it are not among the
    sources.  What the handlers depend on is taken as parameters:
    - [reject_id x]: the error with which the client refuses a call on
      the row of identifier [x] before it runs it (a number that is not an
      integer of the column's range), or [None];
    - [reject_findMany skip take orderBy]: the error with which it refuses
      a list query (a sort field or direction it does not know, a [skip]
      or [take] that is not an integer it can pass on), or [None];
    - [contains needle name]: whether the [contains] filter of the store
      matches (its wildcards and the case it ignores are the store's);
    - [collate]: the order of the store on names. *)
Record Client : Type := mkClient {
  reject_id : Js.Number -> option Error;
  reject_findMany : Js.Number -> Js.Number -> string * string -> option Error;
  contains : string -> string -> bool;
  collate : string -> string -> comparison
}.

(** Modelled from the spec: the states table (columns id, stateName,
    createdAt, updatedAt; id generated by the store; timestamps managed
    by the store), whose schema is not part of the sources.  Whether the
    schema declares stateName unique is left open by the spec, so it is a
    parameter: [unique_stateName] is [None] without such a constraint and
    [Some t] with one, [t] being the target the store reports on a
    violation.  [now] is the time the store reads when it writes a row. *)
Record World : Type := mkWorld {
  table : list State;
  nextId : Z;
  now : Z;
  unique_stateName : option MetaTarget;
  client : Client;
  calls : list Call;
  console : list Error
}.

Definition with_table (t : list State) (w : World) : World :=
  mkWorld t (nextId w) (now w) (unique_stateName w) (client w) (calls w)
          (console w).

Definition with_nextId (n : Z) (w : World) : World :=
  mkWorld (table w) n (now w) (unique_stateName w) (client w) (calls w)
          (console w).

Definition with_call (c : Call) (w : World) : World :=
  mkWorld (table w) (nextId w) (now w) (unique_stateName w) (client w)
          (calls w ++ [c]) (console w).

Definition with_console (e : Error) (w : World) : World :=
  mkWorld (table w) (nextId w) (now w) (unique_stateName w) (client w)
          (calls w) (console w ++ [e]).

(* ================================================================== *)
(** ** The monad of asynchronous handlers *)

Inductive Result (A : Type) : Type :=
| Ok (a : A)
| Throw (e : Error).

Arguments Ok {A} a.
Arguments Throw {A} e.

Definition M (A : Type) : Type := World -> Result A * World.

Definition ret {A} (a : A) : M A := fun w => (Ok a, w).

Definition throw {A} (e : Error) : M A := fun w => (Throw e, w).

Definition bind {A B} (m : M A) (k : A -> M B) : M B :=
  fun w =>
    match m w with
    | (Ok a, w') => k a w'
    | (Throw e, w') => (Throw e, w')
    end.

Definition lift {A} (r : Result A) : M A := fun w => (r, w).

Declare Scope handler_scope.
Delimit Scope handler_scope with handler.

Notation "x <- m ;; k" := (bind m (fun x => k))
  (at level 100, m at next level, right associativity) : handler_scope.

Notation "' p <- m ;; k" := (bind m (fun p => k))
  (at level 100, p pattern, m at next level, right associativity)
  : handler_scope.

(** [Promise.all([a, b])]: both calls are issued; the result rejects
    with the first rejection. *)
Definition Promise_all2 {A B} (a : M A) (b : M B) : M (A * B) :=
  fun w =>
    let '(ra, w1) := a w in
    let '(rb, w2) := b w1 in
    match ra, rb with
    | Ok x, Ok y => (Ok (x, y), w2)
    | Throw e, _ => (Throw e, w2)
    | Ok _, Throw e => (Throw e, w2)
    end.

(* ================================================================== *)
(** ** The persistence client: [prisma.states] *)

Module Prisma.

Definition columns : list string :=
  ["id"; "stateName"; "createdAt"; "updatedAt"].

Definition column_value (c : string) (r : State) : Js.Value :=
  if (c =? "id")%string then Js.JNum (id r)
  else if (c =? "stateName")%string then Js.JStr (stateName r)
  else if (c =? "createdAt")%string then Js.JDate (createdAt r)
  else if (c =? "updatedAt")%string then Js.JDate (updatedAt r)
  else Js.JUndefined.

(** The object returned for a row: the selected columns, or all of them
    when the call has no [select]. *)
Definition render (select : option (list string)) (r : State) : Js.Value :=
  Js.JObj
    (map (fun c => (c, column_value c r))
         (match select with Some cs => cs | None => columns end)).

(** [where]: [None] is the empty filter, [Some s] is
    [{ stateName: { contains: s } }], which the store decides. *)
Definition matches (c : Client) (where_ : option string) (r : State)
  : bool :=
  match where_ with
  | None => true
  | Some s => contains c s (stateName r)
  end.

Definition find_row (n : Z) (t : list State) : option State :=
  find (fun r => id r =? n) t.

(** The order of two rows on a column; a field that is not a column
    orders nothing. *)
Definition compare_rows (c : Client) (col : string) (a b : State)
  : comparison :=
  if (col =? "id")%string then Z.compare (id a) (id b)
  else if (col =? "stateName")%string
       then collate c (stateName a) (stateName b)
  else if (col =? "createdAt")%string
       then Z.compare (createdAt a) (createdAt b)
  else if (col =? "updatedAt")%string
       then Z.compare (updatedAt a) (updatedAt b)
  else Eq.

Definition before (c : Client) (orderBy : string * string) (a b : State)
  : bool :=
  match compare_rows c (fst orderBy) a b with
  | Eq => true
  | Lt => (snd orderBy =? "asc")%string
  | Gt => (snd orderBy =? "desc")%string
  end.

Fixpoint insert_row (c : Client) (orderBy : string * string) (r : State)
  (l : list State) : list State :=
  match l with
  | [] => [r]
  | x :: xs =>
      if before c orderBy r x then r :: l
      else x :: insert_row c orderBy r xs
  end.

Definition sort_rows (c : Client) (orderBy : string * string)
  (l : list State) : list State :=
  fold_right (insert_row c orderBy) [] l.

(** [skip]: the rows after the first [skip] ones. *)
Definition skip_rows {A} (skip : Js.Number) (l : list A) : list A :=
  match skip with
  | Js.Num n => skipn (Z.to_nat n) l
  | Js.Inf false => []
  | _ => l
  end.

(** [take]: the first [take] rows.  (A negative [take], which the
    handlers never pass, takes from the end in the client and gives no row
    here.) *)
Definition take_rows {A} (take : Js.Number) (l : list A) : list A :=
  match take with
  | Js.Num n => firstn (Z.to_nat n) l
  | Js.Inf false => l
  | _ => []
  end.

(** P2025: the record an operation depends on was not found. *)
Definition record_not_found : Error :=
  PrismaClientKnownRequestError "P2025" None.

Definition findMany (where_ : option string) (skip take : Js.Number)
  (orderBy : string * string) (select : option (list string))
  : M (list Js.Value) :=
  fun w =>
    let w' := with_call (CFindMany where_ skip take orderBy) w in
    match reject_findMany (client w) skip take orderBy with
    | Some e => (Throw e, w')
    | None =>
        (Ok (map (render select)
               (take_rows take
                  (skip_rows skip
                     (sort_rows (client w) orderBy
                        (filter (matches (client w) where_) (table w)))))),
         w')
    end.

Definition count (where_ : option string) : M Z :=
  fun w =>
    (Ok (Z.of_nat
           (List.length (filter (matches (client w) where_) (table w)))),
     with_call (CCount where_) w).

(** The row of an identifier: only an integer has one. *)
Definition row_of (x : Js.Number) (t : list State) : option State :=
  match x with
  | Js.Num n => find_row n t
  | _ => None
  end.

Definition findUnique (x : Js.Number) (select : option (list string))
  : M (option Js.Value) :=
  fun w =>
    let w' := with_call (CFindUnique x) w in
    match reject_id (client w) x with
    | Some e => (Throw e, w')
    | None => (Ok (option_map (render select) (row_of x (table w))), w')
    end.

(** Whether a row other than [self] already has the name. *)
Definition name_taken (self : option Z) (name : string) (t : list State)
  : bool :=
  existsb
    (fun r =>
       (stateName r =? name)%string
       && match self with Some n => negb (id r =? n) | None => true end)
    t.

Definition create (name : string) : M Js.Value :=
  fun w =>
    let w' := with_call (CCreate name) w in
    match unique_stateName w with
    | Some t =>
        if name_taken None name (table w)
        then (Throw (PrismaClientKnownRequestError "P2002" (Some t)), w')
        else
          let r := mkState (nextId w) name (now w) (now w) in
          (Ok (render None r),
           with_nextId (nextId w + 1) (with_table (table w ++ [r]) w'))
    | None =>
        let r := mkState (nextId w) name (now w) (now w) in
        (Ok (render None r),
         with_nextId (nextId w + 1) (with_table (table w ++ [r]) w'))
    end.

(** The [data] of an update, applied to a row: a column takes a value of
    its type; an undefined value leaves its column alone. *)
Fixpoint apply_data (data : list (string * Js.Value)) (r : State) : State :=
  match data with
  | [] => r
  | (k, v) :: rest =>
      apply_data rest
        match v with
        | Js.JNum n => mkState n (stateName r) (createdAt r) (updatedAt r)
        | Js.JStr s => mkState (id r) s (createdAt r) (updatedAt r)
        | Js.JDate d =>
            if (k =? "createdAt")%string
            then mkState (id r) (stateName r) d (updatedAt r)
            else mkState (id r) (stateName r) (createdAt r) d
        | _ => r
        end
  end.

(** Whether the data writes a column at all. *)
Definition writes (data : list (string * Js.Value)) : bool :=
  existsb (fun kv => negb (is_undefined (snd kv))) data.

(** The store stamps [updatedAt] with the time of the write. *)
Definition touch (time : Z) (r : State) : State :=
  mkState (id r) (stateName r) (createdAt r) time.

(** The row after an update that writes: stamped, then changed. *)
Definition updated_row (time : Z) (data : list (string * Js.Value))
  (r : State) : State :=
  apply_data data (touch time r).

Definition replace_row (n : Z) (r' : State) (t : list State) : list State :=
  map (fun r => if id r =? n then r' else r) t.

(** An update whose data writes no column changes nothing, [updatedAt]
    included, and returns the row as it is. *)
Definition update (x : Js.Number) (data : list (string * Js.Value))
  : M Js.Value :=
  fun w =>
    let w' := with_call (CUpdate x data) w in
    match reject_id (client w) x with
    | Some e => (Throw e, w')
    | None =>
        match x, row_of x (table w) with
        | Js.Num n, Some r =>
            if negb (writes data) then (Ok (render None r), w')
            else
              let r' := updated_row (now w) data r in
              match unique_stateName w with
              | Some t =>
                  if name_taken (Some n) (stateName r') (table w)
                  then (Throw
                          (PrismaClientKnownRequestError "P2002" (Some t)),
                        w')
                  else (Ok (render None r'),
                        with_table (replace_row n r' (table w)) w')
              | None =>
                  (Ok (render None r'),
                   with_table (replace_row n r' (table w)) w')
              end
        | _, _ => (Throw record_not_found, w')
        end
    end.

Definition delete (x : Js.Number) : M Js.Value :=
  fun w =>
    let w' := with_call (CDelete x) w in
    match reject_id (client w) x with
    | Some e => (Throw e, w')
    | None =>
        match x, row_of x (table w) with
        | Js.Num n, Some r =>
            (Ok (render None r),
             with_table (filter (fun y => negb (id y =? n)) (table w)) w')
        | _, _ => (Throw record_not_found, w')
        end
    end.

End Prisma.

(* ================================================================== *)
(** ** The schemas of the request bodies *)

Module Zod.

(** [z.string().min(1, message).max(255)] at [path]. *)
Definition string_1_255 (min_message : option string) (path : list string)
  (v : Js.Value) : Result string :=
  match v with
  | Js.JStr s =>
      if Z.of_nat (String.length s) <? 1
      then Throw (ZodError [mkIssue "too_small" path min_message])
      else if 255 <? Z.of_nat (String.length s)
      then Throw (ZodError [mkIssue "too_big" path None])
      else Ok s
  | _ => Throw (ZodError [mkIssue "invalid_type" path None])
  end.

(** A body that is not an object fails the object schema. *)
Definition not_an_object : Error :=
  ZodError [mkIssue "invalid_type" [] None].

End Zod.

(** The parsed body of a create request. *)
Record CreateInput : Type := mkCreateInput {
  input_stateName : string
}.

(** [z.object({ stateName: z.string().min(1, "State name is required").max(255) })]
    of [createState]. *)
Definition createSchema (body : Js.Value) : Result CreateInput :=
  match body with
  | Js.JObj fields =>
      match
        Zod.string_1_255 (Some "State name is required") ["stateName"]
          (match Js.get "stateName" fields with
           | Some v => v
           | None => Js.JUndefined
           end)
      with
      | Ok s => Ok (mkCreateInput s)
      | Throw e => Throw e
      end
  | _ => Throw Zod.not_an_object
  end.

(** The refinement of [updateState]'s schema:
    [Object.keys(data).length > 0]. *)
Definition at_least_one_field (data : list (string * Js.Value))
  : Result (list (string * Js.Value)) :=
  if 0 <? Z.of_nat (List.length (Js.keys data)) then Ok data
  else Throw (ZodError
                [mkIssue "custom" [] (Some "At least one field is required")]).

(** [z.object({ stateName: z.string().min(1).max(255).optional() }).refine(...)]
    of [updateState].  Unknown keys are stripped; the optional key is in
    the output when it is in the input, undefined or not. *)
Definition updateSchema (body : Js.Value)
  : Result (list (string * Js.Value)) :=
  match body with
  | Js.JObj fields =>
      match Js.get "stateName" fields with
      | None => at_least_one_field []
      | Some Js.JUndefined => at_least_one_field [("stateName", Js.JUndefined)]
      | Some v =>
          match Zod.string_1_255 None ["stateName"] v with
          | Ok s => at_least_one_field [("stateName", Js.JStr s)]
          | Throw e => Throw e
          end
      end
  | _ => Throw Zod.not_an_object
  end.

(* ================================================================== *)
(** ** Requests and the error-rendering wrapper *)

(** [req.query]: each parameter is a string or is missing. *)
Record Query : Type := mkQuery {
  q_page : option string;
  q_limit : option string;
  q_search : option string;
  q_sortBy : option string;
  q_sortOrder : option string
}.

Record Request : Type := mkRequest {
  params_id : option string;
  query : Query;
  body : Js.Value
}.

(** [res.json(body)] and [res.status(s).json(body)]. *)
Definition res_json (b : Js.Value) : M Response := ret (mkResponse 200 b).

Definition res_status_json (s : Z) (b : Js.Value) : M Response :=
  ret (mkResponse s b).

Definition errors_body (e : Js.Value) : Js.Value := Js.JObj [("errors", e)].

Definition message_body (m : string) : Js.Value :=
  Js.JObj [("message", Js.JStr m)].

Definition internal_server_error : Response :=
  mkResponse 500 (errors_body (message_body "Internal Server Error")).

(** The body of the [catch] of [asyncHandler]: the response sent for a
    rejected handler, and whether the error goes to [console.error]. *)
Definition render_error (err : Error) : Response * bool :=
  if match err_status err with Some st => st =? 400 | None => false end
     && err_expose err
  then
    (mkResponse 400
       (errors_body
          (match err_errors err with
           | Some e => e
           | None => message_body (err_message err)
           end)),
     false)
  else if (err_name err =? "PrismaClientValidationError")%string
  then (mkResponse 400 (errors_body (message_body (err_message err))), false)
  else
    match
      (if is_known_request_error err
       then
         match err_code err, err_meta_target err with
         | Some code, Some target =>
             if (code =? "P2002")%string && target_truthy target
             then
               let field := target_field target in
               let message :=
                 ("A record with that " ++ field ++ " already exists.")%string
               in
               Some
                 (mkResponse 400
                    (errors_body
                       (Js.JObj
                          [(field,
                            Js.JObj [("type", Js.JStr "unique");
                                     ("message", Js.JStr message)])])))
             else None
         | _, _ => None
         end
       else None)
    with
    | Some r => (r, false)
    | None => (internal_server_error, true)
    end.

(** [asyncHandler(fn)]: the response of the wrapped handler.  A handler
    that resolves has sent its own response; a rejection is rendered by
    [render_error] and never passed on. *)
Definition asyncHandler (fn : Request -> M Response) (req : Request)
  (w : World) : Response * World :=
  match fn req w with
  | (Ok r, w') => (r, w')
  | (Throw err, w') =>
      let '(r, logged) := render_error err in
      (r, if logged then with_console err w' else w')
  end.

(* ================================================================== *)
(** ** The handlers *)

Local Open Scope handler_scope.

Definition select_all : option (list string) :=
  Some ["id"; "stateName"; "createdAt"; "updatedAt"].

Definition default (d : string) (p : option string) : string :=
  match p with
  | Some s => s
  | None => d
  end.

(** [Math.max(1, parseInt(req.query.page) || 1)]. *)
Definition page_of (q : Query) : Js.Number :=
  Js.Math_max (Js.Num 1) (Js.or_else (Js.parseInt_param (q_page q)) 1).

(** [Math.max(1, parseInt(req.query.limit) || 10)]. *)
Definition limit_of (q : Query) : Js.Number :=
  Js.Math_max (Js.Num 1) (Js.or_else (Js.parseInt_param (q_limit q)) 10).

(** [(page - 1) * limit]. *)
Definition skip_of (q : Query) : Js.Number :=
  Js.times (Js.minus (page_of q) (Js.Num 1)) (limit_of q).

Definition where_of (q : Query) : option string :=
  let search := default "" (q_search q) in
  if Js.truthy_str search then Some search else None.

Definition orderBy_of (q : Query) : string * string :=
  let sortBy := default "stateName" (q_sortBy q) in
  let sortOrder := default "asc" (q_sortOrder q) in
  let mappedSortBy :=
    if (sortBy =? "name")%string then "stateName" else sortBy in
  (mappedSortBy, sortOrder).

(** A number in a JSON body: NaN and the infinities print as null. *)
Definition number_json (x : Js.Number) : Js.Value :=
  match x with
  | Js.Num n => Js.JNum n
  | _ => Js.JNull
  end.

Definition getStates_fn (req : Request) : M Response :=
  let page := page_of (query req) in
  let limit := limit_of (query req) in
  let skip := skip_of (query req) in
  let where_ := where_of (query req) in
  ' (states, total) <-
      Promise_all2
        (Prisma.findMany where_ skip limit (orderBy_of (query req))
           select_all)
        (Prisma.count where_) ;;
  let totalPages := Js.Math_ceil_div total limit in
  res_json
    (Js.JObj [("states", Js.JArr states);
              ("page", number_json page);
              ("totalPages", number_json totalPages);
              ("totalStates", Js.JNum total)]).

Definition getState_fn (req : Request) : M Response :=
  let id := Js.parseInt_param (params_id req) in
  if negb (Js.truthy id) then throw (createError 400 "Invalid state ID")
  else
    state <- Prisma.findUnique id select_all ;;
    match state with
    | None => throw (createError 404 "State not found")
    | Some s => res_json s
    end.

Definition createState_fn (req : Request) : M Response :=
  validatedData <- lift (createSchema (body req)) ;;
  state <- Prisma.create (input_stateName validatedData) ;;
  res_status_json 201 state.

(** The copy of the validated data without its undefined fields. *)
Definition remove_undefined (data : list (string * Js.Value))
  : list (string * Js.Value) :=
  filter (fun kv => negb (is_undefined (snd kv))) data.

Definition updateState_fn (req : Request) : M Response :=
  let id := Js.parseInt_param (params_id req) in
  if negb (Js.truthy id) then throw (createError 400 "Invalid state ID")
  else
    validatedData <- lift (updateSchema (body req)) ;;
    existing <- Prisma.findUnique id None ;;
    match existing with
    | None => throw (createError 404 "State not found")
    | Some _ =>
        let dataToUpdate := remove_undefined validatedData in
        updated <- Prisma.update id dataToUpdate ;;
        res_json updated
    end.

Definition deleteState_fn (req : Request) : M Response :=
  let id := Js.parseInt_param (params_id req) in
  if negb (Js.truthy id) then throw (createError 400 "Invalid state ID")
  else
    existing <- Prisma.findUnique id None ;;
    match existing with
    | None => throw (createError 404 "State not found")
    | Some _ =>
        _ <- Prisma.delete id ;;
        res_json (Js.JObj [("message", Js.JStr "State deleted successfully")])
    end.

(** The exported handlers. *)
Definition getStates := asyncHandler getStates_fn.
Definition getState := asyncHandler getState_fn.
Definition createState := asyncHandler createState_fn.
Definition updateState := asyncHandler updateState_fn.
Definition deleteState := asyncHandler deleteState_fn.

Local Close Scope handler_scope.

(* ================================================================== *)
(** ** The route table (routes/state.js) *)

(** The verbs of the requests the router is asked about: those it binds,
    and HEAD, which express serves through the GET routes. *)
Inductive Method : Type :=
| GET
| HEAD
| POST
| PUT
| DELETE.

Definition Method_eqb (a b : Method) : bool :=
  match a, b with
  | GET, GET | HEAD, HEAD | POST, POST | PUT, PUT | DELETE, DELETE => true
  | _, _ => false
  end.

(** Whether a route bound to the verb [bound] handles a request of verb
    [m]: its own verb, and HEAD for a GET route. *)
Definition handles (bound m : Method) : bool :=
  Method_eqb bound m
  || match bound, m with
     | GET, HEAD => true
     | _, _ => false
     end.

(** The two paths of the router: ["/"] and ["/:id"]. *)
Inductive Pattern : Type :=
| Root
| ItemId.

(** A path below the mount point is given by what follows its leading
    slash, split at the slashes, each segment decoded: ["/"] is [[""]],
    ["/2"] is [["2"]], ["/2/"] is [["2"; ""]]; the empty list stands for
    the mount point itself.  ["/"] matches the mount point with or without
    its slash; ["/:id"] matches one segment that is not empty, with or
    without a slash after it (routing is not strict), and binds the
    segment to [req.params.id]. *)
Definition match_path (p : Pattern) (path : list string)
  : option (option string) :=
  match p, path with
  | Root, [] => Some None
  | Root, [seg] => if (seg =? "")%string then Some None else None
  | ItemId, [seg] => if (seg =? "")%string then None else Some (Some seg)
  | ItemId, [seg; slash] =>
      if (seg =? "")%string then None
      else if (slash =? "")%string then Some (Some seg) else None
  | _, _ => None
  end.

(** A middleware either answers the request itself or calls [next()]
    ([None]). *)
Definition Middleware : Type := Request -> option Response.

Definition Handler : Type := Request -> World -> Response * World.

Record Route : Type := mkRoute {
  route_method : Method;
  route_path : Pattern;
  route_middleware : list Middleware;
  route_handler : Handler
}.

(** The five bindings of the router, in the order of the source.  The
    authentication middleware is a module that is not among the sources:
    it is a parameter. *)
Definition routes (auth : Middleware) : list Route :=
  [mkRoute GET Root [auth] getStates;
   mkRoute GET ItemId [auth] getState;
   mkRoute POST Root [auth] createState;
   mkRoute PUT ItemId [auth] updateState;
   mkRoute DELETE ItemId [auth] deleteState].

(** The first route that handles the verb and matches the path, with
    the parameter it binds. *)
Fixpoint find_route (rs : list Route) (m : Method) (path : list string)
  : option (Route * option string) :=
  match rs with
  | [] => None
  | r :: rest =>
      if handles (route_method r) m then
        match match_path (route_path r) path with
        | Some param => Some (r, param)
        | None => find_route rest m path
        end
      else find_route rest m path
  end.

(** The middleware run in order; the handler runs when each of them has
    called [next()]. *)
Fixpoint run_chain (mws : list Middleware) (h : Handler) (req : Request)
  (w : World) : Response * World :=
  match mws with
  | [] => h req w
  | mw :: rest =>
      match mw req with
      | Some r => (r, w)
      | None => run_chain rest h req w
      end
  end.

(** The router on a request: [None] when no route matches and the
    request is passed on. *)
Definition router (auth : Middleware) (m : Method) (path : list string)
  (q : Query) (b : Js.Value) (w : World) : option (Response * World) :=
  match find_route (routes auth) m path with
  | Some (r, param) =>
      Some (run_chain (route_middleware r) (route_handler r)
              (mkRequest param q b) w)
  | None => None
  end.
(* ================================================================== *)
(** ** Vocabulary of the statements: sample data, classes of errors,
    worlds after a write *)

Definition no_query : Query := mkQuery None None None None None.

(** Whether a number is an integer of 64 bits. *)
Definition fits_int64 (x : Js.Number) : bool :=
  match x with
  | Js.Num n => (- 2 ^ 63 <=? n) && (n <? 2 ^ 63)
  | _ => false
  end.

Definition not_an_integer (argument : string) : Error :=
  PrismaClientValidationError
    ("Invalid value for argument " ++ argument)%string.

(** A client for the examples, after the Prisma client: it refuses a
    number that is not an integer of 64 bits, fails on an empty sort
    field, ignores the field [__proto__], and refuses every other sort
    field that is not a column and every direction other than [asc] and
    [desc]; its filter is [includes] and its order that of the code
    units. *)
Definition sample_client : Client :=
  mkClient
    (fun x => if fits_int64 x then None else Some (not_an_integer "id"))
    (fun skip take orderBy =>
       if negb (fits_int64 skip && fits_int64 take)
       then Some (not_an_integer "skip or take")
       else if (fst orderBy =? "")%string
       then Some (OtherError "Error" "Invalid orderBy")
       else if (fst orderBy =? "__proto__")%string then None
       else if existsb (String.eqb (fst orderBy)) Prisma.columns
               && ((snd orderBy =? "asc")%string
                   || (snd orderBy =? "desc")%string)
       then None
       else Some (PrismaClientValidationError "Unknown argument in orderBy"))
    Js.includes
    String.compare.

(** Three rows, no uniqueness constraint, an empty journal. *)
Definition sample_world : World :=
  mkWorld
    [mkState 1 "Goa" 100 100; mkState 2 "Kerala" 110 120;
     mkState 3 "Assam" 130 130]
    4 200 None sample_client [] [].

(** The same rows under a schema that declares stateName unique. *)
Definition unique_world : World :=
  mkWorld (table sample_world) 4 200 (Some (TArr ["stateName"]))
    sample_client [] [].


(** A string of [n] zeros, and the numeral of 10^309, which no double
    holds. *)
Fixpoint zeros (n : nat) : string :=
  match n with
  | O => EmptyString
  | S k => String "0" (zeros k)
  end.

Definition numeral_1e309 : string := String "1" (zeros 309).

(** A no-break space. *)
Definition nbsp : ascii := ascii_of_nat 160.

(** The client has no objection to a call on the row of identifier [n],
    or to the list query of [q]. *)
Definition accepts_id (w : World) (n : Z) : Prop :=
  reject_id (client w) (Js.Num n) = None.

Definition accepts_list (w : World) (q : Query) : Prop :=
  reject_findMany (client w) (skip_of q) (limit_of q) (orderBy_of q) = None.

(** A number that is at least 1, or not negative, the positive infinity
    included. *)
Definition at_least_1 (x : Js.Number) : Prop :=
  match x with
  | Js.Num n => 1 <= n
  | Js.Inf false => True
  | _ => False
  end.

Definition not_negative (x : Js.Number) : Prop :=
  match x with
  | Js.Num n => 0 <= n
  | Js.Inf false => True
  | _ => False
  end.

(** The search of a list request says of a row: without a search, or
    with an empty one, every row is meant; otherwise those whose name the
    store's filter matches. *)
Definition searched (q : Query) (w : World) (r : State) : bool :=
  match q_search q with
  | None => true
  | Some s => if (s =? "")%string then true
              else contains (client w) s (stateName r)
  end.

(** The three classes of errors that [asyncHandler] answers with 400. *)
Definition exposed_400 (err : Error) : Prop :=
  err_status err = Some 400 /\ err_expose err = true.

Definition store_validation_error (err : Error) : Prop :=
  err_name err = "PrismaClientValidationError".

Definition unique_violation (err : Error) : Prop :=
  exists target,
    err = PrismaClientKnownRequestError "P2002" (Some target)
    /\ target_truthy target = true.

(** The per-field body of a uniqueness violation on [field]. *)
Definition already_exists_body (field : string) : Js.Value :=
  errors_body
    (Js.JObj
       [(field,
         Js.JObj
           [("type", Js.JStr "unique");
            ("message",
             Js.JStr
               ("A record with that " ++ field ++ " already exists.")%string)])]).

Definition invalid_id : Error := createError 400 "Invalid state ID".

Definition not_found : Error := createError 404 "State not found".

(** A decimal numeral: one decimal digit or more. *)
Fixpoint all_digits (s : string) : bool :=
  match s with
  | EmptyString => true
  | String d rest =>
      match Js.digit_value 10 d with
      | Some _ => all_digits rest
      | None => false
      end
  end.

Definition is_numeral (s : string) : bool :=
  match s with
  | EmptyString => false
  | String _ _ => all_digits s
  end.

(** Every failure of a schema is a Zod error. *)
Definition is_zod_error (e : Error) : Prop :=
  exists issues, e = ZodError issues.

Definition missing_id_request (b : Js.Value) : Request :=
  mkRequest (Some "999999") no_query b.

Definition empty_update_error : Error :=
  ZodError [mkIssue "custom" [] (Some "At least one field is required")].

(** The row after an update of its name at time [t]. *)
Definition renamed (r : State) (s : string) (t : Z) : State :=
  mkState (id r) s (createdAt r) t.

Definition negative_id_request (b : Js.Value) : Request :=
  mkRequest (Some "-5") no_query b.

(** The world after the deletion of row [n]. *)
Definition after_delete (n : Z) (w : World) : World :=
  with_table (filter (fun x => negb (id x =? n)) (table w))
    (with_call (CDelete (Js.Num n)) (with_call (CFindUnique (Js.Num n)) w)).

(** A body whose stateName is absent, empty or longer than 255
    characters. *)
Definition bad_stateName (fields : list (string * Js.Value)) : Prop :=
  Js.get "stateName" fields = None
  \/ exists s,
       Js.get "stateName" fields = Some (Js.JStr s)
       /\ (s = "" \/ 255 < Z.of_nat (String.length s)).

(** The row a create request inserts. *)
Definition created (w : World) (s : string) : State :=
  mkState (nextId w) s (now w) (now w).

Definition after_create (w : World) (s : string) : World :=
  with_nextId (nextId w + 1)
    (with_table (table w ++ [created w s]) (with_call (CCreate s) w)).

(** Identifiers are fresh when no row has the next identifier. *)
Definition fresh_nextId (w : World) : Prop :=
  nextId w <> 0 /\ Prisma.find_row (nextId w) (table w) = None.

(** A property of a JSON response body. *)
Definition field (k : string) (r : Response) : option Js.Value :=
  match json r with
  | Js.JObj fs => Js.get k fs
  | _ => None
  end.

(** The records of a list response. *)
Definition states_of (r : Response) : list Js.Value :=
  match field "states" r with
  | Some (Js.JArr l) => l
  | _ => []
  end.

(** All the rows a list request matches, in its order, as the response
    shows them. *)
Definition matching_rows (q : Query) (w : World) : list Js.Value :=
  map (Prisma.render select_all)
    (Prisma.sort_rows (client w) (orderBy_of q)
       (filter (Prisma.matches (client w) (where_of q)) (table w))).

Definition with_page (pg : option string) (q : Query) : Query :=
  mkQuery pg (q_limit q) (q_search q) (q_sortBy q) (q_sortOrder q).

(** A stateName the schemas accept. *)
Definition valid_name (s : string) : Prop :=
  1 <= Z.of_nat (String.length s) <= 255.

(** The identifiers of the table are distinct, positive and below the
    next identifier. *)
Definition store_ok (w : World) : Prop :=
  0 < nextId w
  /\ NoDup (map id (table w))
  /\ Forall (fun r => 0 < id r < nextId w) (table w).

(** A body the update schema accepts: an object whose stateName is a
    valid name, or is present and undefined (which no JSON body is). *)
Definition update_body_ok (b : Js.Value) : Prop :=
  exists fields,
    b = Js.JObj fields
    /\ (Js.get "stateName" fields = Some Js.JUndefined
        \/ exists s,
             Js.get "stateName" fields = Some (Js.JStr s) /\ valid_name s).

(** The store has no objection of uniqueness to the name [s] for the row
    [self] (or for a new row). *)
Definition name_free (w : World) (self : option Z) (s : string) : Prop :=
  unique_stateName w = None \/ Prisma.name_taken self s (table w) = false.

(** The world after the two calls of a list request, and the number of
    rows its filter matches. *)
Definition list_journal (q : Query) (w : World) : World :=
  with_call (CCount (where_of q))
    (with_call (CFindMany (where_of q) (skip_of q) (limit_of q) (orderBy_of q))
       w).

Definition total_of (q : Query) (w : World) : Z :=
  Z.of_nat
    (List.length (filter (Prisma.matches (client w) (where_of q)) (table w))).


(** The table has no more rows than a double counts exactly. *)
Definition table_fits (w : World) : Prop :=
  Z.of_nat (List.length (table w)) <= Js.two53.

(** The requests of the examples on lists. *)
Definition bogus_sort_request : Request :=
  mkRequest None (mkQuery (Some "1") (Some "1") None (Some "bogus") None)
    Js.JUndefined.

Definition huge_limit_request : Request :=
  mkRequest None (mkQuery None (Some numeral_1e309) None None None)
    Js.JUndefined.

(** The response to a list request that the client accepts. *)
Definition list_response (q : Query) (w : World) : Response :=
  mkResponse 200
    (Js.JObj
       [("states",
         Js.JArr
           (Prisma.take_rows (limit_of q)
              (Prisma.skip_rows (skip_of q) (matching_rows q w))));
        ("page", number_json (page_of q));
        ("totalPages",
         number_json (Js.Math_ceil_div (total_of q w) (limit_of q)));
        ("totalStates", Js.JNum (total_of q w))]).
(* ================================================================== *)
(** ** parseInt on examples *)

Example parseInt_12abc : Js.parseInt "12abc" = Js.Num 12.
Proof. reflexivity. Qed.

Example parseInt_neg : Js.parseInt "  -5" = Js.Num (-5).
Proof. reflexivity. Qed.

Example parseInt_hex : Js.parseInt "0x1A" = Js.Num 26.
Proof. reflexivity. Qed.

Example parseInt_abc : Js.parseInt "abc" = Js.NaN.
Proof. reflexivity. Qed.

Example parseInt_missing : Js.parseInt_param None = Js.NaN.
Proof. reflexivity. Qed.

Example parseInt_nbsp : Js.parseInt (String nbsp "2") = Js.Num 2.
Proof. reflexivity. Qed.

(** Above 2^53 the low bits are lost, ties going to the even mantissa. *)
Example parseInt_above_two53 :
  Js.parseInt "9007199254740993" = Js.Num 9007199254740992
  /\ Js.parseInt "9007199254740995" = Js.Num 9007199254740996.
Proof. split; vm_compute; reflexivity. Qed.

Example parseInt_1e309 : Js.parseInt numeral_1e309 = Js.Inf false.
Proof. vm_compute. reflexivity. Qed.

(* ================================================================== *)
(** ** Rounding *)

(** Up to 2^53 in absolute value nothing is lost. *)
Lemma of_Z_small (n : Z) :
  Z.abs n <= Js.two53 -> Js.of_Z n = Js.Num n.
Proof.
  intros Hn. unfold Js.of_Z, Js.round_magnitude.
  destruct (Z.leb_spec (Z.abs n) Js.two53) as [_|Hgt]; [|lia].
  f_equal. lia.
Qed.

(** From 2^53 on the result is at least 2^53, or infinite. *)
Lemma of_Z_large (n : Z) :
  Js.two53 <= n ->
  (exists v, Js.of_Z n = Js.Num v /\ Js.two53 <= v)
  \/ Js.of_Z n = Js.Inf false.
Proof.
  intros Hn.
  assert (Hpos : 0 < Js.two53) by reflexivity.
  unfold Js.of_Z, Js.round_magnitude.
  rewrite (Z.abs_eq n) by lia.
  replace (Z.sgn n) with 1 by lia.
  replace (n <? 0) with false by (symmetry; apply Z.ltb_ge; lia).
  destruct (Z.leb_spec n Js.two53) as [Hle|Hgt].
  { left. exists n. split; [f_equal; lia | exact Hn]. }
  set (e := Z.log2 n).
  assert (He : 2 ^ e <= n < 2 ^ Z.succ e) by (apply Z.log2_spec; lia).
  assert (He53 : 53 <= e).
  { destruct (Z.le_gt_cases 53 e) as [H|H]; [exact H|]. exfalso.
    assert (2 ^ Z.succ e <= 2 ^ 53) by (apply Z.pow_le_mono_r; lia).
    unfold Js.two53 in Hgt. lia. }
  set (ulp := 2 ^ (e - 52)).
  assert (Hulp : 0 < ulp) by (apply Z.pow_pos_nonneg; lia).
  assert (Hsplit : 2 ^ e = 2 ^ 52 * ulp).
  { unfold ulp. rewrite <- Z.pow_add_r by lia. f_equal. lia. }
  assert (Hq : 2 ^ 52 <= n / ulp).
  { apply Z.div_le_lower_bound; [exact Hulp|]. lia. }
  set (q := n / ulp) in *.
  set (q' := if 2 * (n mod ulp) <? ulp then q
             else if ulp <? 2 * (n mod ulp) then q + 1
             else if Z.even q then q else q + 1).
  assert (Hq' : q <= q').
  { unfold q'. destruct (2 * (n mod ulp) <? ulp); [lia|].
    destruct (ulp <? 2 * (n mod ulp)); [lia|].
    destruct (Z.even q); lia. }
  assert (Hv : Js.two53 <= q' * ulp).
  { assert (2 ^ 53 <= 2 ^ e) by (apply Z.pow_le_mono_r; lia).
    unfold Js.two53. nia. }
  destruct (Js.two1024 <=? q' * ulp).
  - right. reflexivity.
  - left. exists (q' * ulp). split; [f_equal; lia | exact Hv].
Qed.

Lemma of_Z_at_least_1 (n : Z) : 1 <= n -> at_least_1 (Js.of_Z n).
Proof.
  intros Hn. destruct (Z.le_gt_cases Js.two53 n) as [Hbig|Hsmall].
  - destruct (of_Z_large n Hbig) as [[v [-> Hv]] | ->]; cbn.
    + assert (0 < Js.two53) by reflexivity. lia.
    + exact I.
  - rewrite of_Z_small by lia. exact Hn.
Qed.

(* ================================================================== *)
(** ** The window of a list request *)

(** The page, from what [parseInt] reads. *)
Lemma page_of_eq (q : Query) :
  page_of q =
    match Js.parseInt_param (q_page q) with
    | Js.NaN => Js.Num 1
    | Js.Num n => if n =? 0 then Js.Num 1 else Js.Num (Z.max 1 n)
    | Js.Inf false => Js.Inf false
    | Js.Inf true => Js.Num 1
    end.
Proof.
  unfold page_of, Js.or_else, Js.truthy.
  destruct (Js.parseInt_param (q_page q)) as [|n|[|]]; try reflexivity.
  destruct (n =? 0); reflexivity.
Qed.

(** The limit, likewise. *)
Lemma limit_of_eq (q : Query) :
  limit_of q =
    match Js.parseInt_param (q_limit q) with
    | Js.NaN => Js.Num 10
    | Js.Num n => if n =? 0 then Js.Num 10 else Js.Num (Z.max 1 n)
    | Js.Inf false => Js.Inf false
    | Js.Inf true => Js.Num 1
    end.
Proof.
  unfold limit_of, Js.or_else, Js.truthy.
  destruct (Js.parseInt_param (q_limit q)) as [|n|[|]]; try reflexivity.
  destruct (n =? 0); reflexivity.
Qed.

Lemma page_of_at_least_1 (q : Query) : at_least_1 (page_of q).
Proof.
  rewrite page_of_eq.
  destruct (Js.parseInt_param (q_page q)) as [|n|[|]]; cbn; try lia;
    try exact I.
  destruct (n =? 0); cbn; lia.
Qed.

Lemma limit_of_at_least_1 (q : Query) : at_least_1 (limit_of q).
Proof.
  rewrite limit_of_eq.
  destruct (Js.parseInt_param (q_limit q)) as [|n|[|]]; cbn; try lia;
    try exact I.
  destruct (n =? 0); cbn; lia.
Qed.

Lemma page_of_valid (q : Query) (p : Z) :
  Js.parseInt_param (q_page q) = Js.Num p -> 1 <= p ->
  page_of q = Js.Num p.
Proof.
  intros Hp Hge. rewrite page_of_eq, Hp.
  destruct (Z.eqb_spec p 0); [lia | f_equal; lia].
Qed.

Lemma limit_of_valid (q : Query) (l : Z) :
  Js.parseInt_param (q_limit q) = Js.Num l -> 1 <= l ->
  limit_of q = Js.Num l.
Proof.
  intros Hl Hge. rewrite limit_of_eq, Hl.
  destruct (Z.eqb_spec l 0); [lia | f_equal; lia].
Qed.

(** The offset is not negative, except that it is NaN on the first page
    of an infinite limit. *)
Lemma skip_of_cases (q : Query) :
  (page_of q = Js.Num 1 /\ limit_of q = Js.Inf false
   /\ skip_of q = Js.NaN)
  \/ ((page_of q <> Js.Num 1 \/ limit_of q <> Js.Inf false)
      /\ not_negative (skip_of q)).
Proof.
  pose proof (page_of_at_least_1 q) as Hp.
  pose proof (limit_of_at_least_1 q) as Hl.
  unfold skip_of.
  destruct (page_of q) as [|p|[|]]; cbn in Hp; try contradiction.
  - (* a finite page *)
    destruct (Z.eq_dec p 1) as [->|Hp1].
    + destruct (limit_of q) as [|l|[|]]; cbn in Hl; try contradiction.
      * right. split; [right; discriminate|].
        unfold Js.minus. change (1 - 1) with 0.
        rewrite (of_Z_small 0) by (vm_compute; discriminate).
        unfold Js.times. rewrite Z.mul_0_l.
        rewrite (of_Z_small 0) by (vm_compute; discriminate).
        cbn. lia.
      * left. repeat split; reflexivity.
    + right. split; [left; congruence|].
      unfold Js.minus.
      pose proof (of_Z_at_least_1 (p - 1) ltac:(lia)) as Ha.
      destruct (Js.of_Z (p - 1)) as [|a|[|]]; cbn in Ha; try contradiction.
      * destruct (limit_of q) as [|l|[|]]; cbn in Hl; try contradiction.
        -- unfold Js.times.
           pose proof (of_Z_at_least_1 (a * l) ltac:(nia)) as Hs.
           destruct (Js.of_Z (a * l)) as [|s|[|]]; cbn in Hs |- *;
             try contradiction; [lia | exact I].
        -- cbn. destruct (Z.eqb_spec a 0); [lia|].
           replace (a <? 0) with false
             by (symmetry; apply Z.ltb_ge; lia).
           exact I.
      * destruct (limit_of q) as [|l|[|]]; cbn in Hl; try contradiction.
        -- cbn. destruct (Z.eqb_spec l 0); [lia|].
           replace (l <? 0) with false
             by (symmetry; apply Z.ltb_ge; lia).
           exact I.
        -- exact I.
  - (* an infinite page *)
    right. split; [left; discriminate|].
    destruct (limit_of q) as [|l|[|]]; cbn in Hl; try contradiction.
    + cbn. destruct (Z.eqb_spec l 0); [lia|].
      replace (l <? 0) with false by (symmetry; apply Z.ltb_ge; lia).
      exact I.
    + exact I.
Qed.

(** On a positive finite divisor [Math_ceil_div] of a count is the
    ceiling of the quotient: the least [k] with [a <= k * b]. *)
Lemma Math_ceil_div_spec (a b : Z) :
  0 <= a <= Js.two53 -> 1 <= b ->
  exists k, Js.Math_ceil_div a (Js.Num b) = Js.Num k
            /\ (k - 1) * b < a <= k * b /\ 0 <= k <= a.
Proof.
  intros Ha Hb. unfold Js.Math_ceil_div.
  replace (b =? 0) with false by (symmetry; apply Z.eqb_neq; lia).
  pose proof (Z.div_mod (- a) b ltac:(lia)) as Hdm.
  pose proof (Z.mod_pos_bound (- a) b ltac:(lia)) as Hmod.
  assert (Hk : (- (- a / b) - 1) * b < a <= - (- a / b) * b) by nia.
  assert (Hrange : 0 <= - (- a / b) <= a) by nia.
  exists (- (- a / b)). rewrite of_Z_small by lia.
  split; [reflexivity|]. split; assumption.
Qed.

(* ================================================================== *)
(** ** Error rendering *)

(** A rejection is answered with 400 and not logged, or with the generic
    500 and logged. *)
Lemma render_error_cases (e : Error) :
  (status (fst (render_error e)) = 400 /\ snd (render_error e) = false)
  \/ render_error e = (internal_server_error, true).
Proof.
  destruct e as [st m | issues | m | code target | name m];
    unfold render_error; cbn.
  - destruct (Z.eqb_spec st 400) as [->|Hne]; cbn.
    + left. split; reflexivity.
    + right. destruct (st =? 404); reflexivity.
  - right. reflexivity.
  - left. split; reflexivity.
  - destruct target as [t|]; [|right; reflexivity].
    destruct ((code =? "P2002")%string && target_truthy t);
      [left; split; reflexivity | right; reflexivity].
  - destruct (name =? "PrismaClientValidationError")%string;
      [left; split; reflexivity | right; reflexivity].
Qed.

Lemma render_error_status (e : Error) :
  status (fst (render_error e)) = 400
  \/ status (fst (render_error e)) = 500.
Proof.
  destruct (render_error_cases e) as [[H _] | H];
    [left; exact H | right; rewrite H; reflexivity].
Qed.

Lemma render_error_unique (target : MetaTarget) :
  target_truthy target = true ->
  render_error (PrismaClientKnownRequestError "P2002" (Some target)) =
    (mkResponse 400 (already_exists_body (target_field target)), false).
Proof.
  intros Ht. unfold render_error. cbn. rewrite Ht. reflexivity.
Qed.

Lemma render_error_unclassified (err : Error) :
  ~ exposed_400 err -> ~ store_validation_error err ->
  ~ unique_violation err ->
  render_error err = (internal_server_error, true).
Proof.
  unfold exposed_400, store_validation_error, unique_violation.
  intros H400 Hval Huniq.
  destruct err as [st m | issues | m | code target | name m];
    unfold render_error; cbn.
  - destruct (Z.eqb_spec st 400) as [->|Hne].
    + exfalso. apply H400. split; reflexivity.
    + cbn. destruct (st =? 404); reflexivity.
  - reflexivity.
  - exfalso. apply Hval. reflexivity.
  - destruct target as [t|]; [|reflexivity].
    destruct (String.eqb_spec code "P2002") as [->|Hne]; [|reflexivity].
    destruct (target_truthy t) eqn:Ht; [|reflexivity].
    exfalso. apply Huniq. exists t. split; [reflexivity | exact Ht].
  - destruct (String.eqb_spec name "PrismaClientValidationError")
      as [->|Hne].
    + exfalso. apply Hval. reflexivity.
    + reflexivity.
Qed.

(** The response of the wrapper to a rejection. *)
Lemma asyncHandler_throw (fn : Request -> M Response) (req : Request)
  (w w' : World) (e : Error) :
  fn req w = (Throw e, w') ->
  fst (asyncHandler fn req w) = fst (render_error e)
  /\ table (snd (asyncHandler fn req w)) = table w'
  /\ nextId (snd (asyncHandler fn req w)) = nextId w'
  /\ calls (snd (asyncHandler fn req w)) = calls w'
  /\ client (snd (asyncHandler fn req w)) = client w'.
Proof.
  intros Hrun. unfold asyncHandler. rewrite Hrun.
  destruct (render_error e) as [r [|]]; repeat split.
Qed.

(* ================================================================== *)
(** ** The list operation *)

Lemma take_rows_map {A B} (f : A -> B) (x : Js.Number) (l : list A) :
  Prisma.take_rows x (map f l) = map f (Prisma.take_rows x l).
Proof.
  destruct x as [|n|[|]]; cbn; try reflexivity. apply firstn_map.
Qed.

Lemma skip_rows_map {A B} (f : A -> B) (x : Js.Number) (l : list A) :
  Prisma.skip_rows x (map f l) = map f (Prisma.skip_rows x l).
Proof.
  destruct x as [|n|[|]]; cbn; try reflexivity. apply skipn_map.
Qed.

(** The filter a list request passes to the store is its search. *)
Lemma matches_searched (q : Query) (w : World) (r : State) :
  Prisma.matches (client w) (where_of q) r = searched q w r.
Proof.
  unfold where_of, searched, default, Js.truthy_str, Prisma.matches.
  destruct (q_search q) as [s|]; [|reflexivity].
  destruct (s =? "")%string; reflexivity.
Qed.

Lemma total_of_searched (q : Query) (w : World) :
  total_of q w = Z.of_nat (List.length (filter (searched q w) (table w))).
Proof.
  unfold total_of. do 2 f_equal. apply filter_ext.
  intros r. apply matches_searched.
Qed.

Lemma total_of_range (q : Query) (w : World) :
  table_fits w -> 0 <= total_of q w <= Js.two53.
Proof.
  unfold table_fits, total_of. intros Hfit.
  pose proof (filter_length_le (Prisma.matches (client w) (where_of q))
                (table w)).
  lia.
Qed.

Lemma getStates_fn_accepted (req : Request) (w : World) :
  accepts_list w (query req) ->
  getStates_fn req w =
    (Ok (list_response (query req) w), list_journal (query req) w).
Proof.
  unfold accepts_list. intros Hacc.
  unfold getStates_fn, bind, Promise_all2, Prisma.findMany, Prisma.count,
    res_json, ret.
  rewrite Hacc. cbn [table client with_call].
  unfold list_response, matching_rows.
  rewrite skip_rows_map, take_rows_map. reflexivity.
Qed.

Lemma getStates_fn_rejected (req : Request) (w : World) (e : Error) :
  reject_findMany (client w) (skip_of (query req)) (limit_of (query req))
    (orderBy_of (query req)) = Some e ->
  getStates_fn req w = (Throw e, list_journal (query req) w).
Proof.
  intros Hrej.
  unfold getStates_fn, bind, Promise_all2, Prisma.findMany, Prisma.count.
  rewrite Hrej. reflexivity.
Qed.

Lemma getStates_accepted (req : Request) (w : World) :
  accepts_list w (query req) ->
  getStates req w = (list_response (query req) w, list_journal (query req) w).
Proof.
  intros Hacc. unfold getStates, asyncHandler.
  rewrite (getStates_fn_accepted req w Hacc). reflexivity.
Qed.

(** A list request that is answered with 200 was accepted. *)
Lemma getStates_200_accepted (req : Request) (w : World) :
  status (fst (getStates req w)) = 200 -> accepts_list w (query req).
Proof.
  intros H200. unfold accepts_list.
  destruct (reject_findMany (client w) (skip_of (query req))
              (limit_of (query req)) (orderBy_of (query req)))
    as [e|] eqn:Hrej; [|reflexivity].
  exfalso.
  destruct (asyncHandler_throw getStates_fn req w _ e
              (getStates_fn_rejected req w e Hrej)) as [Hresp _].
  fold getStates in Hresp. rewrite Hresp in H200.
  destruct (render_error_status e) as [H|H]; rewrite H in H200;
    discriminate H200.
Qed.

Lemma getStates_calls (req : Request) (w : World) :
  calls (snd (getStates req w)) =
    calls w
    ++ [CFindMany (where_of (query req)) (skip_of (query req))
          (limit_of (query req)) (orderBy_of (query req));
        CCount (where_of (query req))].
Proof.
  destruct (reject_findMany (client w) (skip_of (query req))
              (limit_of (query req)) (orderBy_of (query req)))
    as [e|] eqn:Hrej.
  - destruct (asyncHandler_throw getStates_fn req w _ e
                (getStates_fn_rejected req w e Hrej))
      as (_ & _ & _ & Hcalls & _).
    fold getStates in Hcalls. rewrite Hcalls. cbn.
    rewrite <- app_assoc. reflexivity.
  - rewrite (getStates_accepted req w Hrej). cbn.
    rewrite <- app_assoc. reflexivity.
Qed.

(** C2, as stated, fails: with page 1 and limit 1, both valid, a list
    request that sorts by a field the store does not know is answered
    with 400, and its body has no totalPages. *)
Lemma getStates_valid_window_without_totalPages_counterexample :
  Js.parseInt_param (q_page (query bogus_sort_request)) = Js.Num 1
  /\ Js.parseInt_param (q_limit (query bogus_sort_request)) = Js.Num 1
  /\ status (fst (getStates bogus_sort_request sample_world)) = 400
  /\ field "totalPages" (fst (getStates bogus_sort_request sample_world)) =
       None
  /\ field "totalStates" (fst (getStates bogus_sort_request sample_world)) =
       None.
Proof. repeat split. Qed.

(** C2, amended.  For every list request whose page and limit are
    numbers of at least 1 and that is answered with 200, on a table of at
    most 2^53 rows: the response carries the requested page, a totalPages
    that is the ceiling of totalStates / limit, at most limit records,
    and a totalStates that counts every row the search matches (every row
    when there is no search or an empty one), whatever the page and the
    limit. *)
Theorem getStates_pagination_metadata :
  forall (req : Request) (w : World) (p l : Z) (r : Response) (w' : World),
    Js.parseInt_param (q_page (query req)) = Js.Num p -> 1 <= p ->
    Js.parseInt_param (q_limit (query req)) = Js.Num l -> 1 <= l ->
    table_fits w ->
    getStates req w = (r, w') ->
    status r = 200 ->
    exists (states : list Js.Value) (totalPages totalStates : Z),
      json r =
        Js.JObj [("states", Js.JArr states);
                 ("page", Js.JNum p);
                 ("totalPages", Js.JNum totalPages);
                 ("totalStates", Js.JNum totalStates)]
      /\ (totalPages - 1) * l < totalStates <= totalPages * l
      /\ Z.of_nat (List.length states) <= l
      /\ totalStates =
           Z.of_nat
             (List.length
                (filter
                   (fun row =>
                      match q_search (query req) with
                      | None => true
                      | Some s =>
                          if (s =? "")%string then true
                          else contains (client w) s (stateName row)
                      end)
                   (table w))).
Proof.
  intros req w p l r w' Hp Hp1 Hl Hl1 Hfit Hrun Hstatus.
  assert (Hacc : accepts_list w (query req)).
  { apply getStates_200_accepted. rewrite Hrun. exact Hstatus. }
  rewrite (getStates_accepted req w Hacc) in Hrun.
  injection Hrun as <- _.
  pose proof (page_of_valid _ _ Hp Hp1) as Hpage.
  pose proof (limit_of_valid _ _ Hl Hl1) as Hlimit.
  destruct (Math_ceil_div_spec (total_of (query req) w) l
              (total_of_range _ w Hfit) Hl1) as (k & Hk & Hbounds & _).
  unfold list_response. rewrite Hpage, Hlimit, Hk. cbn [json number_json].
  eexists _, k, (total_of (query req) w).
  split; [reflexivity|]. split; [exact Hbounds|]. split.
  - cbn [Prisma.take_rows].
    pose proof (firstn_le_length (Z.to_nat l)
                  (Prisma.skip_rows (skip_of (query req))
                     (matching_rows (query req) w))).
    lia.
  - apply total_of_searched.
Qed.

Lemma getStates_pagination_metadata_witness :
  exists (states : list Js.Value) (totalPages totalStates : Z),
    json (fst (getStates
                 (mkRequest None
                    (mkQuery (Some "2") (Some "2") None None None)
                    Js.JUndefined)
                 sample_world)) =
      Js.JObj [("states", Js.JArr states);
               ("page", Js.JNum 2);
               ("totalPages", Js.JNum totalPages);
               ("totalStates", Js.JNum totalStates)]
    /\ (totalPages - 1) * 2 < totalStates <= totalPages * 2
    /\ Z.of_nat (List.length states) <= 2
    /\ totalStates = 3.
Proof.
  destruct
    (getStates_pagination_metadata
       (mkRequest None (mkQuery (Some "2") (Some "2") None None None)
          Js.JUndefined)
       sample_world 2 2 _ _
       eq_refl ltac:(lia) eq_refl ltac:(lia)
       ltac:(vm_compute; discriminate) eq_refl eq_refl)
    as (states & tp & ts & Hjson & Hb & Hlen & Hts).
  exists states, tp, ts.
  repeat split; try assumption; try (apply Hb).
Defined.

(** C10, as stated, fails: with a limit of 310 digits, which is
    Infinity, the first page has the offset 0 * Infinity, which is NaN and
    not a number that is at least 0; the store is called with it. *)
Lemma getStates_infinite_limit_counterexample :
  limit_of (query huge_limit_request) = Js.Inf false
  /\ page_of (query huge_limit_request) = Js.Num 1
  /\ skip_of (query huge_limit_request) = Js.NaN
  /\ ~ not_negative (skip_of (query huge_limit_request))
  /\ calls (snd (getStates huge_limit_request sample_world)) =
       [CFindMany None Js.NaN (Js.Inf false) ("stateName", "asc");
        CCount None].
Proof.
  assert (Hlimit : limit_of (query huge_limit_request) = Js.Inf false)
    by (vm_compute; reflexivity).
  assert (Hskip : skip_of (query huge_limit_request) = Js.NaN)
    by (vm_compute; reflexivity).
  split; [exact Hlimit|]. split; [reflexivity|]. split; [exact Hskip|].
  split.
  - rewrite Hskip. exact (fun H => H).
  - rewrite getStates_calls, Hskip, Hlimit. reflexivity.
Qed.

(** C10, amended.  Whatever the query, the page and the limit the
    operation works with are at least 1 (a limit of -5 becomes 1, a limit
    of 0 the default 10, a numeral beyond the doubles Infinity), so the
    limit is never 0 and the division for totalPages of a count gives an
    integer; the offset (page - 1) * limit is at least 0 unless the page
    is 1 and the limit is Infinity, where it is NaN; these are the values
    the store is called with. *)
Theorem getStates_window_clamped :
  forall (req : Request) (w : World),
    at_least_1 (page_of (query req))
    /\ at_least_1 (limit_of (query req))
    /\ limit_of (query req) <> Js.Num 0
    /\ page_of (query req) =
         match Js.parseInt_param (q_page (query req)) with
         | Js.NaN => Js.Num 1
         | Js.Num n => if n =? 0 then Js.Num 1 else Js.Num (Z.max 1 n)
         | Js.Inf false => Js.Inf false
         | Js.Inf true => Js.Num 1
         end
    /\ limit_of (query req) =
         match Js.parseInt_param (q_limit (query req)) with
         | Js.NaN => Js.Num 10
         | Js.Num n => if n =? 0 then Js.Num 10 else Js.Num (Z.max 1 n)
         | Js.Inf false => Js.Inf false
         | Js.Inf true => Js.Num 1
         end
    /\ (forall total : Z,
          0 <= total <= Js.two53 ->
          exists k : Z,
            Js.Math_ceil_div total (limit_of (query req)) = Js.Num k
            /\ 0 <= k <= total)
    /\ (skip_of (query req) = Js.NaN <->
        page_of (query req) = Js.Num 1
        /\ limit_of (query req) = Js.Inf false)
    /\ (skip_of (query req) <> Js.NaN ->
        not_negative (skip_of (query req)))
    /\ calls (snd (getStates req w)) =
         calls w
         ++ [CFindMany (where_of (query req)) (skip_of (query req))
               (limit_of (query req)) (orderBy_of (query req));
             CCount (where_of (query req))]
    /\ limit_of (mkQuery (q_page (query req)) (Some "-5")
                   (q_search (query req)) (q_sortBy (query req))
                   (q_sortOrder (query req))) = Js.Num 1
    /\ limit_of (mkQuery (q_page (query req)) (Some "0")
                   (q_search (query req)) (q_sortBy (query req))
                   (q_sortOrder (query req))) = Js.Num 10.
Proof.
  intros req w.
  pose proof (page_of_at_least_1 (query req)) as Hp.
  pose proof (limit_of_at_least_1 (query req)) as Hl.
  split; [exact Hp|]. split; [exact Hl|]. split.
  { intros H0. rewrite H0 in Hl. cbn in Hl. lia. }
  split; [apply page_of_eq|]. split; [apply limit_of_eq|]. split.
  { intros total Htotal.
    destruct (limit_of (query req)) as [|l|[|]]; cbn in Hl;
      try contradiction.
    - destruct (Math_ceil_div_spec total l Htotal Hl) as (k & Hk & _ & Hr).
      exists k. split; assumption.
    - exists 0. split; [reflexivity | lia]. }
  split.
  { destruct (skip_of_cases (query req))
      as [(Hpage & Hlimit & Hskip) | [Hother Hnn]].
    - rewrite Hskip, Hpage, Hlimit. split; auto.
    - split.
      + intros Hnan. rewrite Hnan in Hnn. contradiction.
      + intros [Hpage Hlimit]. destruct Hother; contradiction. }
  split.
  { intros Hnan.
    destruct (skip_of_cases (query req))
      as [(_ & _ & Hskip) | [_ Hnn]]; [contradiction | exact Hnn]. }
  split; [apply getStates_calls|]. split; reflexivity.
Qed.

Lemma getStates_window_clamped_witness :
  not_negative
    (skip_of (mkQuery (Some "3") (Some "-5") None None None))
  /\ exists k : Z,
       Js.Math_ceil_div 3 (limit_of (mkQuery None (Some "2") None None None))
         = Js.Num k
       /\ 0 <= k <= 3.
Proof.
  destruct
    (getStates_window_clamped
       (mkRequest None (mkQuery (Some "3") (Some "-5") None None None)
          Js.JUndefined) sample_world)
    as (_ & _ & _ & _ & _ & _ & _ & Hskip & _).
  destruct
    (getStates_window_clamped
       (mkRequest None (mkQuery None (Some "2") None None None)
          Js.JUndefined) sample_world)
    as (_ & _ & _ & _ & _ & Hdiv & _).
  split.
  - apply Hskip. discriminate.
  - apply Hdiv. split; [lia | vm_compute; discriminate].
Defined.

(** C8, as stated, fails: a list request that sorts by a field that is
    not a column is answered with 400, not 200. *)
Lemma getStates_unknown_sort_field_counterexample :
  status (fst (getStates bogus_sort_request sample_world)) = 400
  /\ status (fst (getStates bogus_sort_request sample_world)) <> 200.
Proof. split; [reflexivity | discriminate]. Qed.

(** C8, amended.  The list operation raises no error of its own.  A
    page or limit that is not a number, or is 0, is replaced by the
    default (1 and 10) and a negative one by 1, rather than refused.  When
    the store accepts the query the response is 200; when it refuses it,
    the operation rejects with the error of the store, which the wrapper
    renders: with 400 when it is a validation error. *)
Theorem getStates_fails_with_the_store_only :
  forall (req : Request) (w : World),
    (reject_findMany (client w) (skip_of (query req))
       (limit_of (query req)) (orderBy_of (query req)) = None ->
     status (fst (getStates req w)) = 200
     /\ exists r, getStates_fn req w = (Ok r, list_journal (query req) w))
    /\ (forall e,
          reject_findMany (client w) (skip_of (query req))
            (limit_of (query req)) (orderBy_of (query req)) = Some e ->
          getStates_fn req w = (Throw e, list_journal (query req) w)
          /\ fst (getStates req w) = fst (render_error e))
    /\ (forall m,
          reject_findMany (client w) (skip_of (query req))
            (limit_of (query req)) (orderBy_of (query req)) =
            Some (PrismaClientValidationError m) ->
          fst (getStates req w) =
            mkResponse 400
              (Js.JObj [("errors", Js.JObj [("message", Js.JStr m)])]))
    /\ page_of (query req) =
         match Js.parseInt_param (q_page (query req)) with
         | Js.NaN => Js.Num 1
         | Js.Num n => if n =? 0 then Js.Num 1 else Js.Num (Z.max 1 n)
         | Js.Inf false => Js.Inf false
         | Js.Inf true => Js.Num 1
         end
    /\ limit_of (query req) =
         match Js.parseInt_param (q_limit (query req)) with
         | Js.NaN => Js.Num 10
         | Js.Num n => if n =? 0 then Js.Num 10 else Js.Num (Z.max 1 n)
         | Js.Inf false => Js.Inf false
         | Js.Inf true => Js.Num 1
         end.
Proof.
  intros req w. split.
  { intros Hacc. rewrite (getStates_accepted req w Hacc).
    split; [reflexivity|]. eexists.
    exact (getStates_fn_accepted req w Hacc). }
  split.
  { intros e Hrej.
    pose proof (getStates_fn_rejected req w e Hrej) as Hfn.
    split; [exact Hfn|].
    exact (proj1 (asyncHandler_throw getStates_fn req w _ e Hfn)). }
  split.
  { intros m Hrej.
    pose proof (getStates_fn_rejected req w _ Hrej) as Hfn.
    unfold getStates.
    rewrite (proj1 (asyncHandler_throw getStates_fn req w _ _ Hfn)).
    reflexivity. }
  split; [apply page_of_eq | apply limit_of_eq].
Qed.

Lemma getStates_fails_with_the_store_only_witness :
  status
    (fst (getStates (mkRequest None no_query Js.JUndefined) sample_world)) =
    200
  /\ fst (getStates bogus_sort_request sample_world) =
       mkResponse 400
         (Js.JObj
            [("errors",
              Js.JObj
                [("message", Js.JStr "Unknown argument in orderBy")])]).
Proof.
  split.
  - apply
      (proj1
         (getStates_fails_with_the_store_only
            (mkRequest None no_query Js.JUndefined) sample_world)
         eq_refl).
  - apply
      (proj1 (proj2 (proj2
         (getStates_fails_with_the_store_only bogus_sort_request
            sample_world)))
         "Unknown argument in orderBy" eq_refl).
Defined.

(** C3.  Whatever the handler, a rejection with a P2002 known request
    error that carries a target column - the target itself when it is a
    string that is not empty, its first element when it is an array - is
    answered with 400 and a per-field error: the field is that column, the
    type is unique, and the message says that a record with that column
    already exists.  Every rejection that is neither an exposed 400, nor
    a store validation error, nor a P2002 error with a target is answered
    with 500 and the message Internal Server Error alone, and is logged. *)
Theorem asyncHandler_renders_errors :
  forall (fn : Request -> M Response) (req : Request) (w w' : World)
         (err : Error),
    fn req w = (Throw err, w') ->
    (forall column : string,
        column <> "" ->
        err = PrismaClientKnownRequestError "P2002" (Some (TStr column)) ->
        asyncHandler fn req w =
          (mkResponse 400
             (Js.JObj
                [("errors",
                  Js.JObj
                    [(column,
                      Js.JObj
                        [("type", Js.JStr "unique");
                         ("message",
                          Js.JStr
                            ("A record with that " ++ column
                             ++ " already exists.")%string)])])]),
           w'))
    /\ (forall (column : string) (others : list string),
          err = PrismaClientKnownRequestError "P2002"
                  (Some (TArr (column :: others))) ->
          asyncHandler fn req w =
            (mkResponse 400
               (Js.JObj
                  [("errors",
                    Js.JObj
                      [(column,
                        Js.JObj
                          [("type", Js.JStr "unique");
                           ("message",
                            Js.JStr
                              ("A record with that " ++ column
                               ++ " already exists.")%string)])])]),
             w'))
    /\ (~ exposed_400 err -> ~ store_validation_error err ->
        ~ unique_violation err ->
        asyncHandler fn req w =
          (mkResponse 500
             (Js.JObj
                [("errors",
                  Js.JObj [("message", Js.JStr "Internal Server Error")])]),
           with_console err w')).
Proof.
  intros fn req w w' err Hrun. unfold asyncHandler. rewrite Hrun.
  split; [|split].
  - intros column Hcol ->.
    rewrite (render_error_unique (TStr column)).
    + reflexivity.
    + cbn. unfold Js.truthy_str.
      destruct (String.eqb_spec column ""); [contradiction | reflexivity].
  - intros column others ->.
    rewrite (render_error_unique (TArr (column :: others)) eq_refl).
    reflexivity.
  - intros H400 Hval Huniq.
    rewrite (render_error_unclassified err H400 Hval Huniq). reflexivity.
Qed.

Lemma asyncHandler_renders_errors_witness :
  createState
    (mkRequest None no_query (Js.JObj [("stateName", Js.JStr "Goa")]))
    unique_world =
    (mkResponse 400
       (Js.JObj
          [("errors",
            Js.JObj
              [("stateName",
                Js.JObj
                  [("type", Js.JStr "unique");
                   ("message",
                    Js.JStr "A record with that stateName already exists.")])])]),
     with_call (CCreate "Goa") unique_world)
  /\ deleteState (mkRequest (Some "7") no_query Js.JUndefined) sample_world =
       (mkResponse 500
          (Js.JObj
             [("errors",
               Js.JObj [("message", Js.JStr "Internal Server Error")])]),
        with_console (createError 404 "State not found")
          (with_call (CFindUnique (Js.Num 7)) sample_world)).
Proof.
  split.
  - apply
      (proj1 (proj2
         (asyncHandler_renders_errors createState_fn
            (mkRequest None no_query
               (Js.JObj [("stateName", Js.JStr "Goa")]))
            unique_world (with_call (CCreate "Goa") unique_world)
            (PrismaClientKnownRequestError "P2002"
               (Some (TArr ["stateName"])))
            eq_refl))
         "stateName" [] eq_refl).
  - apply
      (proj2 (proj2
         (asyncHandler_renders_errors deleteState_fn
            (mkRequest (Some "7") no_query Js.JUndefined)
            sample_world (with_call (CFindUnique (Js.Num 7)) sample_world)
            (createError 404 "State not found")
            eq_refl))).
    + intros [H _]. discriminate H.
    + intros H. discriminate H.
    + intros [t [H _]]. discriminate H.
Defined.

(* ================================================================== *)
(** ** Identifiers *)

Lemma accepted_id (x : Js.Number) (n : Z) :
  x = Js.Num n -> n <> 0 -> Js.truthy x = true.
Proof.
  intros -> Hn. unfold Js.truthy.
  destruct (Z.eqb_spec n 0); [contradiction | reflexivity].
Qed.

(** The identifier is refused exactly when it parses to NaN or to 0. *)
Lemma refused_id_iff (x : Js.Number) :
  Js.truthy x = false <-> x = Js.NaN \/ x = Js.Num 0.
Proof.
  destruct x as [|n|b]; cbn.
  - split; auto.
  - destruct (Z.eqb_spec n 0) as [->|Hn]; cbn; split; auto.
    + discriminate.
    + intros [H|H]; [discriminate | injection H as ->; contradiction].
  - split; [discriminate | intros [H|H]; discriminate].
Qed.

(** Characters after a decimal numeral do not change what [parseInt]
    reads, as soon as the first of them is not a decimal digit. *)
Lemma read_digits_stops (s : string) (c : ascii) (rest : string)
  (acc : option Z) :
  Js.digit_value 10 c = None ->
  Js.read_digits 10 (s ++ String c rest) acc = Js.read_digits 10 s acc.
Proof.
  intros Hc. revert acc.
  induction s as [|d s IH]; intros acc; cbn [String.append Js.read_digits].
  - rewrite Hc. reflexivity.
  - destruct (Js.digit_value 10 d); [apply IH | reflexivity].
Qed.

Lemma digit_not_special (d : ascii) (v : Z) :
  Js.digit_value 10 d = Some v ->
  Js.is_space d = false
  /\ Ascii.eqb d "-" = false /\ Ascii.eqb d "+" = false
  /\ Ascii.eqb d "x" = false /\ Ascii.eqb d "X" = false.
Proof.
  intros Hd.
  assert (Hne : forall c, Js.digit_value 10 c = None -> Ascii.eqb d c = false).
  { intros c Hc. destruct (Ascii.eqb_spec d c) as [->|]; [|reflexivity].
    rewrite Hc in Hd. discriminate Hd. }
  repeat split; try (apply Hne; reflexivity).
  destruct (Js.is_space d) eqn:Hs; [|reflexivity].
  unfold Js.is_space in Hs. unfold Js.digit_value in Hd.
  repeat (apply orb_prop in Hs; destruct Hs as [Hs|Hs]);
    apply Nat.eqb_eq in Hs; rewrite Hs in Hd; discriminate Hd.
Qed.

(** A path string made of a decimal numeral and of trailing characters
    that do not start with a digit is read as the numeral.  (After the
    numeral 0 an x would start a hexadecimal prefix.) *)
Lemma parseInt_numeric_prefix (s : string) (c : ascii) (rest : string) :
  is_numeral s = true ->
  Js.digit_value 10 c = None ->
  s <> "0" ->
  Js.parseInt (s ++ String c rest) = Js.parseInt s.
Proof.
  intros Hs Hc Hs0.
  destruct s as [|d s]; [discriminate Hs|].
  cbn [is_numeral all_digits] in Hs.
  destruct (Js.digit_value 10 d) as [v|] eqn:Hd; [|discriminate Hs].
  destruct (digit_not_special d v Hd) as (Hsp & Hminus & Hplus & _).
  unfold Js.parseInt. cbn [String.append Js.trim_start]. rewrite Hsp.
  unfold Js.strip_sign. rewrite Hminus, Hplus.
  assert (Hradix : Js.strip_radix (String d (s ++ String c rest)) =
                   (10, String d (s ++ String c rest))
                   /\ Js.strip_radix (String d s) = (10, String d s)).
  { destruct s as [|e s].
    - cbn [String.append Js.strip_radix].
      destruct (Ascii.eqb_spec d "0") as [->|_]; [contradiction|].
      split; reflexivity.
    - cbn [String.append Js.strip_radix]. cbn [all_digits] in Hs.
      destruct (Js.digit_value 10 e) as [ve|] eqn:He; [|discriminate Hs].
      destruct (digit_not_special e ve He) as (_ & _ & _ & Hx & HX).
      rewrite Hx, HX, andb_false_r. split; reflexivity. }
  destruct Hradix as [-> ->].
  change (String d (s ++ String c rest)) with (String d s ++ String c rest)%string.
  rewrite read_digits_stops by exact Hc. reflexivity.
Qed.

(* ================================================================== *)
(** ** The handlers, by cases on the identifier and on the lookup *)

(** Unfolds a handler down to the calls on the store. *)
Ltac run_handler :=
  unfold getState_fn, updateState_fn, deleteState_fn, createState_fn,
    bind, lift, throw, res_json, res_status_json, ret,
    Prisma.findUnique, Prisma.delete;
  cbv zeta; cbn [table client with_call calls].

Lemma getState_fn_refused (req : Request) (w : World) :
  Js.truthy (Js.parseInt_param (params_id req)) = false ->
  getState_fn req w = (Throw invalid_id, w).
Proof. intros H. run_handler. rewrite H. reflexivity. Qed.

Lemma updateState_fn_refused (req : Request) (w : World) :
  Js.truthy (Js.parseInt_param (params_id req)) = false ->
  updateState_fn req w = (Throw invalid_id, w).
Proof. intros H. run_handler. rewrite H. reflexivity. Qed.

Lemma deleteState_fn_refused (req : Request) (w : World) :
  Js.truthy (Js.parseInt_param (params_id req)) = false ->
  deleteState_fn req w = (Throw invalid_id, w).
Proof. intros H. run_handler. rewrite H. reflexivity. Qed.

(** A lookup that the client refuses. *)
Lemma getState_fn_rejected (req : Request) (w : World) (e : Error) :
  Js.truthy (Js.parseInt_param (params_id req)) = true ->
  reject_id (client w) (Js.parseInt_param (params_id req)) = Some e ->
  getState_fn req w =
    (Throw e, with_call (CFindUnique (Js.parseInt_param (params_id req))) w).
Proof.
  intros Ht Hrej. run_handler. rewrite Ht. cbn [negb].
  rewrite Hrej. reflexivity.
Qed.

Lemma deleteState_fn_rejected (req : Request) (w : World) (e : Error) :
  Js.truthy (Js.parseInt_param (params_id req)) = true ->
  reject_id (client w) (Js.parseInt_param (params_id req)) = Some e ->
  deleteState_fn req w =
    (Throw e, with_call (CFindUnique (Js.parseInt_param (params_id req))) w).
Proof.
  intros Ht Hrej. run_handler. rewrite Ht. cbn [negb].
  rewrite Hrej. reflexivity.
Qed.

(** A lookup that the client runs on an identifier that is not an
    integer finds nothing. *)
Lemma getState_fn_no_integer (req : Request) (w : World) (b : bool) :
  Js.parseInt_param (params_id req) = Js.Inf b ->
  reject_id (client w) (Js.Inf b) = None ->
  getState_fn req w =
    (Throw not_found, with_call (CFindUnique (Js.Inf b)) w).
Proof.
  intros Hid Hacc. run_handler. rewrite Hid. cbn [Js.truthy negb].
  rewrite Hacc. reflexivity.
Qed.

Lemma deleteState_fn_no_integer (req : Request) (w : World) (b : bool) :
  Js.parseInt_param (params_id req) = Js.Inf b ->
  reject_id (client w) (Js.Inf b) = None ->
  deleteState_fn req w =
    (Throw not_found, with_call (CFindUnique (Js.Inf b)) w).
Proof.
  intros Hid Hacc. run_handler. rewrite Hid. cbn [Js.truthy negb].
  rewrite Hacc. reflexivity.
Qed.

Lemma getState_fn_accepted (req : Request) (w : World) (n : Z) :
  Js.parseInt_param (params_id req) = Js.Num n -> n <> 0 ->
  accepts_id w n ->
  getState_fn req w =
    (match Prisma.find_row n (table w) with
     | Some r => Ok (mkResponse 200 (Prisma.render select_all r))
     | None => Throw not_found
     end,
     with_call (CFindUnique (Js.Num n)) w).
Proof.
  unfold accepts_id. intros Hid Hn Hacc.
  pose proof (accepted_id _ _ Hid Hn) as Ht.
  run_handler. rewrite Ht. cbn [negb]. rewrite Hid, Hacc.
  cbn [Prisma.row_of].
  destruct (Prisma.find_row n (table w)); reflexivity.
Qed.

Lemma deleteState_fn_accepted (req : Request) (w : World) (n : Z) :
  Js.parseInt_param (params_id req) = Js.Num n -> n <> 0 ->
  accepts_id w n ->
  deleteState_fn req w =
    match Prisma.find_row n (table w) with
    | Some _ =>
        (Ok (mkResponse 200
               (Js.JObj [("message", Js.JStr "State deleted successfully")])),
         with_table (filter (fun x => negb (id x =? n)) (table w))
           (with_call (CDelete (Js.Num n))
              (with_call (CFindUnique (Js.Num n)) w)))
    | None => (Throw not_found, with_call (CFindUnique (Js.Num n)) w)
    end.
Proof.
  unfold accepts_id. intros Hid Hn Hacc.
  pose proof (accepted_id _ _ Hid Hn) as Ht.
  run_handler. rewrite Ht. cbn [negb]. rewrite Hid, Hacc.
  cbn [Prisma.row_of].
  destruct (Prisma.find_row n (table w)) eqn:Hf;
    cbn [option_map table client with_call]; rewrite ?Hacc;
    cbn [Prisma.row_of]; rewrite ?Hf; reflexivity.
Qed.

(** In [updateState] the body is validated before the row is looked up. *)
Lemma updateState_fn_accepted (req : Request) (w : World) (n : Z) :
  Js.parseInt_param (params_id req) = Js.Num n -> n <> 0 ->
  updateState_fn req w =
    match updateSchema (body req) with
    | Throw e => (Throw e, w)
    | Ok data =>
        match reject_id (client w) (Js.Num n) with
        | Some e => (Throw e, with_call (CFindUnique (Js.Num n)) w)
        | None =>
            match Prisma.find_row n (table w) with
            | None =>
                (Throw not_found, with_call (CFindUnique (Js.Num n)) w)
            | Some _ =>
                bind (Prisma.update (Js.Num n) (remove_undefined data))
                  res_json (with_call (CFindUnique (Js.Num n)) w)
            end
        end
    end.
Proof.
  intros Hid Hn. pose proof (accepted_id _ _ Hid Hn) as Ht.
  run_handler. rewrite Ht. cbn [negb]. rewrite Hid.
  destruct (updateSchema (body req)); [|reflexivity].
  destruct (reject_id (client w) (Js.Num n)); [reflexivity|].
  cbn [Prisma.row_of].
  destruct (Prisma.find_row n (table w)); reflexivity.
Qed.

(** Whatever the identifier that passes the test, a body that fails the
    schema ends the update before any call. *)
Lemma updateState_fn_bad_body (req : Request) (w : World) (e : Error) :
  Js.truthy (Js.parseInt_param (params_id req)) = true ->
  updateSchema (body req) = Throw e ->
  updateState_fn req w = (Throw e, w).
Proof.
  intros Ht He. run_handler. rewrite Ht. cbn [negb].
  rewrite He. reflexivity.
Qed.

Lemma string_1_255_throws_zod (m : option string) (p : list string)
  (v : Js.Value) (e : Error) :
  Zod.string_1_255 m p v = Throw e -> is_zod_error e.
Proof.
  unfold Zod.string_1_255, is_zod_error. intros H.
  destruct v; try (injection H as <-; eexists; reflexivity).
  destruct (Z.of_nat (String.length s) <? 1);
    [injection H as <-; eexists; reflexivity|].
  destruct (255 <? Z.of_nat (String.length s));
    [injection H as <-; eexists; reflexivity | discriminate H].
Qed.

Lemma at_least_one_field_throws_zod (data : list (string * Js.Value))
  (e : Error) :
  at_least_one_field data = Throw e -> is_zod_error e.
Proof.
  unfold at_least_one_field, is_zod_error. intros H.
  destruct (0 <? Z.of_nat (List.length (Js.keys data)));
    [discriminate H | injection H as <-; eexists; reflexivity].
Qed.

Lemma updateSchema_throws_zod (b : Js.Value) (e : Error) :
  updateSchema b = Throw e -> is_zod_error e.
Proof.
  unfold updateSchema, Zod.not_an_object. intros H.
  destruct b as [| | | | | | |fields];
    try (injection H as <-; eexists; reflexivity).
  destruct (Js.get "stateName" fields) as [v|];
    [|exact (at_least_one_field_throws_zod _ _ H)].
  destruct (Zod.string_1_255 None ["stateName"] v) as [s|e'] eqn:Hv.
  - destruct v; exact (at_least_one_field_throws_zod _ _ H).
  - destruct v; try (injection H as <-;
                     exact (string_1_255_throws_zod _ _ _ _ Hv)).
    exact (at_least_one_field_throws_zod _ _ H).
Qed.

Lemma createSchema_throws_zod (b : Js.Value) (e : Error) :
  createSchema b = Throw e -> is_zod_error e.
Proof.
  unfold createSchema, Zod.not_an_object. intros H.
  destruct b as [| | | | | | |fields];
    try (injection H as <-; eexists; reflexivity).
  match type of H with
  | context [Zod.string_1_255 ?m ?p ?v] =>
      destruct (Zod.string_1_255 m p v) as [s|e'] eqn:Hv
  end.
  - discriminate H.
  - injection H as <-. exact (string_1_255_throws_zod _ _ _ _ Hv).
Qed.

(** No Zod error is classified by [asyncHandler]: it is answered with
    500. *)
Lemma render_error_zod (issues : list ZodIssue) :
  render_error (ZodError issues) = (internal_server_error, true).
Proof. reflexivity. Qed.

(** Nor is the not-found error. *)
Lemma render_error_not_found :
  render_error not_found = (internal_server_error, true).
Proof. reflexivity. Qed.

Lemma render_error_invalid_id :
  render_error invalid_id =
    (mkResponse 400 (errors_body (message_body "Invalid state ID")), false).
Proof. reflexivity. Qed.

(* ================================================================== *)
(** ** Update: validation, lookup, mutation *)

(** C1, as stated, fails: an update of the nonexistent id 999999 with an
    empty body is rejected with the validation error of the schema, not
    with the not-found error, and the response does not have status 404. *)
Lemma updateState_missing_id_empty_body_counterexample :
  Js.parseInt_param (params_id (missing_id_request (Js.JObj []))) =
    Js.Num 999999
  /\ Prisma.find_row 999999 (table sample_world) = None
  /\ updateState_fn (missing_id_request (Js.JObj [])) sample_world =
       (Throw empty_update_error, sample_world)
  /\ fst (updateState_fn (missing_id_request (Js.JObj [])) sample_world) <>
       Throw (createError 404 "State not found")
  /\ status (fst (updateState (missing_id_request (Js.JObj [])) sample_world))
       <> 404.
Proof.
  repeat split; try reflexivity; cbn; discriminate.
Qed.

(** C1, amended.  For an update whose identifier parses to a nonzero
    number that no row has, the body is validated before the lookup: with
    a body that passes the schema the handler looks the row up (a lookup
    the store runs), rejects with the not-found error and issues no
    update; with an empty or schema-violating body it rejects with the
    validation error and makes no call on the store. *)
Theorem updateState_missing_record :
  forall (req : Request) (w : World) (n : Z),
    Js.parseInt_param (params_id req) = Js.Num n -> n <> 0 ->
    Prisma.find_row n (table w) = None ->
    (forall data,
        updateSchema (body req) = Ok data ->
        accepts_id w n ->
        updateState_fn req w =
          (Throw (createError 404 "State not found"),
           with_call (CFindUnique (Js.Num n)) w))
    /\ (forall e,
          updateSchema (body req) = Throw e ->
          is_zod_error e /\ updateState_fn req w = (Throw e, w)).
Proof.
  intros req w n Hid Hn Hnone.
  rewrite (updateState_fn_accepted req w n Hid Hn). split.
  - intros data -> Hacc. unfold accepts_id in Hacc.
    rewrite Hacc, Hnone. reflexivity.
  - intros e He. rewrite He.
    split; [exact (updateSchema_throws_zod _ _ He) | reflexivity].
Qed.

Lemma updateState_missing_record_witness :
  updateState_fn
    (missing_id_request (Js.JObj [("stateName", Js.JStr "Bihar")]))
    sample_world =
    (Throw (createError 404 "State not found"),
     with_call (CFindUnique (Js.Num 999999)) sample_world)
  /\ is_zod_error empty_update_error
  /\ updateState_fn (missing_id_request (Js.JObj [])) sample_world =
       (Throw empty_update_error, sample_world).
Proof.
  split.
  - apply
      (proj1
         (updateState_missing_record
            (missing_id_request (Js.JObj [("stateName", Js.JStr "Bihar")]))
            sample_world 999999 eq_refl ltac:(discriminate) eq_refl)
         [("stateName", Js.JStr "Bihar")] eq_refl eq_refl).
  - apply
      (proj2
         (updateState_missing_record
            (missing_id_request (Js.JObj []))
            sample_world 999999 eq_refl ltac:(discriminate) eq_refl)
         empty_update_error eq_refl).
Defined.

Lemma find_row_id (n : Z) (t : list State) (r : State) :
  Prisma.find_row n t = Some r -> id r = n.
Proof.
  unfold Prisma.find_row. intros H.
  apply find_some in H. destruct H as [_ H]. apply Z.eqb_eq in H. exact H.
Qed.

Lemma find_row_replaced (n : Z) (old new : State) (t : list State) :
  Prisma.find_row n t = Some old -> id new = n ->
  Prisma.find_row n (Prisma.replace_row n new t) = Some new.
Proof.
  unfold Prisma.find_row, Prisma.replace_row. intros Hfind Hnew.
  induction t as [|x t IH]; [discriminate Hfind|].
  cbn [find map] in *. destruct (Z.eqb_spec (id x) n) as [Hx|Hx].
  - rewrite Hnew, Z.eqb_refl. reflexivity.
  - destruct (Z.eqb_spec (id x) n); [contradiction|]. exact (IH Hfind).
Qed.


(** The undefined fields, and only they, are dropped from the data. *)
Lemma remove_undefined_spec (data : list (string * Js.Value)) (k : string)
  (v : Js.Value) :
  In (k, v) (remove_undefined data) <->
  In (k, v) data /\ v <> Js.JUndefined.
Proof.
  unfold remove_undefined. rewrite filter_In. cbn [snd].
  split; intros [Hin Hv]; split; try exact Hin.
  - intros ->. discriminate Hv.
  - destruct v; try reflexivity. contradiction.
Qed.




(* ================================================================== *)
(** ** Identifier parsing in get, update and delete *)

Lemma journal_grows {A} (l : list A) (x : A) (rest : list A) :
  l = l ++ x :: rest -> False.
Proof.
  intros H. apply (f_equal (@List.length A)) in H.
  rewrite length_app in H. cbn [List.length] in H. lia.
Qed.

(** With an identifier that passes the test, get and delete call the
    store, and update does so unless the schema fails. *)
Lemma getState_fn_calls (req : Request) (w : World) :
  Js.truthy (Js.parseInt_param (params_id req)) = true ->
  exists x rest, calls (snd (getState_fn req w)) = calls w ++ x :: rest.
Proof.
  intros Ht. run_handler. rewrite Ht. cbn [negb].
  exists (CFindUnique (Js.parseInt_param (params_id req))), [].
  destruct (reject_id _ _); [reflexivity|].
  destruct (Prisma.row_of _ _); reflexivity.
Qed.

Lemma deleteState_fn_calls (req : Request) (w : World) :
  Js.truthy (Js.parseInt_param (params_id req)) = true ->
  exists x rest, calls (snd (deleteState_fn req w)) = calls w ++ x :: rest.
Proof.
  intros Ht. run_handler. rewrite Ht. cbn [negb].
  exists (CFindUnique (Js.parseInt_param (params_id req))).
  destruct (reject_id _ _) eqn:Hrej; [exists []; reflexivity|].
  destruct (Prisma.row_of _ _) eqn:Hrow; [|exists []; reflexivity].
  cbn [option_map client table with_call]. rewrite Hrej.
  destruct (Js.parseInt_param (params_id req)); try discriminate Hrow.
  rewrite Hrow. eexists. cbn [snd calls with_table with_call].
  rewrite <- app_assoc. reflexivity.
Qed.

Lemma updateState_fn_calls (req : Request) (w : World) :
  Js.truthy (Js.parseInt_param (params_id req)) = true ->
  (exists x rest, calls (snd (updateState_fn req w)) = calls w ++ x :: rest)
  \/ exists issues, updateState_fn req w = (Throw (ZodError issues), w).
Proof.
  intros Ht. run_handler. rewrite Ht. cbn [negb].
  destruct (updateSchema (body req)) as [data|e] eqn:Hs.
  - left. exists (CFindUnique (Js.parseInt_param (params_id req))).
    destruct (reject_id _ _) eqn:Hrej; [exists []; reflexivity|].
    destruct (Prisma.row_of _ _) eqn:Hrow; [|exists []; reflexivity].
    cbn [option_map]. unfold Prisma.update.
    cbn [client table with_call]. rewrite Hrej.
    destruct (Js.parseInt_param (params_id req)); try discriminate Hrow.
    rewrite Hrow. eexists.
    destruct (negb (Prisma.writes (remove_undefined data)));
      [cbn; rewrite <- app_assoc; reflexivity|].
    cbv zeta. cbn [unique_stateName now with_call].
    destruct (unique_stateName w);
      [destruct (Prisma.name_taken _ _ _)|];
      cbn; rewrite <- app_assoc; reflexivity.
  - right. destruct (updateSchema_throws_zod _ _ Hs) as [issues ->].
    exists issues. reflexivity.
Qed.

(** C9, as stated, fails for update: with the negative identifier -5
    and an empty body the handler does not reach the store lookup (the
    journal stays empty) and rejects with the validation error, not with
    the not-found error. *)
Lemma updateState_negative_id_counterexample :
  Js.parseInt_param (params_id (negative_id_request (Js.JObj []))) =
    Js.Num (-5)
  /\ updateState_fn (negative_id_request (Js.JObj [])) sample_world =
       (Throw empty_update_error, sample_world)
  /\ calls (snd (updateState_fn (negative_id_request (Js.JObj []))
                   sample_world)) = []
  /\ fst (updateState_fn (negative_id_request (Js.JObj [])) sample_world) <>
       Throw (createError 404 "State not found").
Proof.
  repeat split; try reflexivity; cbn; discriminate.
Qed.

(** C9, amended.  In get, update and delete the identifier is what
    [parseInt] reads: characters after a decimal numeral are ignored
    (12abc is the id 12); the invalid-id error (400) is raised exactly
    when the result is NaN or 0, so a negative identifier passes.  With an
    accepted identifier that no row has, and a lookup that the store runs,
    get and delete call the lookup and reject with the not-found error;
    update does so once the body has passed its schema, and otherwise
    raises the validation error of the schema without reaching the
    store. *)
Theorem identifier_parsing_is_lenient :
  Js.parseInt "12abc" = Js.Num 12
  /\ (forall (s : string) (c : ascii) (rest : string),
        is_numeral s = true -> Js.digit_value 10 c = None -> s <> "0" ->
        Js.parseInt (s ++ String c rest) = Js.parseInt s)
  /\ (forall (req : Request) (w : World),
        Js.parseInt_param (params_id req) = Js.NaN
          \/ Js.parseInt_param (params_id req) = Js.Num 0 ->
        getState_fn req w =
          (Throw (createError 400 "Invalid state ID"), w)
        /\ updateState_fn req w =
             (Throw (createError 400 "Invalid state ID"), w)
        /\ deleteState_fn req w =
             (Throw (createError 400 "Invalid state ID"), w))
  /\ (forall (req : Request) (w : World),
        Js.parseInt_param (params_id req) <> Js.NaN ->
        Js.parseInt_param (params_id req) <> Js.Num 0 ->
        getState_fn req w <>
          (Throw (createError 400 "Invalid state ID"), w)
        /\ updateState_fn req w <>
             (Throw (createError 400 "Invalid state ID"), w)
        /\ deleteState_fn req w <>
             (Throw (createError 400 "Invalid state ID"), w))
  /\ (forall (req : Request) (w : World) (n : Z),
        Js.parseInt_param (params_id req) = Js.Num n -> n <> 0 ->
        Prisma.find_row n (table w) = None ->
        reject_id (client w) (Js.Num n) = None ->
        getState_fn req w =
          (Throw (createError 404 "State not found"),
           with_call (CFindUnique (Js.Num n)) w)
        /\ deleteState_fn req w =
             (Throw (createError 404 "State not found"),
              with_call (CFindUnique (Js.Num n)) w)
        /\ (forall data,
              updateSchema (body req) = Ok data ->
              updateState_fn req w =
                (Throw (createError 404 "State not found"),
                 with_call (CFindUnique (Js.Num n)) w)))
  /\ (forall (req : Request) (w : World) (n : Z) (e : Error),
        Js.parseInt_param (params_id req) = Js.Num n -> n <> 0 ->
        updateSchema (body req) = Throw e ->
        is_zod_error e
        /\ updateState_fn req w = (Throw e, w)
        /\ calls (snd (updateState_fn req w)) = calls w).
Proof.
  split; [reflexivity|]. split; [exact parseInt_numeric_prefix|]. split.
  { intros req w Hrefused. apply refused_id_iff in Hrefused.
    repeat split.
    - apply getState_fn_refused; exact Hrefused.
    - apply updateState_fn_refused; exact Hrefused.
    - apply deleteState_fn_refused; exact Hrefused. }
  split.
  { intros req w Hnan Hzero.
    assert (Ht : Js.truthy (Js.parseInt_param (params_id req)) = true).
    { destruct (Js.truthy (Js.parseInt_param (params_id req))) eqn:Ht;
        [reflexivity|].
      apply refused_id_iff in Ht. destruct Ht; contradiction. }
    repeat split; intros Heq.
    - destruct (getState_fn_calls req w Ht) as (x & rest & Hcalls).
      rewrite Heq in Hcalls. exact (journal_grows _ _ _ Hcalls).
    - destruct (updateState_fn_calls req w Ht)
        as [(x & rest & Hcalls) | (issues & Hzod)].
      + rewrite Heq in Hcalls. exact (journal_grows _ _ _ Hcalls).
      + rewrite Heq in Hzod. discriminate Hzod.
    - destruct (deleteState_fn_calls req w Ht) as (x & rest & Hcalls).
      rewrite Heq in Hcalls. exact (journal_grows _ _ _ Hcalls). }
  split.
  { intros req w n Hid Hn Hnone Hacc. repeat split.
    - rewrite (getState_fn_accepted req w n Hid Hn Hacc), Hnone.
      reflexivity.
    - rewrite (deleteState_fn_accepted req w n Hid Hn Hacc), Hnone.
      reflexivity.
    - intros data Hdata.
      rewrite (updateState_fn_accepted req w n Hid Hn), Hdata, Hacc, Hnone.
      reflexivity. }
  intros req w n e Hid Hn He.
  pose proof (accepted_id _ _ Hid Hn) as Ht.
  rewrite (updateState_fn_bad_body req w e Ht He).
  split; [exact (updateSchema_throws_zod _ _ He)|].
  split; reflexivity.
Qed.

Lemma identifier_parsing_is_lenient_witness :
  Js.parseInt ("12" ++ String "a" "bc") = Js.parseInt "12"
  /\ getState_fn (mkRequest (Some "0") no_query Js.JUndefined) sample_world =
       (Throw (createError 400 "Invalid state ID"), sample_world)
  /\ getState_fn (negative_id_request Js.JUndefined) sample_world <>
       (Throw (createError 400 "Invalid state ID"), sample_world)
  /\ getState_fn (negative_id_request Js.JUndefined) sample_world =
       (Throw (createError 404 "State not found"),
        with_call (CFindUnique (Js.Num (-5))) sample_world)
  /\ deleteState_fn (negative_id_request Js.JUndefined) sample_world =
       (Throw (createError 404 "State not found"),
        with_call (CFindUnique (Js.Num (-5))) sample_world)
  /\ updateState_fn
       (negative_id_request (Js.JObj [("stateName", Js.JStr "Bihar")]))
       sample_world =
       (Throw (createError 404 "State not found"),
        with_call (CFindUnique (Js.Num (-5))) sample_world)
  /\ updateState_fn (negative_id_request (Js.JObj [])) sample_world =
       (Throw empty_update_error, sample_world).
Proof.
  destruct identifier_parsing_is_lenient
    as (_ & Hprefix & Hrefused & Hpassed & Haccepted & Hbody).
  split.
  { apply Hprefix; [reflexivity | reflexivity | discriminate]. }
  split.
  { apply (Hrefused (mkRequest (Some "0") no_query Js.JUndefined)
             sample_world (or_intror eq_refl)). }
  split.
  { apply (Hpassed (negative_id_request Js.JUndefined) sample_world);
      discriminate. }
  destruct
    (Haccepted (negative_id_request Js.JUndefined) sample_world (-5)
       eq_refl ltac:(discriminate) eq_refl eq_refl) as (Hget & Hdel & _).
  split; [exact Hget|]. split; [exact Hdel|].
  destruct
    (Haccepted
       (negative_id_request (Js.JObj [("stateName", Js.JStr "Bihar")]))
       sample_world (-5) eq_refl ltac:(discriminate) eq_refl eq_refl)
    as (_ & _ & Hupd).
  split; [exact (Hupd [("stateName", Js.JStr "Bihar")] eq_refl)|].
  apply (Hbody (negative_id_request (Js.JObj [])) sample_world (-5)
           empty_update_error eq_refl ltac:(discriminate) eq_refl).
Defined.

(* ================================================================== *)
(** ** Get by id *)

(** The responses of [getState], by cases. *)
Lemma getState_refused (req : Request) (w : World) :
  Js.truthy (Js.parseInt_param (params_id req)) = false ->
  getState req w =
    (mkResponse 400 (errors_body (message_body "Invalid state ID")), w).
Proof.
  intros H. unfold getState, asyncHandler.
  rewrite (getState_fn_refused req w H). reflexivity.
Qed.

Lemma getState_found (req : Request) (w : World) (n : Z) (r : State) :
  Js.parseInt_param (params_id req) = Js.Num n -> n <> 0 ->
  accepts_id w n ->
  Prisma.find_row n (table w) = Some r ->
  getState req w =
    (mkResponse 200
       (Js.JObj [("id", Js.JNum (id r));
                 ("stateName", Js.JStr (stateName r));
                 ("createdAt", Js.JDate (createdAt r));
                 ("updatedAt", Js.JDate (updatedAt r))]),
     with_call (CFindUnique (Js.Num n)) w).
Proof.
  intros Hid Hn Hacc Hrow. unfold getState, asyncHandler.
  rewrite (getState_fn_accepted req w n Hid Hn Hacc), Hrow. reflexivity.
Qed.

(** C6.  A get-by-id request whose identifier is accepted and matches
    no row (the store running the lookup) is rejected by the handler with
    the not-found error (404), but the wrapper has no case for it: the
    response is the generic 500. *)
Theorem getState_missing_record_is_500 :
  forall (req : Request) (w : World) (n : Z),
    Js.parseInt_param (params_id req) = Js.Num n -> n <> 0 ->
    accepts_id w n ->
    Prisma.find_row n (table w) = None ->
    getState_fn req w =
      (Throw (createError 404 "State not found"),
       with_call (CFindUnique (Js.Num n)) w)
    /\ getState req w =
         (mkResponse 500
            (Js.JObj
               [("errors",
                 Js.JObj [("message", Js.JStr "Internal Server Error")])]),
          with_console (createError 404 "State not found")
            (with_call (CFindUnique (Js.Num n)) w)).
Proof.
  intros req w n Hid Hn Hacc Hnone.
  assert (Hfn : getState_fn req w =
                (Throw not_found, with_call (CFindUnique (Js.Num n)) w)).
  { rewrite (getState_fn_accepted req w n Hid Hn Hacc), Hnone.
    reflexivity. }
  split; [exact Hfn|].
  unfold getState, asyncHandler. rewrite Hfn, render_error_not_found.
  reflexivity.
Qed.

Lemma getState_missing_record_is_500_witness :
  getState_fn (missing_id_request Js.JUndefined) sample_world =
    (Throw (createError 404 "State not found"),
     with_call (CFindUnique (Js.Num 999999)) sample_world)
  /\ status (fst (getState (missing_id_request Js.JUndefined) sample_world))
     = 500.
Proof.
  destruct
    (getState_missing_record_is_500 (missing_id_request Js.JUndefined)
       sample_world 999999 eq_refl ltac:(discriminate) eq_refl eq_refl)
    as [Hfn Hresp].
  split; [exact Hfn|]. rewrite Hresp. reflexivity.
Defined.

(** When the store runs the lookup of an identifier that passes the
    test, the status is 400 exactly when the identifier parses to NaN or
    0. *)
Lemma getState_status_400_iff (req : Request) (w : World) :
  (Js.truthy (Js.parseInt_param (params_id req)) = true ->
   reject_id (client w) (Js.parseInt_param (params_id req)) = None) ->
  status (fst (getState req w)) = 400 <->
  Js.parseInt_param (params_id req) = Js.NaN
    \/ Js.parseInt_param (params_id req) = Js.Num 0.
Proof.
  intros Hacc. rewrite <- refused_id_iff.
  destruct (Js.truthy (Js.parseInt_param (params_id req))) eqn:Ht.
  - specialize (Hacc eq_refl).
    split; [|discriminate]. intros Hst. exfalso.
    destruct (Js.parseInt_param (params_id req)) as [|n|b] eqn:Hid;
      [discriminate Ht| |].
    + assert (Hn : n <> 0).
      { intros ->. discriminate Ht. }
      unfold getState, asyncHandler in Hst.
      rewrite (getState_fn_accepted req w n Hid Hn Hacc) in Hst.
      destruct (Prisma.find_row n (table w)); discriminate Hst.
    + unfold getState, asyncHandler in Hst.
      rewrite (getState_fn_no_integer req w b Hid Hacc) in Hst.
      discriminate Hst.
  - rewrite (getState_refused req w Ht). split; reflexivity.
Qed.

(* ================================================================== *)
(** ** Delete *)

Lemma find_row_after_delete (n : Z) (t : list State) :
  Prisma.find_row n (filter (fun x => negb (id x =? n)) t) = None.
Proof.
  unfold Prisma.find_row.
  induction t as [|x t IH]; [reflexivity|].
  cbn [filter]. destruct (id x =? n) eqn:Hx; cbn [negb]; [exact IH|].
  cbn [find]. rewrite Hx. exact IH.
Qed.

(** The lookup precedes the deletion: without a row the handler rejects
    after the lookup, and the journal has no delete. *)
Lemma deleteState_missing (req : Request) (w : World) (n : Z) :
  Js.parseInt_param (params_id req) = Js.Num n -> n <> 0 ->
  accepts_id w n ->
  Prisma.find_row n (table w) = None ->
  deleteState_fn req w =
    (Throw not_found, with_call (CFindUnique (Js.Num n)) w)
  /\ deleteState req w =
       (internal_server_error,
        with_console not_found (with_call (CFindUnique (Js.Num n)) w)).
Proof.
  intros Hid Hn Hacc Hnone.
  assert (Hfn : deleteState_fn req w =
                (Throw not_found, with_call (CFindUnique (Js.Num n)) w)).
  { rewrite (deleteState_fn_accepted req w n Hid Hn Hacc), Hnone.
    reflexivity. }
  split; [exact Hfn|].
  unfold deleteState, asyncHandler. rewrite Hfn, render_error_not_found.
  reflexivity.
Qed.

Lemma deleteState_found (req : Request) (w : World) (n : Z) (r : State) :
  Js.parseInt_param (params_id req) = Js.Num n -> n <> 0 ->
  accepts_id w n ->
  Prisma.find_row n (table w) = Some r ->
  deleteState req w =
    (mkResponse 200
       (Js.JObj [("message", Js.JStr "State deleted successfully")]),
     after_delete n w).
Proof.
  intros Hid Hn Hacc Hrow. unfold deleteState, asyncHandler.
  rewrite (deleteState_fn_accepted req w n Hid Hn Hacc), Hrow. reflexivity.
Qed.

(** C4.  Deleting an existing row twice (the store running the
    lookups): the first request looks the row up, deletes it and is
    answered with 200 and the confirmation; the second looks it up, issues
    no delete and is rejected by the handler with the not-found error,
    which the wrapper answers with the generic 500 and not with a
    not-found response. *)
Theorem deleteState_twice_second_is_500 :
  forall (req : Request) (w : World) (n : Z) (r : State),
    Js.parseInt_param (params_id req) = Js.Num n -> n <> 0 ->
    accepts_id w n ->
    Prisma.find_row n (table w) = Some r ->
    deleteState req w =
      (mkResponse 200
         (Js.JObj [("message", Js.JStr "State deleted successfully")]),
       after_delete n w)
    /\ calls (after_delete n w) =
         calls w ++ [CFindUnique (Js.Num n); CDelete (Js.Num n)]
    /\ deleteState_fn req (after_delete n w) =
         (Throw (createError 404 "State not found"),
          with_call (CFindUnique (Js.Num n)) (after_delete n w))
    /\ table (with_call (CFindUnique (Js.Num n)) (after_delete n w)) =
         table (after_delete n w)
    /\ deleteState req (after_delete n w) =
         (mkResponse 500
            (Js.JObj
               [("errors",
                 Js.JObj [("message", Js.JStr "Internal Server Error")])]),
          with_console (createError 404 "State not found")
            (with_call (CFindUnique (Js.Num n)) (after_delete n w))).
Proof.
  intros req w n r Hid Hn Hacc Hrow.
  assert (Hgone : Prisma.find_row n (table (after_delete n w)) = None)
    by apply find_row_after_delete.
  assert (Hacc' : accepts_id (after_delete n w) n) by exact Hacc.
  destruct (deleteState_missing req (after_delete n w) n Hid Hn Hacc' Hgone)
    as [Hfn Hresp].
  split; [exact (deleteState_found req w n r Hid Hn Hacc Hrow)|].
  split; [cbn; rewrite <- app_assoc; reflexivity|].
  split; [exact Hfn|]. split; [reflexivity | exact Hresp].
Qed.

Lemma deleteState_twice_second_is_500_witness :
  status (fst (deleteState (mkRequest (Some "2") no_query Js.JUndefined)
                 sample_world)) = 200
  /\ status
       (fst (deleteState (mkRequest (Some "2") no_query Js.JUndefined)
               (after_delete 2 sample_world))) = 500
  /\ calls
       (snd (deleteState (mkRequest (Some "2") no_query Js.JUndefined)
               (after_delete 2 sample_world))) =
       [CFindUnique (Js.Num 2); CDelete (Js.Num 2); CFindUnique (Js.Num 2)].
Proof.
  destruct
    (deleteState_twice_second_is_500
       (mkRequest (Some "2") no_query Js.JUndefined) sample_world 2
       (mkState 2 "Kerala" 110 120) eq_refl ltac:(discriminate) eq_refl
       eq_refl)
    as (Hfirst & _ & _ & _ & Hsecond).
  rewrite Hfirst, Hsecond. repeat split.
Defined.

(* ================================================================== *)
(** ** Create *)

Lemma createSchema_bad_stateName (fields : list (string * Js.Value)) :
  bad_stateName fields ->
  exists issue,
    issue_path issue = ["stateName"]
    /\ createSchema (Js.JObj fields) = Throw (ZodError [issue]).
Proof.
  unfold createSchema, Zod.string_1_255.
  intros [Hnone | [s [Hsome [-> | Hlong]]]].
  - rewrite Hnone. eexists. split; [|reflexivity]. reflexivity.
  - rewrite Hsome. eexists. split; [|reflexivity]. reflexivity.
  - rewrite Hsome.
    replace (Z.of_nat (String.length s) <? 1) with false
      by (symmetry; apply Z.ltb_ge; lia).
    replace (255 <? Z.of_nat (String.length s)) with true
      by (symmetry; apply Z.ltb_lt; lia).
    eexists. split; [|reflexivity]. reflexivity.
Qed.

Lemma createState_rejected (req : Request) (w : World) (e : Error) :
  createSchema (body req) = Throw e ->
  createState_fn req w = (Throw e, w)
  /\ createState req w =
       (fst (render_error e),
        if snd (render_error e) then with_console e w else w).
Proof.
  intros He.
  assert (Hfn : createState_fn req w = (Throw e, w)).
  { run_handler. rewrite He. reflexivity. }
  split; [exact Hfn|].
  unfold createState, asyncHandler. rewrite Hfn.
  destruct (render_error e). reflexivity.
Qed.

(** C7.  A create request whose stateName is absent, empty or longer
    than 255 characters is rejected by the schema with an issue on
    stateName and inserts nothing (no call reaches the store); but the
    wrapper has no case for the schema's error, and the response is the
    generic 500, not a structured validation error. *)
Theorem createState_invalid_name_is_500 :
  forall (req : Request) (w : World) (fields : list (string * Js.Value)),
    body req = Js.JObj fields ->
    bad_stateName fields ->
    exists issue,
      issue_path issue = ["stateName"]
      /\ createState_fn req w = (Throw (ZodError [issue]), w)
      /\ createState req w =
           (mkResponse 500
              (Js.JObj
                 [("errors",
                   Js.JObj [("message", Js.JStr "Internal Server Error")])]),
            with_console (ZodError [issue]) w).
Proof.
  intros req w fields Hbody Hbad.
  destruct (createSchema_bad_stateName fields Hbad) as [issue [Hpath Hthrow]].
  rewrite <- Hbody in Hthrow.
  destruct (createState_rejected req w _ Hthrow) as [Hfn Hresp].
  exists issue. split; [exact Hpath|]. split; [exact Hfn|].
  rewrite Hresp, render_error_zod. reflexivity.
Qed.

Lemma createState_invalid_name_is_500_witness :
  exists issue,
    issue_path issue = ["stateName"]
    /\ createState_fn
         (mkRequest None no_query (Js.JObj [("stateName", Js.JStr "")]))
         sample_world = (Throw (ZodError [issue]), sample_world)
    /\ createState
         (mkRequest None no_query (Js.JObj [("stateName", Js.JStr "")]))
         sample_world =
         (mkResponse 500
            (Js.JObj
               [("errors",
                 Js.JObj [("message", Js.JStr "Internal Server Error")])]),
          with_console (ZodError [issue]) sample_world).
Proof.
  apply
    (createState_invalid_name_is_500
       (mkRequest None no_query (Js.JObj [("stateName", Js.JStr "")]))
       sample_world [("stateName", Js.JStr "")] eq_refl).
  right. exists "". split; [reflexivity | left; reflexivity].
Defined.

(** A name of 1 to 255 characters is accepted and, when the store has
    no objection on uniqueness, the row is inserted and returned with
    status 201. *)
Lemma createState_valid_name (req : Request) (w : World)
  (fields : list (string * Js.Value)) (s : string) :
  body req = Js.JObj fields ->
  Js.get "stateName" fields = Some (Js.JStr s) ->
  1 <= Z.of_nat (String.length s) <= 255 ->
  unique_stateName w = None
    \/ Prisma.name_taken None s (table w) = false ->
  createState req w =
    (mkResponse 201 (Prisma.render None (created w s)), after_create w s).
Proof.
  intros Hbody Hget Hlen Hfree.
  unfold createState, asyncHandler. run_handler.
  rewrite Hbody. unfold createSchema, Zod.string_1_255. rewrite Hget.
  replace (Z.of_nat (String.length s) <? 1) with false
    by (symmetry; apply Z.ltb_ge; lia).
  replace (255 <? Z.of_nat (String.length s)) with false
    by (symmetry; apply Z.ltb_ge; lia).
  unfold Prisma.create. cbn [input_stateName].
  destruct Hfree as [Hnone | Hfree].
  - rewrite Hnone. reflexivity.
  - rewrite Hfree. destruct (unique_stateName w); reflexivity.
Qed.

Lemma find_row_app_fresh (n : Z) (t : list State) (r : State) :
  Prisma.find_row n t = None -> id r = n ->
  Prisma.find_row n (t ++ [r]) = Some r.
Proof.
  unfold Prisma.find_row. intros Hnone Hid.
  induction t as [|x t IH]; cbn [app find] in *.
  - rewrite Hid, Z.eqb_refl. reflexivity.
  - destruct (id x =? n); [discriminate Hnone | exact (IH Hnone)].
Qed.

(** The created row is retrievable by the identifier it was given. *)
Lemma created_state_retrievable (req : Request) (w : World) (s : string) :
  fresh_nextId w ->
  accepts_id w (nextId w) ->
  Js.parseInt_param (params_id req) = Js.Num (nextId w) ->
  fst (getState req (after_create w s)) =
    mkResponse 200 (Prisma.render None (created w s)).
Proof.
  intros [Hnz Hfresh] Hacc Hid.
  rewrite (getState_found req (after_create w s) (nextId w) (created w s)
             Hid Hnz).
  - reflexivity.
  - exact Hacc.
  - cbn [after_create table with_nextId with_table].
    apply find_row_app_fresh; [exact Hfresh | reflexivity].
Qed.

(* ================================================================== *)
(** ** The wrapper on every rejection *)

(** X1.  Whatever a handler rejects with, the wrapper answers with
    status 400 or with the generic 500, and with no other status; the
    error goes to the console exactly in the second case; the store is
    not touched by the wrapper. *)
Theorem asyncHandler_rejection_is_400_or_500 :
  forall (fn : Request -> M Response) (req : Request) (w w' : World)
         (e : Error),
    fn req w = (Throw e, w') ->
    ((status (fst (asyncHandler fn req w)) = 400
      /\ snd (asyncHandler fn req w) = w')
     \/ (fst (asyncHandler fn req w) = internal_server_error
         /\ snd (asyncHandler fn req w) = with_console e w'))
    /\ status (fst (asyncHandler fn req w)) <> 404
    /\ table (snd (asyncHandler fn req w)) = table w'
    /\ calls (snd (asyncHandler fn req w)) = calls w'.
Proof.
  intros fn req w w' e Hrun. unfold asyncHandler. rewrite Hrun.
  destruct (render_error_cases e) as [[H400 Hlog] | H500].
  - destruct (render_error e) as [r logged]. cbn [fst snd] in *.
    subst logged. cbn [fst snd]. rewrite H400.
    split; [left; split; reflexivity|].
    split; [discriminate|split; reflexivity].
  - rewrite H500. cbn [fst snd].
    split; [right; split; reflexivity|].
    split; [discriminate|split; reflexivity].
Qed.

Lemma asyncHandler_rejection_is_400_or_500_witness :
  status (fst (getState (mkRequest (Some "abc") no_query Js.JUndefined)
                 sample_world)) <> 404
  /\ status (fst (getState (missing_id_request Js.JUndefined) sample_world))
     <> 404.
Proof.
  split.
  - apply
      (asyncHandler_rejection_is_400_or_500 getState_fn
         (mkRequest (Some "abc") no_query Js.JUndefined)
         sample_world sample_world invalid_id eq_refl).
  - apply
      (asyncHandler_rejection_is_400_or_500 getState_fn
         (missing_id_request Js.JUndefined) sample_world
         (with_call (CFindUnique (Js.Num 999999)) sample_world) not_found
         eq_refl).
Defined.

(** The status of a wrapped handler, from the status of its resolved
    responses. *)
Lemma asyncHandler_status (fn : Request -> M Response) (req : Request)
  (w : World) (ok : Z) :
  (forall r w', fn req w = (Ok r, w') -> status r = ok) ->
  status (fst (asyncHandler fn req w)) = ok
  \/ status (fst (asyncHandler fn req w)) = 400
  \/ status (fst (asyncHandler fn req w)) = 500.
Proof.
  intros Hok. unfold asyncHandler.
  destruct (fn req w) as [[r|e] w'] eqn:Hrun.
  - left. exact (Hok r w' eq_refl).
  - right. destruct (render_error_cases e) as [[H400 _] | H500].
    + left. destruct (render_error e). exact H400.
    + right. rewrite H500. reflexivity.
Qed.

(** Splits a hypothesis about a handler's run along its tests. *)
Ltac split_run H :=
  unfold res_json, res_status_json, ret, throw in H;
  repeat
    match type of H with
    | (Ok _, _) = (Ok _, _) => injection H as <- <-
    | (Throw _, _) = (Ok _, _) => discriminate H
    | context [match ?x with _ => _ end] => destruct x eqn:?
    | context [if ?x then _ else _] => destruct x eqn:?
    end.

Lemma getStates_fn_ok_status (req : Request) (w : World) (r : Response)
  (w' : World) :
  getStates_fn req w = (Ok r, w') -> status r = 200.
Proof.
  destruct (reject_findMany (client w) (skip_of (query req))
              (limit_of (query req)) (orderBy_of (query req)))
    as [e|] eqn:Hrej.
  - rewrite (getStates_fn_rejected req w e Hrej). discriminate.
  - rewrite (getStates_fn_accepted req w Hrej). intros H.
    injection H as <- _. reflexivity.
Qed.

Lemma getState_fn_ok_status (req : Request) (w : World) (r : Response)
  (w' : World) :
  getState_fn req w = (Ok r, w') -> status r = 200.
Proof.
  run_handler. intros H. split_run H; reflexivity.
Qed.

Lemma createState_fn_ok_status (req : Request) (w : World) (r : Response)
  (w' : World) :
  createState_fn req w = (Ok r, w') -> status r = 201.
Proof.
  run_handler. unfold Prisma.create. intros H. split_run H; reflexivity.
Qed.

Lemma updateState_fn_ok_status (req : Request) (w : World) (r : Response)
  (w' : World) :
  updateState_fn req w = (Ok r, w') -> status r = 200.
Proof.
  run_handler. unfold Prisma.update. intros H. split_run H; reflexivity.
Qed.

Lemma deleteState_fn_ok_status (req : Request) (w : World) (r : Response)
  (w' : World) :
  deleteState_fn req w = (Ok r, w') -> status r = 200.
Proof.
  run_handler. intros H. split_run H; reflexivity.
Qed.

(** X2.  The statuses of the five exported handlers: list, get, update
    and delete answer with 200, 400 or 500; create with 201, 400 or 500.
    None of them ever answers 404. *)
Theorem handler_statuses :
  forall (req : Request) (w : World),
    (status (fst (getStates req w)) = 200
     \/ status (fst (getStates req w)) = 400
     \/ status (fst (getStates req w)) = 500)
    /\ (status (fst (getState req w)) = 200
        \/ status (fst (getState req w)) = 400
        \/ status (fst (getState req w)) = 500)
    /\ (status (fst (createState req w)) = 201
        \/ status (fst (createState req w)) = 400
        \/ status (fst (createState req w)) = 500)
    /\ (status (fst (updateState req w)) = 200
        \/ status (fst (updateState req w)) = 400
        \/ status (fst (updateState req w)) = 500)
    /\ (status (fst (deleteState req w)) = 200
        \/ status (fst (deleteState req w)) = 400
        \/ status (fst (deleteState req w)) = 500)
    /\ status (fst (getStates req w)) <> 404
    /\ status (fst (getState req w)) <> 404
    /\ status (fst (createState req w)) <> 404
    /\ status (fst (updateState req w)) <> 404
    /\ status (fst (deleteState req w)) <> 404.
Proof.
  intros req w.
  pose proof (asyncHandler_status getStates_fn req w 200
                (getStates_fn_ok_status req w)) as Hlist.
  pose proof (asyncHandler_status getState_fn req w 200
                (getState_fn_ok_status req w)) as Hget.
  pose proof (asyncHandler_status createState_fn req w 201
                (createState_fn_ok_status req w)) as Hcreate.
  pose proof (asyncHandler_status updateState_fn req w 200
                (updateState_fn_ok_status req w)) as Hupdate.
  pose proof (asyncHandler_status deleteState_fn req w 200
                (deleteState_fn_ok_status req w)) as Hdelete.
  fold getStates in Hlist.
  fold getState in Hget. fold createState in Hcreate.
  fold updateState in Hupdate. fold deleteState in Hdelete.
  repeat split; try assumption;
    intros H404; rewrite H404 in *;
    repeat match goal with
           | H : _ \/ _ |- _ => destruct H as [H|H]
           end; discriminate.
Qed.

(* ================================================================== *)
(** ** The pages of a list *)

Lemma firstn_then_firstn {A} (n m : nat) (ys : list A) :
  firstn n ys ++ firstn m (skipn n ys) = firstn (n + m) ys.
Proof.
  revert ys. induction n as [|n IH]; intros ys.
  - reflexivity.
  - destruct ys as [|y ys].
    + cbn [skipn firstn Nat.add app]. apply firstn_nil.
    + cbn [skipn firstn Nat.add app]. f_equal. apply IH.
Qed.

Lemma two_windows {A} (n a : nat) (xs : list A) :
  firstn n (skipn a xs) ++ firstn n (skipn (a + n) xs) =
  firstn (n + n) (skipn a xs).
Proof.
  rewrite Nat.add_comm, <- skipn_skipn. apply firstn_then_firstn.
Qed.

Lemma length_insert_row (c : Client) (o : string * string) (r : State)
  (l : list State) :
  List.length (Prisma.insert_row c o r l) = S (List.length l).
Proof.
  induction l as [|x xs IH]; [reflexivity|].
  cbn [Prisma.insert_row].
  destruct (Prisma.before c o r x); cbn [List.length].
  - reflexivity.
  - rewrite IH. reflexivity.
Qed.

Lemma length_sort_rows (c : Client) (o : string * string) (l : list State) :
  List.length (Prisma.sort_rows c o l) = List.length l.
Proof.
  unfold Prisma.sort_rows.
  induction l as [|x xs IH]; [reflexivity|].
  cbn [fold_right]. rewrite length_insert_row, IH. reflexivity.
Qed.

Lemma length_matching_rows (q : Query) (w : World) :
  Z.of_nat (List.length (matching_rows q w)) = total_of q w.
Proof.
  unfold matching_rows, total_of.
  rewrite length_map, length_sort_rows. reflexivity.
Qed.

(** The records of an accepted list request. *)
Lemma states_of_accepted (req : Request) (w : World) :
  accepts_list w (query req) ->
  states_of (fst (getStates req w)) =
    Prisma.take_rows (limit_of (query req))
      (Prisma.skip_rows (skip_of (query req))
         (matching_rows (query req) w)).
Proof.
  intros Hacc. rewrite (getStates_accepted req w Hacc). reflexivity.
Qed.

(** The offset of a page, while the product is a safe integer. *)
Lemma skip_of_exact (q : Query) (p l : Z) :
  page_of q = Js.Num p -> limit_of q = Js.Num l ->
  1 <= p -> 1 <= l -> (p - 1) * l <= Js.two53 ->
  skip_of q = Js.Num ((p - 1) * l).
Proof.
  intros Hp Hl Hp1 Hl1 Hsafe. unfold skip_of. rewrite Hp, Hl.
  assert (Hpos : 0 < Js.two53) by reflexivity.
  unfold Js.minus. rewrite of_Z_small by nia.
  unfold Js.times. rewrite of_Z_small by nia. reflexivity.
Qed.

(** X3.  Two accepted list requests that differ only in the page, p and
    p + 1, with p * limit at most 2^53, return adjoining windows of the
    matching rows: together they are the 2 * limit rows that follow the
    first (p - 1) * limit, so that no row is skipped or repeated between
    consecutive pages. *)
Theorem consecutive_pages_are_contiguous :
  forall (q : Query) (i1 i2 : option string) (b1 b2 : Js.Value) (w : World)
         (pg1 pg2 : option string) (p l : Z),
    Js.parseInt_param pg1 = Js.Num p -> 1 <= p ->
    Js.parseInt_param pg2 = Js.Num (p + 1) ->
    Js.parseInt_param (q_limit q) = Js.Num l -> 1 <= l ->
    p * l <= 2 ^ 53 ->
    reject_findMany (client w) (Js.Num ((p - 1) * l)) (Js.Num l)
      (orderBy_of q) = None ->
    reject_findMany (client w) (Js.Num (p * l)) (Js.Num l)
      (orderBy_of q) = None ->
    states_of (fst (getStates (mkRequest i1 (with_page pg1 q) b1) w))
    ++ states_of (fst (getStates (mkRequest i2 (with_page pg2 q) b2) w)) =
    firstn (Z.to_nat (2 * l))
      (skipn (Z.to_nat ((p - 1) * l)) (matching_rows q w)).
Proof.
  intros q i1 i2 b1 b2 w pg1 pg2 p l Hp1 Hp Hp2 Hl Hl1 Hsafe Hacc1 Hacc2.
  assert (Hlim : forall pg, limit_of (with_page pg q) = Js.Num l).
  { intros pg. apply limit_of_valid; assumption. }
  assert (Hs1 : skip_of (with_page pg1 q) = Js.Num ((p - 1) * l)).
  { apply (skip_of_exact _ p l); try assumption.
    - apply page_of_valid; assumption.
    - apply Hlim.
    - change Js.two53 with (2 ^ 53). nia. }
  assert (Hs2 : skip_of (with_page pg2 q) = Js.Num (p * l)).
  { replace (p * l) with ((p + 1 - 1) * l) by lia.
    apply (skip_of_exact _ (p + 1) l); try assumption; try lia.
    - apply page_of_valid; [assumption | lia].
    - apply Hlim.
    - change Js.two53 with (2 ^ 53). nia. }
  rewrite !states_of_accepted; cbn [query]; unfold accepts_list;
    rewrite ?Hs1, ?Hs2, ?Hlim; try assumption.
  cbn [Prisma.take_rows Prisma.skip_rows].
  change (matching_rows (with_page pg1 q) w) with (matching_rows q w).
  change (matching_rows (with_page pg2 q) w) with (matching_rows q w).
  replace (Z.to_nat (p * l))
    with (Z.to_nat ((p - 1) * l) + Z.to_nat l)%nat
    by (rewrite <- Z2Nat.inj_add by nia; f_equal; lia).
  replace (Z.to_nat (2 * l)) with (Z.to_nat l + Z.to_nat l)%nat by lia.
  apply two_windows.
Qed.

Lemma consecutive_pages_are_contiguous_witness :
  states_of
    (fst (getStates
            (mkRequest None (mkQuery (Some "1") (Some "1") None None None)
               Js.JUndefined) sample_world))
  ++ states_of
       (fst (getStates
               (mkRequest None (mkQuery (Some "2") (Some "1") None None None)
                  Js.JUndefined) sample_world)) =
  [Prisma.render select_all (mkState 3 "Assam" 130 130);
   Prisma.render select_all (mkState 1 "Goa" 100 100)].
Proof.
  apply
    (consecutive_pages_are_contiguous
       (mkQuery None (Some "1") None None None) None None
       Js.JUndefined Js.JUndefined sample_world (Some "1") (Some "2") 1 1
       eq_refl ltac:(lia) eq_refl eq_refl ltac:(lia)
       ltac:(vm_compute; discriminate) eq_refl eq_refl).
Defined.

(** The offset of a page whose product is beyond the safe integers is
    at least 2^53, or infinite. *)
Lemma skip_of_large (q : Query) (p l : Z) :
  page_of q = Js.Num p -> limit_of q = Js.Num l ->
  1 <= p -> 1 <= l -> Js.two53 < (p - 1) * l ->
  (exists v, skip_of q = Js.Num v /\ Js.two53 <= v)
  \/ skip_of q = Js.Inf false.
Proof.
  intros Hp Hl Hp1 Hl1 Hbig. unfold skip_of. rewrite Hp, Hl.
  assert (Hpos : 0 < Js.two53) by reflexivity.
  unfold Js.minus.
  destruct (Z.le_gt_cases Js.two53 (p - 1)) as [Hlarge|Hsmall].
  - destruct (of_Z_large (p - 1) Hlarge) as [[a [-> Ha]] | ->].
    + unfold Js.times. apply of_Z_large. nia.
    + right. cbn. destruct (Z.eqb_spec l 0); [lia|].
      replace (l <? 0) with false by (symmetry; apply Z.ltb_ge; lia).
      reflexivity.
  - rewrite of_Z_small by lia. unfold Js.times. apply of_Z_large. lia.
Qed.

(** X4.  In the response to an accepted list request with a finite page
    and limit, on a table of at most 2^53 rows, the records are missing
    exactly when the page lies beyond totalPages: every page up to
    totalPages has a record, every later page is an empty list, still
    with status 200 and the usual counts. *)
Theorem page_is_empty_iff_beyond_totalPages :
  forall (req : Request) (w : World) (p l : Z),
    reject_findMany (client w) (skip_of (query req)) (Js.Num l)
      (orderBy_of (query req)) = None ->
    Z.of_nat (List.length (table w)) <= 2 ^ 53 ->
    page_of (query req) = Js.Num p ->
    limit_of (query req) = Js.Num l ->
    exists totalPages : Z,
      status (fst (getStates req w)) = 200
      /\ field "totalPages" (fst (getStates req w)) =
           Some (Js.JNum totalPages)
      /\ field "totalStates" (fst (getStates req w)) =
           Some (Js.JNum (total_of (query req) w))
      /\ field "page" (fst (getStates req w)) = Some (Js.JNum p)
      /\ (states_of (fst (getStates req w)) = [] <-> totalPages < p).
Proof.
  intros req w p l Hacc Hfit Hpage Hlimit.
  pose proof (limit_of_at_least_1 (query req)) as Hl.
  pose proof (page_of_at_least_1 (query req)) as Hp.
  rewrite Hlimit in Hl. rewrite Hpage in Hp. cbn in Hl, Hp.
  pose proof (total_of_range (query req) w Hfit) as Htotal.
  destruct (Math_ceil_div_spec (total_of (query req) w) l Htotal Hl)
    as (tp & Htp & Hbounds & Hrange).
  assert (Hacc' : accepts_list w (query req)).
  { unfold accepts_list. rewrite Hlimit. exact Hacc. }
  exists tp. rewrite (getStates_accepted req w Hacc').
  cbn [fst status]. unfold states_of, field, list_response.
  cbn [json Js.get String.eqb Ascii.eqb Bool.eqb].
  rewrite Hpage, Hlimit, Htp. cbn [number_json].
  split; [reflexivity|]. split; [reflexivity|]. split; [reflexivity|].
  split; [reflexivity|].
  pose proof (length_matching_rows (query req) w) as Hlen.
  set (rows := matching_rows (query req) w) in *.
  assert (Hpos : 0 < Js.two53) by reflexivity.
  destruct (Z.le_gt_cases ((p - 1) * l) Js.two53) as [Hsafe|Hbig].
  - rewrite (skip_of_exact (query req) p l Hpage Hlimit Hp Hl Hsafe).
    cbn [Prisma.take_rows Prisma.skip_rows]. split.
    + intros Hempty.
      apply (f_equal (@List.length Js.Value)) in Hempty.
      rewrite length_firstn, length_skipn in Hempty.
      cbn [List.length] in Hempty.
      assert (Hskip : (List.length rows <= Z.to_nat ((p - 1) * l))%nat)
        by lia.
      apply Nat2Z.inj_le in Hskip. rewrite Z2Nat.id in Hskip by nia. nia.
    + intros Hbeyond.
      rewrite skipn_all2; [destruct (Z.to_nat l); reflexivity|].
      apply Nat2Z.inj_le. rewrite Z2Nat.id by nia. nia.
  - assert (Hlate : tp < p) by nia.
    split; [intros _; exact Hlate | intros _].
    destruct (skip_of_large (query req) p l Hpage Hlimit Hp Hl Hbig)
      as [[v [-> Hv]] | ->]; cbn [Prisma.take_rows Prisma.skip_rows].
    + rewrite skipn_all2; [destruct (Z.to_nat l); reflexivity|].
      apply Nat2Z.inj_le. rewrite Z2Nat.id by lia. lia.
    + destruct (Z.to_nat l); reflexivity.
Qed.

Lemma page_is_empty_iff_beyond_totalPages_witness :
  exists totalPages : Z,
    field "totalPages"
      (fst (getStates
              (mkRequest None (mkQuery (Some "3") (Some "2") None None None)
                 Js.JUndefined) sample_world)) = Some (Js.JNum totalPages)
    /\ (states_of
          (fst (getStates
                  (mkRequest None
                     (mkQuery (Some "3") (Some "2") None None None)
                     Js.JUndefined) sample_world)) = [] <->
        totalPages < 3).
Proof.
  destruct
    (page_is_empty_iff_beyond_totalPages
       (mkRequest None (mkQuery (Some "3") (Some "2") None None None)
          Js.JUndefined) sample_world 3 2 eq_refl
       ltac:(vm_compute; discriminate) eq_refl eq_refl)
    as (tp & _ & Htp & _ & _ & Hiff).
  exists tp. split; [exact Htp | exact Hiff].
Defined.

(** X5.  Reading never writes: after a list request or a get-by-id
    request, whatever its parameters and its outcome, the table and the
    next identifier are what they were; the journal grows by the two
    calls of a list, or by at most one lookup. *)
Theorem reads_leave_the_table_alone :
  forall (req : Request) (w : World),
    table (snd (getStates req w)) = table w
    /\ nextId (snd (getStates req w)) = nextId w
    /\ table (snd (getState req w)) = table w
    /\ nextId (snd (getState req w)) = nextId w
    /\ (calls (snd (getState req w)) = calls w
        \/ exists x, calls (snd (getState req w)) =
                     calls w ++ [CFindUnique x]).
Proof.
  intros req w.
  assert (Hlist : table (snd (getStates req w)) = table w
                  /\ nextId (snd (getStates req w)) = nextId w).
  { destruct (reject_findMany (client w) (skip_of (query req))
                (limit_of (query req)) (orderBy_of (query req)))
      as [e|] eqn:Hrej.
    - destruct (asyncHandler_throw getStates_fn req w _ e
                  (getStates_fn_rejected req w e Hrej))
        as (_ & Ht & Hn & _).
      fold getStates in Ht, Hn. rewrite Ht, Hn. split; reflexivity.
    - rewrite (getStates_accepted req w Hrej). split; reflexivity. }
  destruct Hlist as [Ht Hn]. split; [exact Ht|]. split; [exact Hn|].
  destruct (Js.truthy (Js.parseInt_param (params_id req))) eqn:Htruthy.
  - destruct (reject_id (client w) (Js.parseInt_param (params_id req)))
      as [e|] eqn:Hrej.
    + destruct (asyncHandler_throw getState_fn req w _ e
                  (getState_fn_rejected req w e Htruthy Hrej))
        as (_ & Ht' & Hn' & Hc' & _).
      fold getState in Ht', Hn', Hc'. rewrite Ht', Hn', Hc'.
      split; [reflexivity|]. split; [reflexivity|].
      right. eexists. reflexivity.
    + destruct (Js.parseInt_param (params_id req)) as [|n|b] eqn:Hid;
        [discriminate Htruthy| |].
      * assert (Hnz : n <> 0) by (intros ->; discriminate Htruthy).
        unfold getState, asyncHandler.
        rewrite (getState_fn_accepted req w n Hid Hnz Hrej).
        destruct (Prisma.find_row n (table w));
          (split; [reflexivity|split; [reflexivity|right; eexists;
                                        reflexivity]]).
      * unfold getState, asyncHandler.
        rewrite (getState_fn_no_integer req w b Hid Hrej).
        split; [reflexivity|]. split; [reflexivity|].
        right. eexists. reflexivity.
  - rewrite (getState_refused req w Htruthy).
    split; [reflexivity|split; [reflexivity|left; reflexivity]].
Qed.

(* ================================================================== *)
(** ** What the schemas let through *)

Lemma string_1_255_ok_iff (m : option string) (p : list string)
  (v : Js.Value) (s : string) :
  Zod.string_1_255 m p v = Ok s <-> v = Js.JStr s /\ valid_name s.
Proof.
  unfold Zod.string_1_255, valid_name. split.
  - intros H. destruct v; try discriminate H.
    destruct (Z.ltb_spec (Z.of_nat (String.length s0)) 1);
      [discriminate H|].
    destruct (Z.ltb_spec 255 (Z.of_nat (String.length s0)));
      [discriminate H|].
    injection H as ->. split; [reflexivity | lia].
  - intros [-> Hlen].
    destruct (Z.ltb_spec (Z.of_nat (String.length s)) 1); [lia|].
    destruct (Z.ltb_spec 255 (Z.of_nat (String.length s))); [lia|].
    reflexivity.
Qed.

Lemma createSchema_ok_iff (b : Js.Value) (s : string) :
  createSchema b = Ok (mkCreateInput s) <->
  exists fields,
    b = Js.JObj fields
    /\ Js.get "stateName" fields = Some (Js.JStr s) /\ valid_name s.
Proof.
  unfold createSchema. split.
  - intros H. destruct b as [| | | | | | |fields]; try discriminate H.
    exists fields. split; [reflexivity|].
    match type of H with
    | context [Zod.string_1_255 ?m ?p ?v] =>
        destruct (Zod.string_1_255 m p v) as [s'|e] eqn:Hv
    end; [|discriminate H].
    injection H as ->. apply string_1_255_ok_iff in Hv.
    destruct Hv as [Hv Hname]. split; [|exact Hname].
    destruct (Js.get "stateName" fields) as [v|]; [|discriminate Hv].
    rewrite Hv. reflexivity.
  - intros (fields & -> & Hget & Hname). rewrite Hget.
    rewrite (proj2 (string_1_255_ok_iff _ _ _ s) (conj eq_refl Hname)).
    reflexivity.
Qed.

(** The data the update schema hands over has the one key stateName. *)
Lemma updateSchema_ok_iff (b : Js.Value) (data : list (string * Js.Value)) :
  updateSchema b = Ok data <->
  exists fields,
    b = Js.JObj fields
    /\ ((Js.get "stateName" fields = Some Js.JUndefined
         /\ data = [("stateName", Js.JUndefined)])
        \/ exists s,
             Js.get "stateName" fields = Some (Js.JStr s)
             /\ valid_name s /\ data = [("stateName", Js.JStr s)]).
Proof.
  unfold updateSchema. split.
  - intros H. destruct b as [| | | | | | |fields]; try discriminate H.
    exists fields. split; [reflexivity|].
    destruct (Js.get "stateName" fields) as [v|]; [|discriminate H].
    destruct (Zod.string_1_255 None ["stateName"] v) as [s|e] eqn:Hv.
    + apply string_1_255_ok_iff in Hv. destruct Hv as [-> Hname].
      right. exists s. injection H as <-. auto.
    + destruct v; try discriminate H.
      left. injection H as <-. auto.
  - intros (fields & -> & [[Hget ->] | (s & Hget & Hname & ->)]);
      rewrite Hget; [reflexivity|].
    rewrite (proj2 (string_1_255_ok_iff _ _ _ s) (conj eq_refl Hname)).
    reflexivity.
Qed.

Lemma update_body_ok_iff (b : Js.Value) :
  update_body_ok b <-> exists data, updateSchema b = Ok data.
Proof.
  unfold update_body_ok. split.
  - intros (fields & Hb & [Hu | (s & Hget & Hname)]).
    + eexists. apply updateSchema_ok_iff. exists fields.
      split; [exact Hb|]. left. split; [exact Hu | reflexivity].
    + eexists. apply updateSchema_ok_iff. exists fields.
      split; [exact Hb|]. right. exists s. auto.
  - intros (data & H). apply updateSchema_ok_iff in H.
    destruct H as (fields & Hb & [[Hu _] | (s & Hget & Hname & _)]);
      exists fields; (split; [exact Hb|]); [left; exact Hu|].
    right. exists s. auto.
Qed.

(** What is left of the validated data for the store: nothing, or the
    new name. *)
Lemma data_to_update_shape (b : Js.Value) (data : list (string * Js.Value)) :
  updateSchema b = Ok data ->
  remove_undefined data = []
  \/ exists s,
       valid_name s /\ remove_undefined data = [("stateName", Js.JStr s)].
Proof.
  intros H. apply updateSchema_ok_iff in H.
  destruct H as (fields & _ & [[_ ->] | (s & _ & Hname & ->)]).
  - left. reflexivity.
  - right. exists s. split; [exact Hname | reflexivity].
Qed.

(* ================================================================== *)
(** ** Create, and what follows it *)

Lemma createState_refused_body (req : Request) (w : World) (e : Error) :
  createSchema (body req) = Throw e ->
  createState req w = (internal_server_error, with_console e w).
Proof.
  intros He. destruct (createState_rejected req w e He) as [_ Hresp].
  destruct (createSchema_throws_zod _ _ He) as [issues ->].
  rewrite Hresp, render_error_zod. reflexivity.
Qed.

Lemma createState_clash (req : Request) (w : World) (s : string)
  (t : MetaTarget) :
  createSchema (body req) = Ok (mkCreateInput s) ->
  unique_stateName w = Some t ->
  Prisma.name_taken None s (table w) = true ->
  status (fst (createState req w)) <> 201
  /\ table (snd (createState req w)) = table w
  /\ nextId (snd (createState req w)) = nextId w.
Proof.
  intros Hs Ht Htaken.
  unfold createState, asyncHandler. run_handler. rewrite Hs.
  unfold Prisma.create. cbn [input_stateName]. rewrite Ht, Htaken.
  destruct (render_error_cases (PrismaClientKnownRequestError "P2002" (Some t)))
    as [[H400 Hlog] | H500].
  - destruct (render_error _) as [r logged]. cbn [fst snd] in *.
    subst logged. cbn [fst snd]. rewrite H400.
    split; [discriminate | split; reflexivity].
  - rewrite H500. cbn [fst snd].
    split; [discriminate | split; reflexivity].
Qed.

Lemma createSchema_result (b : Js.Value) :
  (exists e, createSchema b = Throw e)
  \/ exists s, createSchema b = Ok (mkCreateInput s).
Proof.
  destruct (createSchema b) as [[s]|e];
    [right; exists s; reflexivity | left; exists e; reflexivity].
Qed.


Lemma fresh_of_store_ok (w : World) :
  store_ok w -> fresh_nextId w.
Proof.
  intros (Hpos & _ & Hall). split; [lia|].
  unfold Prisma.find_row.
  destruct (find (fun r => id r =? nextId w) (table w)) as [r|] eqn:Hf;
    [|reflexivity].
  apply find_some in Hf. destruct Hf as [Hin Heq].
  apply Z.eqb_eq in Heq. rewrite Forall_forall in Hall.
  specialize (Hall r Hin). lia.
Qed.

Lemma sample_world_ok : store_ok sample_world.
Proof.
  split; [reflexivity|]. split.
  - repeat constructor; cbn; intuition discriminate.
  - repeat constructor.
Defined.

(** X7.  Create then get: on a store whose identifiers are sound, the
    record a create request returns carries the identifier the store
    assigned (the next one, whatever the body asked for), and a get
    request for that identifier, when the store runs the lookup, returns
    the same record. *)
Theorem created_record_round_trip :
  forall (creq greq : Request) (w : World)
         (fields : list (string * Js.Value)) (s : string),
    store_ok w ->
    body creq = Js.JObj fields ->
    Js.get "stateName" fields = Some (Js.JStr s) ->
    valid_name s ->
    name_free w None s ->
    Js.parseInt_param (params_id greq) = Js.Num (nextId w) ->
    accepts_id w (nextId w) ->
    status (fst (createState creq w)) = 201
    /\ field "id" (fst (createState creq w)) = Some (Js.JNum (nextId w))
    /\ field "stateName" (fst (createState creq w)) = Some (Js.JStr s)
    /\ status (fst (getState greq (snd (createState creq w)))) = 200
    /\ json (fst (getState greq (snd (createState creq w)))) =
         json (fst (createState creq w)).
Proof.
  intros creq greq w fields s Hok Hb Hget Hname Hfree Hid Hacc.
  rewrite (createState_valid_name creq w fields s Hb Hget Hname Hfree).
  cbn [fst snd status].
  split; [reflexivity|]. split; [reflexivity|]. split; [reflexivity|].
  destruct (fresh_of_store_ok w Hok) as [Hnz Hfresh].
  rewrite (getState_found greq (after_create w s) (nextId w) (created w s)
             Hid Hnz).
  - split; reflexivity.
  - exact Hacc.
  - cbn [after_create table with_nextId with_table].
    apply find_row_app_fresh; [exact Hfresh | reflexivity].
Qed.

Lemma created_record_round_trip_witness :
  status
    (fst (createState
            (mkRequest None no_query
               (Js.JObj [("id", Js.JNum 77); ("stateName", Js.JStr "Bihar")]))
            sample_world)) = 201
  /\ field "id"
       (fst (createState
               (mkRequest None no_query
                  (Js.JObj [("id", Js.JNum 77);
                            ("stateName", Js.JStr "Bihar")]))
               sample_world)) = Some (Js.JNum 4)
  /\ status
       (fst (getState (mkRequest (Some "4") no_query Js.JUndefined)
               (snd (createState
                       (mkRequest None no_query
                          (Js.JObj [("id", Js.JNum 77);
                                    ("stateName", Js.JStr "Bihar")]))
                       sample_world)))) = 200.
Proof.
  destruct
    (created_record_round_trip
       (mkRequest None no_query
          (Js.JObj [("id", Js.JNum 77); ("stateName", Js.JStr "Bihar")]))
       (mkRequest (Some "4") no_query Js.JUndefined)
       sample_world
       [("id", Js.JNum 77); ("stateName", Js.JStr "Bihar")] "Bihar"
       sample_world_ok eq_refl eq_refl ltac:(unfold valid_name; cbn; lia)
       (or_introl eq_refl) eq_refl eq_refl)
    as (H1 & H2 & _ & H4 & _).
  split; [exact H1 | split; [exact H2 | exact H4]].
Defined.

Lemma filter_keeps_other_ids (n : Z) (t : list State) :
  Forall (fun r => id r <> n) t ->
  filter (fun x => negb (id x =? n)) t = t.
Proof.
  induction 1 as [|x t Hx _ IH]; [reflexivity|].
  cbn [filter]. destruct (Z.eqb_spec (id x) n); [contradiction|].
  cbn [negb]. rewrite IH. reflexivity.
Qed.

(** X8.  Create then delete: on a store whose identifiers are sound,
    deleting the record that a create request has just inserted (the
    store running the calls on its identifier) is answered with 200 and
    leaves the table as it was before the create; the identifier is not
    given again (the next identifier stays one higher). *)
Theorem create_then_delete_restores_table :
  forall (creq dreq : Request) (w : World)
         (fields : list (string * Js.Value)) (s : string),
    store_ok w ->
    body creq = Js.JObj fields ->
    Js.get "stateName" fields = Some (Js.JStr s) ->
    valid_name s ->
    name_free w None s ->
    Js.parseInt_param (params_id dreq) = Js.Num (nextId w) ->
    accepts_id w (nextId w) ->
    status (fst (deleteState dreq (snd (createState creq w)))) = 200
    /\ table (snd (deleteState dreq (snd (createState creq w)))) = table w
    /\ nextId (snd (deleteState dreq (snd (createState creq w)))) =
         nextId w + 1.
Proof.
  intros creq dreq w fields s Hok Hb Hget Hname Hfree Hid Hacc.
  rewrite (createState_valid_name creq w fields s Hb Hget Hname Hfree).
  cbn [snd].
  destruct (fresh_of_store_ok w Hok) as [Hnz Hfresh].
  assert (Hrow : Prisma.find_row (nextId w) (table (after_create w s)) =
                 Some (created w s)).
  { cbn [after_create table with_nextId with_table].
    apply find_row_app_fresh; [exact Hfresh | reflexivity]. }
  assert (Hacc' : accepts_id (after_create w s) (nextId w)) by exact Hacc.
  rewrite (deleteState_found dreq (after_create w s) (nextId w) (created w s)
             Hid Hnz Hacc' Hrow).
  unfold after_delete.
  cbn [fst snd status table nextId with_table with_call with_nextId
         after_create].
  split; [reflexivity|]. split; [|reflexivity].
  rewrite filter_app. cbn [filter created id].
  rewrite Z.eqb_refl. cbn [negb]. rewrite app_nil_r.
  apply filter_keeps_other_ids.
  destruct Hok as (_ & _ & Hall).
  eapply Forall_impl; [|exact Hall]. cbn beta. intros r Hr. lia.
Qed.

Lemma create_then_delete_restores_table_witness :
  table
    (snd (deleteState (mkRequest (Some "4") no_query Js.JUndefined)
            (snd (createState
                    (mkRequest None no_query
                       (Js.JObj [("stateName", Js.JStr "Bihar")]))
                    sample_world)))) = table sample_world.
Proof.
  apply
    (create_then_delete_restores_table
       (mkRequest None no_query (Js.JObj [("stateName", Js.JStr "Bihar")]))
       (mkRequest (Some "4") no_query Js.JUndefined)
       sample_world [("stateName", Js.JStr "Bihar")] "Bihar"
       sample_world_ok eq_refl eq_refl ltac:(unfold valid_name; cbn; lia)
       (or_introl eq_refl) eq_refl eq_refl).
Defined.

(* ================================================================== *)
(** ** What a delete removes *)

Lemma length_filter_unique_id (n : Z) (t : list State) (r : State) :
  NoDup (map id t) ->
  Prisma.find_row n t = Some r ->
  S (List.length (filter (fun x => negb (id x =? n)) t)) = List.length t.
Proof.
  unfold Prisma.find_row.
  induction t as [|x t IH]; intros Hnd Hfind; [discriminate Hfind|].
  cbn [map] in Hnd. apply NoDup_cons_iff in Hnd. destruct Hnd as [Hnotin Hnd].
  cbn [find filter] in *. destruct (Z.eqb_spec (id x) n) as [Heq|Hne].
  - cbn [negb List.length]. f_equal.
    rewrite filter_keeps_other_ids; [reflexivity|].
    rewrite Forall_forall. intros y Hy Hyn. apply Hnotin.
    rewrite Heq, <- Hyn. apply in_map. exact Hy.
  - cbn [negb List.length]. f_equal. exact (IH Hnd Hfind).
Qed.

(** X9.  A delete request on an existing record, the store running the
    calls on its identifier, removes the rows of that identifier and no
    other row: a row is in the table afterwards exactly when it was there
    before under another identifier; when the identifiers are distinct
    the table shrinks by exactly one row; the next identifier does not
    move. *)
Theorem deleteState_removes_that_row_only :
  forall (req : Request) (w : World) (n : Z) (r : State),
    Js.parseInt_param (params_id req) = Js.Num n -> n <> 0 ->
    accepts_id w n ->
    Prisma.find_row n (table w) = Some r ->
    status (fst (deleteState req w)) = 200
    /\ (forall x, In x (table (snd (deleteState req w))) <->
                  In x (table w) /\ id x <> n)
    /\ nextId (snd (deleteState req w)) = nextId w
    /\ (NoDup (map id (table w)) ->
        S (List.length (table (snd (deleteState req w)))) =
        List.length (table w)).
Proof.
  intros req w n r Hid Hn Hacc Hrow.
  rewrite (deleteState_found req w n r Hid Hn Hacc Hrow).
  unfold after_delete.
  cbn [fst snd status table nextId with_table with_call].
  split; [reflexivity|]. split; [|split; [reflexivity|]].
  - intros x. rewrite filter_In. split; intros [Hin Hx]; split;
      try exact Hin.
    + intros Heq. rewrite Heq, Z.eqb_refl in Hx. discriminate Hx.
    + destruct (Z.eqb_spec (id x) n); [contradiction | reflexivity].
  - intros Hnd. exact (length_filter_unique_id n (table w) r Hnd Hrow).
Qed.

Lemma deleteState_removes_that_row_only_witness :
  status (fst (deleteState (mkRequest (Some "2") no_query Js.JUndefined)
                 sample_world)) = 200
  /\ nextId (snd (deleteState (mkRequest (Some "2") no_query Js.JUndefined)
                    sample_world)) = 4.
Proof.
  destruct
    (deleteState_removes_that_row_only
       (mkRequest (Some "2") no_query Js.JUndefined) sample_world 2
       (mkState 2 "Kerala" 110 120) eq_refl ltac:(discriminate) eq_refl
       eq_refl)
    as (Hst & _ & Hnext & _).
  split; [exact Hst | exact Hnext].
Defined.

(* ================================================================== *)
(** ** Update, by cases *)

(** A rejection leaves the status off 200 and the store as the handler
    left it. *)
Lemma asyncHandler_throw_frame (fn : Request -> M Response) (req : Request)
  (w w' : World) (e : Error) :
  fn req w = (Throw e, w') ->
  table w' = table w -> nextId w' = nextId w ->
  status (fst (asyncHandler fn req w)) <> 200
  /\ table (snd (asyncHandler fn req w)) = table w
  /\ nextId (snd (asyncHandler fn req w)) = nextId w.
Proof.
  intros Hrun Ht Hn.
  destruct (asyncHandler_throw fn req w w' e Hrun)
    as (Hresp & Ht' & Hn' & _).
  rewrite Hresp, Ht', Hn', Ht, Hn.
  split; [|split; reflexivity].
  destruct (render_error_status e) as [H|H]; rewrite H; discriminate.
Qed.

(** An update that writes: the store has no objection to the name. *)
Lemma updateState_written (req : Request) (w : World) (n : Z)
  (data : list (string * Js.Value)) (old : State) (s : string) :
  Js.parseInt_param (params_id req) = Js.Num n -> n <> 0 ->
  updateSchema (body req) = Ok data ->
  accepts_id w n ->
  Prisma.find_row n (table w) = Some old ->
  remove_undefined data = [("stateName", Js.JStr s)] ->
  name_free w (Some n) s ->
  updateState req w =
    (mkResponse 200 (Prisma.render None (renamed old s (now w))),
     with_table (Prisma.replace_row n (renamed old s (now w)) (table w))
       (with_call (CUpdate (Js.Num n) [("stateName", Js.JStr s)])
          (with_call (CFindUnique (Js.Num n)) w))).
Proof.
  unfold accepts_id. intros Hid Hn Hdata Hacc Hrow Hone Hfree.
  unfold updateState, asyncHandler.
  rewrite (updateState_fn_accepted req w n Hid Hn), Hdata, Hacc, Hrow, Hone.
  unfold bind, Prisma.update, res_json, ret.
  cbn [table client with_call unique_stateName now]. rewrite Hacc.
  cbn [Prisma.row_of]. rewrite Hrow.
  cbn [Prisma.writes existsb snd is_undefined negb orb
         Prisma.updated_row Prisma.apply_data Prisma.touch
         stateName id createdAt updatedAt].
  fold (renamed old s (now w)).
  destruct Hfree as [Hnone | Hfree].
  - rewrite Hnone. reflexivity.
  - rewrite Hfree. destruct (unique_stateName w); reflexivity.
Qed.

(** An update whose only field is undefined: the store is sent an empty
    update and returns the row as it is. *)
Lemma updateState_empty_write (req : Request) (w : World) (n : Z)
  (data : list (string * Js.Value)) (old : State) :
  Js.parseInt_param (params_id req) = Js.Num n -> n <> 0 ->
  updateSchema (body req) = Ok data ->
  accepts_id w n ->
  Prisma.find_row n (table w) = Some old ->
  remove_undefined data = [] ->
  updateState req w =
    (mkResponse 200 (Prisma.render None old),
     with_call (CUpdate (Js.Num n) [])
       (with_call (CFindUnique (Js.Num n)) w)).
Proof.
  unfold accepts_id. intros Hid Hn Hdata Hacc Hrow Hempty.
  unfold updateState, asyncHandler.
  rewrite (updateState_fn_accepted req w n Hid Hn), Hdata, Hacc, Hrow,
    Hempty.
  unfold bind, Prisma.update, res_json, ret.
  cbn [table client with_call]. rewrite Hacc.
  cbn [Prisma.row_of]. rewrite Hrow. reflexivity.
Qed.

Lemma updateState_clash (req : Request) (w : World) (n : Z)
  (data : list (string * Js.Value)) (old : State) (s : string)
  (t : MetaTarget) :
  Js.parseInt_param (params_id req) = Js.Num n -> n <> 0 ->
  updateSchema (body req) = Ok data ->
  accepts_id w n ->
  Prisma.find_row n (table w) = Some old ->
  remove_undefined data = [("stateName", Js.JStr s)] ->
  unique_stateName w = Some t ->
  Prisma.name_taken (Some n) s (table w) = true ->
  status (fst (updateState req w)) <> 200
  /\ table (snd (updateState req w)) = table w
  /\ nextId (snd (updateState req w)) = nextId w.
Proof.
  unfold accepts_id. intros Hid Hn Hdata Hacc Hrow Hone Ht Htaken.
  apply (asyncHandler_throw_frame updateState_fn req w
           (with_call (CUpdate (Js.Num n) [("stateName", Js.JStr s)])
              (with_call (CFindUnique (Js.Num n)) w))
           (PrismaClientKnownRequestError "P2002" (Some t)));
    [|reflexivity|reflexivity].
  rewrite (updateState_fn_accepted req w n Hid Hn), Hdata, Hacc, Hrow, Hone.
  unfold bind, Prisma.update, res_json, ret.
  cbn [table client with_call unique_stateName now]. rewrite Hacc.
  cbn [Prisma.row_of]. rewrite Hrow.
  cbn [Prisma.writes existsb snd is_undefined negb orb
         Prisma.updated_row Prisma.apply_data Prisma.touch
         stateName id createdAt updatedAt].
  rewrite Ht, Htaken. reflexivity.
Qed.

(** A request that does not reach the write: refused identifier,
    refused body, refused lookup, or no such row. *)
Lemma updateState_no_write (req : Request) (w : World) :
  Js.truthy (Js.parseInt_param (params_id req)) = false
  \/ (exists e, updateSchema (body req) = Throw e)
  \/ (exists e,
        reject_id (client w) (Js.parseInt_param (params_id req)) = Some e)
  \/ Prisma.row_of (Js.parseInt_param (params_id req)) (table w) = None ->
  status (fst (updateState req w)) <> 200
  /\ table (snd (updateState req w)) = table w
  /\ nextId (snd (updateState req w)) = nextId w.
Proof.
  intros Hcase.
  assert (Hthrow : exists e w',
             updateState_fn req w = (Throw e, w')
             /\ table w' = table w /\ nextId w' = nextId w).
  { run_handler.
    destruct (Js.truthy (Js.parseInt_param (params_id req))) eqn:Htruthy;
      cbn [negb]; [|eexists; eexists; repeat split].
    destruct (updateSchema (body req)) as [data|e] eqn:Hdata;
      [|eexists; eexists; repeat split].
    destruct (reject_id (client w) (Js.parseInt_param (params_id req)))
      as [e|] eqn:Hrej; [eexists; eexists; repeat split|].
    destruct (Prisma.row_of (Js.parseInt_param (params_id req)) (table w))
      as [r|] eqn:Hrow; [|eexists; eexists; repeat split].
    exfalso.
    destruct Hcase as [Hc | [[e He] | [[e He] | Hc]]]; discriminate. }
  destruct Hthrow as (e & w' & Hrun & Ht & Hn).
  exact (asyncHandler_throw_frame updateState_fn req w w' e Hrun Ht Hn).
Qed.

(** The cases of an update request. *)
Lemma updateState_cases (req : Request) (w : World) :
  (Js.truthy (Js.parseInt_param (params_id req)) = false
   \/ (exists e, updateSchema (body req) = Throw e)
   \/ (exists e,
         reject_id (client w) (Js.parseInt_param (params_id req)) = Some e)
   \/ Prisma.row_of (Js.parseInt_param (params_id req)) (table w) = None)
  \/ exists n data old,
       Js.parseInt_param (params_id req) = Js.Num n /\ n <> 0
       /\ updateSchema (body req) = Ok data
       /\ accepts_id w n
       /\ Prisma.find_row n (table w) = Some old.
Proof.
  destruct (Js.truthy (Js.parseInt_param (params_id req))) eqn:Htruthy;
    [|left; left; reflexivity].
  destruct (updateSchema (body req)) as [data|e] eqn:Hdata;
    [|left; right; left; exists e; reflexivity].
  destruct (reject_id (client w) (Js.parseInt_param (params_id req)))
    as [e|] eqn:Hrej; [left; right; right; left; exists e; reflexivity|].
  destruct (Js.parseInt_param (params_id req)) as [|n|b] eqn:Hid;
    [discriminate Htruthy| |left; right; right; right; reflexivity].
  assert (Hn : n <> 0) by (intros ->; discriminate Htruthy).
  destruct (Prisma.find_row n (table w)) as [old|] eqn:Hrow.
  - right. exists n, data, old. unfold accepts_id. auto.
  - left. right. right. right. exact Hrow.
Qed.

(** What an update that is answered with 200 has done. *)
Lemma updateState_200 (req : Request) (w : World) :
  status (fst (updateState req w)) = 200 ->
  exists n data old,
    Js.parseInt_param (params_id req) = Js.Num n /\ n <> 0
    /\ updateSchema (body req) = Ok data
    /\ accepts_id w n
    /\ Prisma.find_row n (table w) = Some old
    /\ ((remove_undefined data = []
         /\ updateState req w =
              (mkResponse 200 (Prisma.render None old),
               with_call (CUpdate (Js.Num n) [])
                 (with_call (CFindUnique (Js.Num n)) w)))
        \/ exists s,
             valid_name s
             /\ remove_undefined data = [("stateName", Js.JStr s)]
             /\ updateState req w =
                  (mkResponse 200
                     (Prisma.render None (renamed old s (now w))),
                   with_table
                     (Prisma.replace_row n (renamed old s (now w))
                        (table w))
                     (with_call
                        (CUpdate (Js.Num n) [("stateName", Js.JStr s)])
                        (with_call (CFindUnique (Js.Num n)) w)))).
Proof.
  intros H200.
  destruct (updateState_cases req w)
    as [Hno | (n & data & old & Hid & Hn & Hdata & Hacc & Hrow)].
  { destruct (updateState_no_write req w Hno) as [Hne _]. contradiction. }
  exists n, data, old.
  do 5 (split; [assumption|]).
  destruct (data_to_update_shape _ _ Hdata) as [Hempty | (s & Hname & Hone)].
  - left. split; [exact Hempty|].
    exact (updateState_empty_write req w n data old Hid Hn Hdata Hacc Hrow
             Hempty).
  - right. exists s. split; [exact Hname|]. split; [exact Hone|].
    apply (updateState_written req w n data old s Hid Hn Hdata Hacc Hrow
             Hone).
    unfold name_free. destruct (unique_stateName w) as [t|] eqn:Ht;
      [|left; reflexivity].
    destruct (Prisma.name_taken (Some n) s (table w)) eqn:Htaken;
      [|right; reflexivity].
    destruct (updateState_clash req w n data old s t Hid Hn Hdata Hacc Hrow
                Hone Ht Htaken) as [Hne _].
    contradiction.
Qed.

Lemma length_replace_row (n : Z) (r : State) (t : list State) :
  List.length (Prisma.replace_row n r t) = List.length t.
Proof. unfold Prisma.replace_row. apply length_map. Qed.

(** X10.  Whatever the body of an update request holds, a request that
    is answered with 200 has sent the store no field other than
    stateName, and has changed at most one thing in the table.  When the
    body supplied a stateName (1 to 255 characters), the rows of the
    identifier take that name and the time of the write as updatedAt, and
    keep their id and createdAt.  When the stateName was present and
    undefined, the store was sent an empty update and the table is what it
    was, updatedAt included.  The number of rows and the next identifier
    are unchanged. *)
Theorem updateState_writes_stateName_only :
  forall (req : Request) (w : World),
    status (fst (updateState req w)) = 200 ->
    exists (n : Z) (old new : State) (data : list (string * Js.Value)),
      Js.parseInt_param (params_id req) = Js.Num n
      /\ Prisma.find_row n (table w) = Some old
      /\ json (fst (updateState req w)) =
           Js.JObj [("id", Js.JNum (id new));
                    ("stateName", Js.JStr (stateName new));
                    ("createdAt", Js.JDate (createdAt new));
                    ("updatedAt", Js.JDate (updatedAt new))]
      /\ id new = id old
      /\ createdAt new = createdAt old
      /\ ((data = [] /\ new = old
           /\ table (snd (updateState req w)) = table w)
          \/ (data = [("stateName", Js.JStr (stateName new))]
              /\ 1 <= Z.of_nat (String.length (stateName new)) <= 255
              /\ updatedAt new = now w
              /\ table (snd (updateState req w)) =
                   map (fun r => if id r =? n then new else r) (table w)))
      /\ nextId (snd (updateState req w)) = nextId w
      /\ List.length (table (snd (updateState req w))) =
           List.length (table w)
      /\ calls (snd (updateState req w)) =
           calls w ++ [CFindUnique (Js.Num n); CUpdate (Js.Num n) data].
Proof.
  intros req w H200.
  destruct (updateState_200 req w H200)
    as (n & data & old & Hid & Hn & Hdata & Hacc & Hrow
        & [[Hempty Hrun] | (s & Hname & Hone & Hrun)]);
    rewrite Hrun; cbn [fst snd json table nextId calls with_table with_call].
  - exists n, old, old, [].
    split; [exact Hid|]. split; [exact Hrow|]. split; [reflexivity|].
    split; [reflexivity|]. split; [reflexivity|].
    split; [left; repeat split|]. split; [reflexivity|].
    split; [reflexivity|]. rewrite <- app_assoc. reflexivity.
  - exists n, old, (renamed old s (now w)), [("stateName", Js.JStr s)].
    split; [exact Hid|]. split; [exact Hrow|]. split; [reflexivity|].
    split; [reflexivity|]. split; [reflexivity|].
    split; [right; repeat split; apply Hname|]. split; [reflexivity|].
    split; [apply length_replace_row|].
    rewrite <- app_assoc. reflexivity.
Qed.

Lemma updateState_writes_stateName_only_witness :
  exists (new : State),
    json
      (fst (updateState
              (mkRequest (Some "2") no_query
                 (Js.JObj [("id", Js.JNum 9); ("createdAt", Js.JNum 0);
                           ("stateName", Js.JStr "Bihar")]))
              sample_world)) =
      Js.JObj [("id", Js.JNum (id new));
               ("stateName", Js.JStr (stateName new));
               ("createdAt", Js.JDate (createdAt new));
               ("updatedAt", Js.JDate (updatedAt new))]
    /\ id new = 2 /\ createdAt new = 110.
Proof.
  destruct
    (updateState_writes_stateName_only
       (mkRequest (Some "2") no_query
          (Js.JObj [("id", Js.JNum 9); ("createdAt", Js.JNum 0);
                    ("stateName", Js.JStr "Bihar")]))
       sample_world eq_refl)
    as (n & old & new & data & Hid & Hrow & Hjson & Hidn & Hc & _).
  injection Hid as <-. injection Hrow as <-.
  exists new. auto.
Defined.

(** X11.  On a store without a uniqueness constraint that runs its
    calls on the identifier when it is a nonzero number, an update request
    is answered with 200 exactly when its identifier parses to a nonzero
    number that a row has and its body passes the schema: an object whose
    stateName is a string of 1 to 255 characters, or is present with the
    value undefined (which no JSON body has).  Whatever the store, a
    request that is not answered with 200 leaves the table and the next
    identifier unchanged. *)
Theorem updateState_succeeds_iff :
  forall (req : Request) (w : World),
    (unique_stateName w = None ->
     (forall n,
        Js.parseInt_param (params_id req) = Js.Num n -> n <> 0 ->
        reject_id (client w) (Js.Num n) = None) ->
     (status (fst (updateState req w)) = 200 <->
      (exists fields,
         body req = Js.JObj fields
         /\ (Js.get "stateName" fields = Some Js.JUndefined
             \/ exists s,
                  Js.get "stateName" fields = Some (Js.JStr s)
                  /\ 1 <= Z.of_nat (String.length s) <= 255))
      /\ exists n old,
           Js.parseInt_param (params_id req) = Js.Num n /\ n <> 0
           /\ Prisma.find_row n (table w) = Some old))
    /\ (status (fst (updateState req w)) <> 200 ->
        table (snd (updateState req w)) = table w
        /\ nextId (snd (updateState req w)) = nextId w).
Proof.
  intros req w. split.
  - intros Hnone Hacc. fold (update_body_ok (body req)). split.
    + intros H200.
      destruct (updateState_200 req w H200)
        as (n & data & old & Hid & Hn & Hdata & _ & Hrow & _).
      split.
      * apply update_body_ok_iff. exists data. exact Hdata.
      * exists n, old. auto.
    + intros [Hbody (n & old & Hid & Hn & Hrow)].
      apply update_body_ok_iff in Hbody. destruct Hbody as [data Hdata].
      specialize (Hacc n Hid Hn).
      destruct (data_to_update_shape _ _ Hdata)
        as [Hempty | (s & Hname & Hone)].
      * rewrite (updateState_empty_write req w n data old Hid Hn Hdata Hacc
                   Hrow Hempty). reflexivity.
      * rewrite (updateState_written req w n data old s Hid Hn Hdata Hacc
                   Hrow Hone (or_introl Hnone)). reflexivity.
  - intros Hne.
    destruct (updateState_cases req w)
      as [Hno | (n & data & old & Hid & Hn & Hdata & Hacc & Hrow)].
    + destruct (updateState_no_write req w Hno) as (_ & Htab & Hnext).
      split; assumption.
    + destruct (data_to_update_shape _ _ Hdata)
        as [Hempty | (s & Hname & Hone)].
      * rewrite (updateState_empty_write req w n data old Hid Hn Hdata Hacc
                   Hrow Hempty). split; reflexivity.
      * destruct (unique_stateName w) as [t|] eqn:Ht.
        -- destruct (Prisma.name_taken (Some n) s (table w)) eqn:Htaken.
           ++ destruct (updateState_clash req w n data old s t Hid Hn Hdata
                          Hacc Hrow Hone Ht Htaken) as (_ & Htab & Hnext).
              split; assumption.
           ++ exfalso. apply Hne.
              rewrite (updateState_written req w n data old s Hid Hn Hdata
                         Hacc Hrow Hone (or_intror Htaken)). reflexivity.
        -- exfalso. apply Hne.
           rewrite (updateState_written req w n data old s Hid Hn Hdata
                      Hacc Hrow Hone (or_introl Ht)). reflexivity.
Qed.

Lemma updateState_succeeds_iff_witness :
  (status
     (fst (updateState
             (mkRequest (Some "2") no_query (Js.JObj [("x", Js.JNum 1)]))
             sample_world)) <> 200)
  /\ status
       (fst (updateState
               (mkRequest (Some "2") no_query
                  (Js.JObj [("stateName", Js.JStr "Bihar")]))
               sample_world)) = 200.
Proof.
  split.
  - discriminate.
  - apply
      (proj2
         (proj1
            (updateState_succeeds_iff
               (mkRequest (Some "2") no_query
                  (Js.JObj [("stateName", Js.JStr "Bihar")]))
               sample_world) eq_refl
            ltac:(intros n Hid _; change (Js.Num 2 = Js.Num n) in Hid;
                  injection Hid as <-; reflexivity))).
    split.
    + exists [("stateName", Js.JStr "Bihar")]. split; [reflexivity|].
      right. exists "Bihar". split; [reflexivity|]. cbn. lia.
    + exists 2, (mkState 2 "Kerala" 110 120).
      split; [reflexivity|]. split; [discriminate | reflexivity].
Defined.

(* ================================================================== *)
(** ** The identifiers stay sound *)

Lemma store_ok_same (w w' : World) :
  table w' = table w -> nextId w' = nextId w -> store_ok w -> store_ok w'.
Proof. unfold store_ok. intros -> ->. exact (fun H => H). Qed.

Lemma getStates_frame (req : Request) (w : World) :
  table (snd (getStates req w)) = table w
  /\ nextId (snd (getStates req w)) = nextId w.
Proof.
  destruct (reject_findMany (client w) (skip_of (query req))
              (limit_of (query req)) (orderBy_of (query req)))
    as [e|] eqn:Hrej.
  - destruct (asyncHandler_throw getStates_fn req w _ e
                (getStates_fn_rejected req w e Hrej))
      as (_ & Ht & Hn & _).
    fold getStates in Ht, Hn. rewrite Ht, Hn. split; reflexivity.
  - rewrite (getStates_accepted req w Hrej). split; reflexivity.
Qed.

Lemma getState_frame (req : Request) (w : World) :
  table (snd (getState req w)) = table w
  /\ nextId (snd (getState req w)) = nextId w.
Proof.
  unfold getState, asyncHandler. run_handler.
  destruct (negb (Js.truthy (Js.parseInt_param (params_id req))));
    [split; reflexivity|].
  destruct (reject_id _ _) as [e|].
  - destruct (render_error e) as [r [|]]; split; reflexivity.
  - destruct (Prisma.row_of _ (table w)); split; reflexivity.
Qed.

Lemma deleteState_cases (req : Request) (w : World) :
  (table (snd (deleteState req w)) = table w
   /\ nextId (snd (deleteState req w)) = nextId w)
  \/ exists n,
       table (snd (deleteState req w)) =
         filter (fun x => negb (id x =? n)) (table w)
       /\ nextId (snd (deleteState req w)) = nextId w.
Proof.
  destruct (Js.truthy (Js.parseInt_param (params_id req))) eqn:Htruthy.
  - destruct (reject_id (client w) (Js.parseInt_param (params_id req)))
      as [e|] eqn:Hrej.
    + left.
      destruct (asyncHandler_throw deleteState_fn req w _ e
                  (deleteState_fn_rejected req w e Htruthy Hrej))
        as (_ & Ht & Hn & _).
      fold deleteState in Ht, Hn. rewrite Ht, Hn. split; reflexivity.
    + destruct (Js.parseInt_param (params_id req)) as [|n|b] eqn:Hid;
        [discriminate Htruthy| |].
      * assert (Hn : n <> 0) by (intros ->; discriminate Htruthy).
        destruct (Prisma.find_row n (table w)) as [r|] eqn:Hrow.
        -- right. exists n.
           rewrite (deleteState_found req w n r Hid Hn Hrej Hrow).
           split; reflexivity.
        -- left.
           destruct (deleteState_missing req w n Hid Hn Hrej Hrow)
             as [_ ->].
           split; reflexivity.
      * left. unfold deleteState, asyncHandler.
        rewrite (deleteState_fn_no_integer req w b Hid Hrej).
        split; reflexivity.
  - left. unfold deleteState, asyncHandler.
    rewrite (deleteState_fn_refused req w Htruthy). split; reflexivity.
Qed.

Lemma NoDup_ids_filter (f : State -> bool) (t : list State) :
  NoDup (map id t) -> NoDup (map id (filter f t)).
Proof.
  induction t as [|x t IH]; intros Hnd; [exact Hnd|].
  cbn [map] in Hnd. apply NoDup_cons_iff in Hnd. destruct Hnd as [Hx Hnd].
  cbn [filter]. destruct (f x); [|exact (IH Hnd)].
  cbn [map]. apply NoDup_cons; [|exact (IH Hnd)].
  intros Hin. apply Hx. apply in_map_iff in Hin.
  destruct Hin as (y & Hy & Hin). apply filter_In in Hin.
  rewrite <- Hy. apply in_map. exact (proj1 Hin).
Qed.

Lemma ids_replace_row (n : Z) (r : State) (t : list State) :
  id r = n -> map id (Prisma.replace_row n r t) = map id t.
Proof.
  intros Hr. unfold Prisma.replace_row. rewrite map_map.
  apply map_ext. intros x.
  destruct (Z.eqb_spec (id x) n); [congruence | reflexivity].
Qed.

(** The table after an update: what it was, or what it was with the rows
    of one identifier replaced by a row of that identifier. *)
Lemma updateState_frame (req : Request) (w : World) :
  nextId (snd (updateState req w)) = nextId w
  /\ (table (snd (updateState req w)) = table w
      \/ exists n new,
           id new = n
           /\ table (snd (updateState req w)) =
                Prisma.replace_row n new (table w)).
Proof.
  destruct (Z.eq_dec (status (fst (updateState req w))) 200) as [H200|Hne].
  - destruct (updateState_200 req w H200)
      as (n & data & old & _ & _ & _ & _ & Hrow
          & [[_ Hrun] | (s & _ & _ & Hrun)]);
      rewrite Hrun; (split; [reflexivity|]).
    + left. reflexivity.
    + right. exists n, (renamed old s (now w)).
      split; [exact (find_row_id _ _ _ Hrow) | reflexivity].
  - destruct (updateState_cases req w)
      as [Hno | (n & data & old & Hid & Hn & Hdata & Hacc & Hrow)].
    + destruct (updateState_no_write req w Hno) as (_ & Htab & Hnext).
      split; [exact Hnext | left; exact Htab].
    + destruct (data_to_update_shape _ _ Hdata)
        as [Hempty | (s & Hname & Hone)].
      * exfalso. apply Hne.
        rewrite (updateState_empty_write req w n data old Hid Hn Hdata Hacc
                   Hrow Hempty). reflexivity.
      * destruct (unique_stateName w) as [t|] eqn:Ht.
        -- destruct (Prisma.name_taken (Some n) s (table w)) eqn:Htaken.
           ++ destruct (updateState_clash req w n data old s t Hid Hn Hdata
                          Hacc Hrow Hone Ht Htaken) as (_ & Htab & Hnext).
              split; [exact Hnext | left; exact Htab].
           ++ exfalso. apply Hne.
              rewrite (updateState_written req w n data old s Hid Hn Hdata
                         Hacc Hrow Hone (or_intror Htaken)). reflexivity.
        -- exfalso. apply Hne.
           rewrite (updateState_written req w n data old s Hid Hn Hdata
                      Hacc Hrow Hone (or_introl Ht)). reflexivity.
Qed.

(** X12.  The identifiers stay sound under every request: if the
    identifiers of the table are distinct, positive and below the next
    identifier, they still are after any list, get, create, update or
    delete request, whatever its parameters, its body and its outcome. *)
Theorem handlers_keep_identifiers_sound :
  forall (req : Request) (w : World),
    store_ok w ->
    store_ok (snd (getStates req w))
    /\ store_ok (snd (getState req w))
    /\ store_ok (snd (createState req w))
    /\ store_ok (snd (updateState req w))
    /\ store_ok (snd (deleteState req w)).
Proof.
  intros req w Hok.
  split; [|split; [|split; [|split]]].
  - destruct (getStates_frame req w) as [Ht Hn].
    exact (store_ok_same _ _ Ht Hn Hok).
  - destruct (getState_frame req w) as [Ht Hn].
    exact (store_ok_same _ _ Ht Hn Hok).
  - destruct (createSchema_result (body req)) as [[e He] | [s Hs]].
    + rewrite (createState_refused_body req w e He).
      exact (store_ok_same _ w eq_refl eq_refl Hok).
    + pose proof (proj1 (createSchema_ok_iff _ _) Hs)
        as (fields & Hb & Hget & Hname).
      assert (Hcases : name_free w None s
                       \/ exists t, unique_stateName w = Some t
                            /\ Prisma.name_taken None s (table w) = true).
      { unfold name_free. destruct (unique_stateName w) as [t|];
          [|left; left; reflexivity].
        destruct (Prisma.name_taken None s (table w));
          [right; exists t; auto | left; right; reflexivity]. }
      destruct Hcases as [Hfree | (t & Ht & Htaken)].
      * rewrite (createState_valid_name req w fields s Hb Hget Hname Hfree).
        destruct Hok as (Hpos & Hnd & Hall).
        cbn [snd]. unfold store_ok, after_create.
        cbn [table nextId with_nextId with_table with_call].
        split; [lia|]. split.
        -- rewrite map_app. cbn [map created id].
           apply NoDup_app;
             [exact Hnd | repeat constructor; intros [] |].
           intros a Ha [<-|[]]. apply in_map_iff in Ha.
           destruct Ha as (r & Hr & Hin). rewrite Forall_forall in Hall.
           specialize (Hall r Hin). lia.
        -- apply Forall_app. split.
           ++ eapply Forall_impl; [|exact Hall]. cbn beta. intros r Hr. lia.
           ++ repeat constructor; cbn [created id]; lia.
      * destruct (createState_clash req w s t Hs Ht Htaken)
          as (_ & Htab & Hnext).
        exact (store_ok_same _ _ Htab Hnext Hok).
  - destruct (updateState_frame req w)
      as [Hnext [Htab | (n & new & Hnew & Htab)]].
    + exact (store_ok_same _ _ Htab Hnext Hok).
    + destruct Hok as (Hpos & Hnd & Hall). unfold store_ok.
      rewrite Htab, Hnext. split; [exact Hpos|]. split.
      * rewrite ids_replace_row by exact Hnew. exact Hnd.
      * unfold Prisma.replace_row. rewrite Forall_map.
        rewrite Forall_forall in Hall |- *. intros x Hin.
        destruct (Z.eqb_spec (id x) n) as [Hx|_]; [|exact (Hall x Hin)].
        rewrite Hnew, <- Hx. exact (Hall x Hin).
  - destruct (deleteState_cases req w) as [[Htab Hnext] | (n & Htab & Hnext)].
    + exact (store_ok_same _ _ Htab Hnext Hok).
    + destruct Hok as (Hpos & Hnd & Hall). unfold store_ok.
      rewrite Htab, Hnext. split; [exact Hpos|]. split.
      * apply NoDup_ids_filter. exact Hnd.
      * rewrite Forall_forall in Hall |- *. intros x Hin.
        apply filter_In in Hin. exact (Hall x (proj1 Hin)).
Qed.

Lemma handlers_keep_identifiers_sound_witness :
  store_ok
    (snd (createState
            (mkRequest None no_query
               (Js.JObj [("stateName", Js.JStr "Bihar")])) sample_world))
  /\ store_ok
       (snd (deleteState (mkRequest (Some "2") no_query Js.JUndefined)
               sample_world)).
Proof.
  split.
  - apply
      (handlers_keep_identifiers_sound
         (mkRequest None no_query
            (Js.JObj [("stateName", Js.JStr "Bihar")])) sample_world
         sample_world_ok).
  - apply
      (handlers_keep_identifiers_sound
         (mkRequest (Some "2") no_query Js.JUndefined) sample_world
         sample_world_ok).
Defined.

(* ================================================================== *)
(** ** The router *)

(** The route found for each verb and path. *)
Lemma find_route_table (auth : Middleware) (m : Method) (path : list string) :
  find_route (routes auth) m path =
    match path with
    | [] =>
        match m with
        | GET | HEAD => Some (mkRoute GET Root [auth] getStates, None)
        | POST => Some (mkRoute POST Root [auth] createState, None)
        | _ => None
        end
    | [seg] =>
        if (seg =? "")%string then
          match m with
          | GET | HEAD => Some (mkRoute GET Root [auth] getStates, None)
          | POST => Some (mkRoute POST Root [auth] createState, None)
          | _ => None
          end
        else
          match m with
          | GET | HEAD => Some (mkRoute GET ItemId [auth] getState, Some seg)
          | PUT => Some (mkRoute PUT ItemId [auth] updateState, Some seg)
          | DELETE =>
              Some (mkRoute DELETE ItemId [auth] deleteState, Some seg)
          | POST => None
          end
    | [seg; slash] =>
        if (seg =? "")%string then None
        else if (slash =? "")%string then
          match m with
          | GET | HEAD => Some (mkRoute GET ItemId [auth] getState, Some seg)
          | PUT => Some (mkRoute PUT ItemId [auth] updateState, Some seg)
          | DELETE =>
              Some (mkRoute DELETE ItemId [auth] deleteState, Some seg)
          | POST => None
          end
        else None
    | _ => None
    end.
Proof.
  destruct m; destruct path as [|seg [|slash [|extra rest]]]; cbn;
    try reflexivity;
    destruct (seg =? "")%string; try reflexivity;
    destruct (slash =? "")%string; reflexivity.
Qed.

(** A route that is found is one of the five, behind the middleware. *)
Lemma find_route_guarded (auth : Middleware) (m : Method)
  (path : list string) (r : Route) (param : option string) :
  find_route (routes auth) m path = Some (r, param) ->
  route_middleware r = [auth]
  /\ In (route_handler r)
       [getStates; getState; createState; updateState; deleteState].
Proof.
  rewrite find_route_table. intros H.
  destruct path as [|seg [|slash [|extra rest]]]; [| | |discriminate H];
    try (destruct (seg =? "")%string; [try discriminate H|]);
    try (destruct (slash =? "")%string; [|discriminate H]);
    destruct m; try discriminate H; injection H as <- _;
    (split; [reflexivity | cbn; auto 6]).
Qed.

(** X13.  Every route of the router is guarded by the authentication
    middleware: on a routed request, either the middleware answers, and
    then its answer is the response and the world is untouched (no handler
    runs, no call reaches the store), or it passes the request on and the
    response is that of one of the five handlers. *)
Theorem router_guards_every_route :
  forall (auth : Middleware) (m : Method) (path : list string) (q : Query)
         (b : Js.Value) (w : World) (r : Response) (w' : World),
    router auth m path q b w = Some (r, w') ->
    exists param,
      (auth (mkRequest param q b) = Some r /\ w' = w)
      \/ (auth (mkRequest param q b) = None
          /\ exists h,
               In h [getStates; getState; createState; updateState;
                     deleteState]
               /\ h (mkRequest param q b) w = (r, w')).
Proof.
  intros auth m path q b w r w' Hrun. unfold router in Hrun.
  destruct (find_route (routes auth) m path) as [[route param]|] eqn:Hfind;
    [|discriminate Hrun].
  destruct (find_route_guarded auth m path route param Hfind) as [Hmw Hin].
  rewrite Hmw in Hrun. cbn [run_chain] in Hrun. exists param.
  destruct (auth (mkRequest param q b)) as [ra|].
  - injection Hrun as <- <-. left. split; reflexivity.
  - injection Hrun as Hrun. right. split; [reflexivity|].
    exists (route_handler route). split; [exact Hin | exact Hrun].
Qed.

Lemma router_guards_every_route_witness :
  exists param,
    ((fun _ : Request => Some (mkResponse 401 Js.JNull))
       (mkRequest param no_query Js.JUndefined) =
     Some (mkResponse 401 Js.JNull)
     /\ sample_world = sample_world)
    \/ ((fun _ : Request => Some (mkResponse 401 Js.JNull))
          (mkRequest param no_query Js.JUndefined) = None
        /\ exists h,
             In h [getStates; getState; createState; updateState;
                   deleteState]
             /\ h (mkRequest param no_query Js.JUndefined) sample_world =
                  (mkResponse 401 Js.JNull, sample_world)).
Proof.
  apply
    (router_guards_every_route
       (fun _ => Some (mkResponse 401 Js.JNull)) DELETE ["2"] no_query
       Js.JUndefined sample_world (mkResponse 401 Js.JNull) sample_world
       eq_refl).
Defined.

(** X14.  The requests the router takes, among those of verb GET, HEAD,
    POST, PUT or DELETE: the collection path, with or without its slash,
    with GET, HEAD or POST; and a path of one segment that is not empty,
    with or without a slash after it, with GET, HEAD, PUT or DELETE (a
    HEAD request runs the handler of GET).  Every other verb and path is
    passed on.  On an item route the handler receives the segment as
    [params.id], so through the router a handler never sees a missing
    identifier. *)
Theorem router_takes_five_routes :
  forall (auth : Middleware) (m : Method) (path : list string) (q : Query)
         (b : Js.Value) (w : World),
    (router auth m path q b w <> None <->
     ((path = [] \/ path = [""])
      /\ (m = GET \/ m = HEAD \/ m = POST))
     \/ exists seg,
          (path = [seg] \/ path = [seg; ""]) /\ seg <> "" /\ m <> POST)
    /\ (forall seg,
          path = [seg] \/ path = [seg; ""] -> seg <> "" -> m <> POST ->
          exists h,
            h = match m with
                | GET | HEAD => getState
                | PUT => updateState
                | _ => deleteState
                end
            /\ router auth m path q b w =
                 Some (run_chain [auth] h (mkRequest (Some seg) q b) w))
    /\ (path = [] \/ path = [""] ->
        m = GET \/ m = HEAD \/ m = POST ->
        exists h,
          h = match m with
              | POST => createState
              | _ => getStates
              end
          /\ router auth m path q b w =
               Some (run_chain [auth] h (mkRequest None q b) w)).
Proof.
  intros auth m path q b w. unfold router. rewrite find_route_table.
  split; [split|split].
  - intros Hrouted.
    destruct path as [|seg [|slash [|extra rest]]];
      [| | |exfalso; apply Hrouted; reflexivity].
    + left. split; [left; reflexivity|].
      destruct m; auto; exfalso; apply Hrouted; reflexivity.
    + destruct (String.eqb_spec seg "") as [->|Hseg].
      * left. split; [right; reflexivity|].
        destruct m; auto; exfalso; apply Hrouted; reflexivity.
      * right. exists seg. split; [left; reflexivity|].
        split; [exact Hseg|]. intros ->. apply Hrouted. reflexivity.
    + destruct (String.eqb_spec seg "") as [->|Hseg];
        [exfalso; apply Hrouted; reflexivity|].
      destruct (String.eqb_spec slash "") as [->|Hslash];
        [|exfalso; apply Hrouted; reflexivity].
      right. exists seg. split; [right; reflexivity|].
      split; [exact Hseg|]. intros ->. apply Hrouted. reflexivity.
  - intros [[[-> | ->] [-> | [-> | ->]]]
           | (seg & [-> | ->] & Hseg & Hm)]; try (cbn; discriminate);
      (destruct (String.eqb_spec seg ""); [contradiction|]);
      cbn [String.eqb]; destruct m; try contradiction; discriminate.
  - intros seg [-> | ->] Hseg Hm;
      (destruct (String.eqb_spec seg ""); [contradiction|]);
      cbn [String.eqb]; destruct m; try contradiction;
      eexists; split; reflexivity.
  - intros [-> | ->] [-> | [-> | ->]]; cbn; eexists; split; reflexivity.
Qed.

Lemma router_takes_five_routes_witness :
  exists h,
    h = updateState
    /\ router (fun _ => None) PUT ["2"; ""] no_query
         (Js.JObj [("stateName", Js.JStr "Bihar")]) sample_world =
         Some (run_chain [fun _ => None] h
                 (mkRequest (Some "2") no_query
                    (Js.JObj [("stateName", Js.JStr "Bihar")]))
                 sample_world).
Proof.
  apply
    (proj1 (proj2
       (router_takes_five_routes (fun _ => None) PUT ["2"; ""] no_query
          (Js.JObj [("stateName", Js.JStr "Bihar")]) sample_world))
       "2" (or_intror eq_refl) ltac:(discriminate) ltac:(discriminate)).
Defined.

(* ================================================================== *)
(** ** Lists and single records agree *)

Lemma In_insert_row (c : Client) (o : string * string) (r x : State)
  (l : list State) :
  In x (Prisma.insert_row c o r l) -> x = r \/ In x l.
Proof.
  induction l as [|y ys IH]; cbn [Prisma.insert_row].
  - intros [<-|[]]. left. reflexivity.
  - destruct (Prisma.before c o r y).
    + intros [<-|Hin]; [left; reflexivity | right; exact Hin].
    + intros [<-|Hin]; [right; left; reflexivity|].
      destruct (IH Hin) as [->|Hin']; [left; reflexivity|].
      right. right. exact Hin'.
Qed.

Lemma In_sort_rows (c : Client) (o : string * string) (x : State)
  (l : list State) :
  In x (Prisma.sort_rows c o l) -> In x l.
Proof.
  unfold Prisma.sort_rows.
  induction l as [|y ys IH]; cbn [fold_right]; [intros []|].
  intros Hin. apply In_insert_row in Hin.
  destruct Hin as [->|Hin]; [left; reflexivity | right; exact (IH Hin)].
Qed.

Lemma In_window {A} (take skip : Js.Number) (x : A) (l : list A) :
  In x (Prisma.take_rows take (Prisma.skip_rows skip l)) -> In x l.
Proof.
  intros Hin.
  assert (Hskip : forall y, In y (Prisma.skip_rows skip l) -> In y l).
  { intros y Hy. destruct skip as [|n|[|]]; cbn in Hy;
      [exact Hy| |exact Hy|destruct Hy].
    rewrite <- (firstn_skipn (Z.to_nat n) l). apply in_or_app. right.
    exact Hy. }
  apply Hskip. destruct take as [|n|[|]]; cbn in Hin;
    [destruct Hin| |destruct Hin|exact Hin].
  rewrite <- (firstn_skipn (Z.to_nat n) (Prisma.skip_rows skip l)).
  apply in_or_app. left. exact Hin.
Qed.

Lemma find_row_unique (t : list State) (r : State) :
  NoDup (map id t) -> In r t -> Prisma.find_row (id r) t = Some r.
Proof.
  unfold Prisma.find_row.
  induction t as [|x t IH]; intros Hnd Hin; [destruct Hin|].
  cbn [map] in Hnd. apply NoDup_cons_iff in Hnd. destruct Hnd as [Hx Hnd].
  cbn [find]. destruct Hin as [->|Hin].
  - rewrite Z.eqb_refl. reflexivity.
  - destruct (Z.eqb_spec (id x) (id r)) as [Heq|_]; [|exact (IH Hnd Hin)].
    exfalso. apply Hx. rewrite Heq. apply in_map. exact Hin.
Qed.

(** The body of an error has no records. *)
Lemma render_error_no_states (e : Error) :
  states_of (fst (render_error e)) = [].
Proof.
  destruct e as [st m | issues | m | code target | name m];
    unfold render_error; cbn; try destruct target;
    repeat match goal with
           | |- context [if ?x then _ else _] => destruct x
           end; reflexivity.
Qed.

(** X15.  List and get agree: on a store whose identifiers are sound,
    every record of a list response is the projection of a row of the
    table that the store's filter matches against the search, when there
    is one, and a get request for the identifier of that row, when the
    store runs the lookup, is answered with 200 and the very same
    record. *)
Theorem listed_records_can_be_fetched :
  forall (lreq : Request) (w : World) (v : Js.Value),
    store_ok w ->
    In v (states_of (fst (getStates lreq w))) ->
    exists r : State,
      In r (table w)
      /\ (forall s : string,
            q_search (query lreq) = Some s -> s <> "" ->
            contains (client w) s (stateName r) = true)
      /\ v = Js.JObj [("id", Js.JNum (id r));
                      ("stateName", Js.JStr (stateName r));
                      ("createdAt", Js.JDate (createdAt r));
                      ("updatedAt", Js.JDate (updatedAt r))]
      /\ forall greq : Request,
           Js.parseInt_param (params_id greq) = Js.Num (id r) ->
           reject_id (client w) (Js.Num (id r)) = None ->
           fst (getState greq w) = mkResponse 200 v.
Proof.
  intros lreq w v Hok Hin.
  destruct (reject_findMany (client w) (skip_of (query lreq))
              (limit_of (query lreq)) (orderBy_of (query lreq)))
    as [e|] eqn:Hrej.
  { exfalso.
    destruct (asyncHandler_throw getStates_fn lreq w _ e
                (getStates_fn_rejected lreq w e Hrej)) as [Hresp _].
    fold getStates in Hresp.
    rewrite Hresp, render_error_no_states in Hin. exact Hin. }
  rewrite (states_of_accepted lreq w Hrej) in Hin.
  apply In_window in Hin. unfold matching_rows in Hin.
  apply in_map_iff in Hin. destruct Hin as (r & Hv & Hin).
  apply In_sort_rows in Hin. apply filter_In in Hin.
  destruct Hin as [Hin Hmatch].
  exists r. split; [exact Hin|]. split.
  - intros s Hs Hne. rewrite matches_searched in Hmatch.
    unfold searched in Hmatch. rewrite Hs in Hmatch.
    destruct (String.eqb_spec s ""); [contradiction | exact Hmatch].
  - split; [symmetry; exact Hv|].
    intros greq Hid Hacc. destruct Hok as (_ & Hnd & Hall).
    rewrite Forall_forall in Hall. specialize (Hall r Hin).
    rewrite (getState_found greq w (id r) r Hid ltac:(lia) Hacc
               (find_row_unique _ _ Hnd Hin)).
    cbn [fst]. rewrite <- Hv. reflexivity.
Qed.

Lemma listed_records_can_be_fetched_witness :
  exists r : State,
    In r (table sample_world)
    /\ fst (getState (mkRequest (Some "3") no_query Js.JUndefined)
              sample_world) =
       mkResponse 200 (Prisma.render select_all r).
Proof.
  destruct
    (listed_records_can_be_fetched
       (mkRequest None no_query Js.JUndefined) sample_world
       (Prisma.render select_all (mkState 3 "Assam" 130 130))
       sample_world_ok (or_introl eq_refl))
    as (r & Hin & _ & Hv & Hget).
  exists r. split; [exact Hin|].
  injection Hv as Hid Hname Hc Hu.
  rewrite (Hget (mkRequest (Some "3") no_query Js.JUndefined)
             ltac:(rewrite <- Hid; reflexivity)
             ltac:(rewrite <- Hid; reflexivity)).
  destruct r as [i n c u]. cbn in *. subst. reflexivity.
Defined.

(** X16.  Create then list: after a create request that was answered
    with 201, an accepted list request counts one more record than
    before when it has no search or an empty one, or when the store's
    filter matches the new name against its search, and the same number
    of records otherwise. *)
Theorem create_then_list_counts_the_record :
  forall (creq lreq : Request) (w : World),
    status (fst (createState creq w)) = 201 ->
    reject_findMany (client w) (skip_of (query lreq))
      (limit_of (query lreq)) (orderBy_of (query lreq)) = None ->
    exists (s : string) (before : Z),
      field "stateName" (fst (createState creq w)) = Some (Js.JStr s)
      /\ field "totalStates" (fst (getStates lreq w)) =
           Some (Js.JNum before)
      /\ field "totalStates"
           (fst (getStates lreq (snd (createState creq w)))) =
         Some
           (Js.JNum
              (before
               + if match q_search (query lreq) with
                    | Some search =>
                        (search =? "")%string
                        || contains (client w) search s
                    | None => true
                    end
                 then 1 else 0)).
Proof.
  intros creq lreq w H201 Hacc.
  destruct (createSchema_result (body creq)) as [[e He] | [s Hs]].
  { rewrite (createState_refused_body creq w e He) in H201.
    discriminate H201. }
  pose proof (proj1 (createSchema_ok_iff _ _) Hs)
    as (fields & Hb & Hget & Hname).
  assert (Hfree : name_free w None s).
  { unfold name_free. destruct (unique_stateName w) as [t|] eqn:Ht;
      [|left; reflexivity].
    destruct (Prisma.name_taken None s (table w)) eqn:Htaken;
      [|right; reflexivity].
    destruct (createState_clash creq w s t Hs Ht Htaken) as [Hne _].
    contradiction. }
  rewrite (createState_valid_name creq w fields s Hb Hget Hname Hfree).
  cbn [fst snd]. exists s, (total_of (query lreq) w).
  split; [reflexivity|].
  assert (Hacc' : accepts_list (after_create w s) (query lreq))
    by exact Hacc.
  rewrite (getStates_accepted lreq w Hacc),
    (getStates_accepted lreq (after_create w s) Hacc').
  unfold field, list_response.
  cbn [fst json Js.get String.eqb Ascii.eqb Bool.eqb].
  split; [reflexivity|].
  do 2 f_equal. rewrite !total_of_searched. unfold after_create.
  cbn [table with_nextId with_table with_call].
  rewrite filter_app, length_app, Nat2Z.inj_add. f_equal.
  cbn [filter]. unfold searched at 1.
  cbn [created stateName client with_nextId with_table with_call].
  destruct (q_search (query lreq)) as [search|]; [|reflexivity].
  destruct (search =? "")%string; [reflexivity|]. cbn [orb].
  destruct (contains (client w) search s); reflexivity.
Qed.

Lemma create_then_list_counts_the_record_witness :
  exists (s : string) (before : Z),
    field "totalStates"
      (fst (getStates
              (mkRequest None (mkQuery None None (Some "ha") None None)
                 Js.JUndefined)
              (snd (createState
                      (mkRequest None no_query
                         (Js.JObj [("stateName", Js.JStr "Bihar")]))
                      sample_world)))) =
    Some
      (Js.JNum
         (before
          + if ("ha" =? "")%string || contains sample_client "ha" s
            then 1 else 0))
    /\ s = "Bihar" /\ before = 0.
Proof.
  destruct
    (create_then_list_counts_the_record
       (mkRequest None no_query (Js.JObj [("stateName", Js.JStr "Bihar")]))
       (mkRequest None (mkQuery None None (Some "ha") None None)
          Js.JUndefined)
       sample_world eq_refl eq_refl)
    as (s & before & Hs & Hbefore & Htotal).
  exists s, before. split; [exact Htotal|].
  injection Hs as <-. injection Hbefore as <-. split; reflexivity.
Defined.

(* ================================================================== *)
(** ** Further compositions *)

(** X17.  Update then get: after an update request that was answered
    with 200, a get request for the same identifier is answered with 200
    and the record the update returned. *)
Theorem updated_record_round_trip :
  forall (ureq greq : Request) (w : World),
    status (fst (updateState ureq w)) = 200 ->
    Js.parseInt_param (params_id greq) =
      Js.parseInt_param (params_id ureq) ->
    fst (getState greq (snd (updateState ureq w))) =
      mkResponse 200 (json (fst (updateState ureq w))).
Proof.
  intros ureq greq w H200 Hsame.
  destruct (updateState_200 ureq w H200)
    as (n & data & old & Hid & Hn & Hdata & Hacc & Hrow
        & [[Hempty Hrun] | (s & Hname & Hone & Hrun)]);
    rewrite Hrun; cbn [fst snd json]; rewrite Hid in Hsame.
  - rewrite (getState_found greq _ n old Hsame Hn).
    + reflexivity.
    + exact Hacc.
    + exact Hrow.
  - rewrite (getState_found greq _ n (renamed old s (now w)) Hsame Hn).
    + reflexivity.
    + exact Hacc.
    + cbn [table with_table with_call].
      apply (find_row_replaced n old); [exact Hrow|].
      exact (find_row_id _ _ _ Hrow).
Qed.

Lemma updated_record_round_trip_witness :
  fst (getState (mkRequest (Some "2abc") no_query Js.JUndefined)
         (snd (updateState
                 (mkRequest (Some "2") no_query
                    (Js.JObj [("stateName", Js.JStr "Bihar")]))
                 sample_world))) =
  mkResponse 200 (Prisma.render None (mkState 2 "Bihar" 110 200)).
Proof.
  apply
    (updated_record_round_trip
       (mkRequest (Some "2") no_query
          (Js.JObj [("stateName", Js.JStr "Bihar")]))
       (mkRequest (Some "2abc") no_query Js.JUndefined)
       sample_world eq_refl eq_refl).
Defined.

(** X18.  Under a schema that declares stateName unique and reports a
    target on a violation - an array of columns, or one column that is
    not the empty string - a create request with a valid name that a row
    already has is answered with 400 and the per-field error on the
    reported column (the first one of an array), and inserts nothing;
    without the constraint the same request is answered with 201 and the
    table has two rows of that name. *)
Theorem createState_duplicate_name :
  forall (req : Request) (w : World) (fields : list (string * Js.Value))
         (s : string),
    body req = Js.JObj fields ->
    Js.get "stateName" fields = Some (Js.JStr s) ->
    valid_name s ->
    Prisma.name_taken None s (table w) = true ->
    (forall column t,
        unique_stateName w = Some t ->
        (t = TStr column /\ column <> "")
        \/ (exists others, t = TArr (column :: others)) ->
        createState req w =
          (mkResponse 400
             (Js.JObj
                [("errors",
                  Js.JObj
                    [(column,
                      Js.JObj
                        [("type", Js.JStr "unique");
                         ("message",
                          Js.JStr
                            ("A record with that " ++ column
                             ++ " already exists.")%string)])])]),
           with_call (CCreate s) w))
    /\ (unique_stateName w = None ->
        status (fst (createState req w)) = 201
        /\ table (snd (createState req w)) =
             table w ++ [mkState (nextId w) s (now w) (now w)]).
Proof.
  intros req w fields s Hb Hget Hname Htaken. split.
  - intros column t Ht Hshape.
    assert (Hs : createSchema (body req) = Ok (mkCreateInput s))
      by (apply createSchema_ok_iff; exists fields; auto).
    assert (Hrender :
              render_error (PrismaClientKnownRequestError "P2002" (Some t)) =
                (mkResponse 400 (already_exists_body column), false)).
    { destruct Hshape as [[-> Hcol] | [others ->]].
      - rewrite (render_error_unique (TStr column)); [reflexivity|].
        cbn. unfold Js.truthy_str.
        destruct (String.eqb_spec column ""); [contradiction | reflexivity].
      - rewrite (render_error_unique (TArr (column :: others)) eq_refl).
        reflexivity. }
    unfold createState, asyncHandler. run_handler. rewrite Hs.
    unfold Prisma.create. cbn [input_stateName]. rewrite Ht, Htaken.
    rewrite Hrender. reflexivity.
  - intros Hnone.
    rewrite (createState_valid_name req w fields s Hb Hget Hname
               (or_introl Hnone)).
    split; reflexivity.
Qed.

Lemma createState_duplicate_name_witness :
  createState
    (mkRequest None no_query (Js.JObj [("stateName", Js.JStr "Goa")]))
    unique_world =
    (mkResponse 400
       (Js.JObj
          [("errors",
            Js.JObj
              [("stateName",
                Js.JObj
                  [("type", Js.JStr "unique");
                   ("message",
                    Js.JStr
                      "A record with that stateName already exists.")])])]),
     with_call (CCreate "Goa") unique_world)
  /\ status
       (fst (createState
               (mkRequest None no_query
                  (Js.JObj [("stateName", Js.JStr "Goa")]))
               sample_world)) = 201.
Proof.
  split.
  - apply
      (proj1
         (createState_duplicate_name
            (mkRequest None no_query (Js.JObj [("stateName", Js.JStr "Goa")]))
            unique_world [("stateName", Js.JStr "Goa")] "Goa"
            eq_refl eq_refl ltac:(unfold valid_name; cbn; lia) eq_refl)
         "stateName" (TArr ["stateName"]) eq_refl
         (or_intror (ex_intro _ [] eq_refl))).
  - apply
      (proj2
         (createState_duplicate_name
            (mkRequest None no_query (Js.JObj [("stateName", Js.JStr "Goa")]))
            sample_world [("stateName", Js.JStr "Goa")] "Goa"
            eq_refl eq_refl ltac:(unfold valid_name; cbn; lia) eq_refl)
         eq_refl).
Defined.

Lemma deleteState_status_400_iff (req : Request) (w : World) :
  (Js.truthy (Js.parseInt_param (params_id req)) = true ->
   reject_id (client w) (Js.parseInt_param (params_id req)) = None) ->
  status (fst (deleteState req w)) = 400 <->
  Js.parseInt_param (params_id req) = Js.NaN
    \/ Js.parseInt_param (params_id req) = Js.Num 0.
Proof.
  intros Hacc. rewrite <- refused_id_iff.
  destruct (Js.truthy (Js.parseInt_param (params_id req))) eqn:Ht.
  - specialize (Hacc eq_refl).
    split; [|discriminate]. intros Hst. exfalso.
    destruct (Js.parseInt_param (params_id req)) as [|n|b] eqn:Hid;
      [discriminate Ht| |].
    + assert (Hn : n <> 0) by (intros ->; discriminate Ht).
      destruct (Prisma.find_row n (table w)) as [r|] eqn:Hrow.
      * rewrite (deleteState_found req w n r Hid Hn Hacc Hrow) in Hst.
        discriminate Hst.
      * destruct (deleteState_missing req w n Hid Hn Hacc Hrow)
          as [_ Hresp].
        rewrite Hresp in Hst. discriminate Hst.
    + unfold deleteState, asyncHandler in Hst.
      rewrite (deleteState_fn_no_integer req w b Hid Hacc) in Hst.
      discriminate Hst.
  - unfold deleteState, asyncHandler.
    rewrite (deleteState_fn_refused req w Ht). split; reflexivity.
Qed.

(** X19.  In get and in delete, when the store runs the lookup of every
    identifier that passes the test, the status 400 means an invalid
    identifier and nothing else: the response has status 400 exactly when
    the path parameter parses to NaN or to 0.  Whatever the store, such a
    request is answered with 400 and the message Invalid state ID, and no
    call reaches the store. *)
Theorem invalid_id_is_the_only_400 :
  forall (req : Request) (w : World),
    ((Js.parseInt_param (params_id req) <> Js.NaN ->
      Js.parseInt_param (params_id req) <> Js.Num 0 ->
      reject_id (client w) (Js.parseInt_param (params_id req)) = None) ->
     (status (fst (getState req w)) = 400 <->
      Js.parseInt_param (params_id req) = Js.NaN
        \/ Js.parseInt_param (params_id req) = Js.Num 0)
     /\ (status (fst (deleteState req w)) = 400 <->
         Js.parseInt_param (params_id req) = Js.NaN
           \/ Js.parseInt_param (params_id req) = Js.Num 0))
    /\ (Js.parseInt_param (params_id req) = Js.NaN
          \/ Js.parseInt_param (params_id req) = Js.Num 0 ->
        getState req w =
          (mkResponse 400
             (Js.JObj
                [("errors",
                  Js.JObj [("message", Js.JStr "Invalid state ID")])]),
           w)
        /\ deleteState req w =
             (mkResponse 400
                (Js.JObj
                   [("errors",
                     Js.JObj [("message", Js.JStr "Invalid state ID")])]),
              w)).
Proof.
  intros req w. split.
  - intros Hacc.
    assert (Hacc' :
              Js.truthy (Js.parseInt_param (params_id req)) = true ->
              reject_id (client w) (Js.parseInt_param (params_id req)) =
                None).
    { intros Ht. apply Hacc; intros Hbad;
        assert (Hf : Js.truthy (Js.parseInt_param (params_id req)) = false)
          by (apply refused_id_iff; auto);
        rewrite Hf in Ht; discriminate Ht. }
    split.
    + exact (getState_status_400_iff req w Hacc').
    + exact (deleteState_status_400_iff req w Hacc').
  - intros Hrefused. apply refused_id_iff in Hrefused. split.
    + exact (getState_refused req w Hrefused).
    + unfold deleteState, asyncHandler.
      rewrite (deleteState_fn_refused req w Hrefused). reflexivity.
Qed.

Lemma invalid_id_is_the_only_400_witness :
  (status (fst (getState (mkRequest (Some "7") no_query Js.JUndefined)
                  sample_world)) = 400 <->
   Js.parseInt "7" = Js.NaN \/ Js.parseInt "7" = Js.Num 0)
  /\ (status (fst (getState (mkRequest (Some "abc") no_query Js.JUndefined)
                     sample_world)) = 400 <->
      Js.parseInt "abc" = Js.NaN \/ Js.parseInt "abc" = Js.Num 0)
  /\ deleteState (mkRequest (Some "0x0") no_query Js.JUndefined)
       sample_world =
       (mkResponse 400
          (Js.JObj
             [("errors", Js.JObj [("message", Js.JStr "Invalid state ID")])]),
        sample_world).
Proof.
  split; [|split].
  - apply
      (proj1
         (invalid_id_is_the_only_400
            (mkRequest (Some "7") no_query Js.JUndefined) sample_world)
         (fun _ _ => eq_refl)).
  - apply
      (proj1
         (invalid_id_is_the_only_400
            (mkRequest (Some "abc") no_query Js.JUndefined) sample_world)).
    intros Hnan. exfalso. apply Hnan. reflexivity.
  - apply
      (proj2
         (invalid_id_is_the_only_400
            (mkRequest (Some "0x0") no_query Js.JUndefined) sample_world)
         (or_intror eq_refl)).
Defined.

(** X20.  An accepted list request for the first page whose limit is a
    finite number at least the number of matching rows returns all of
    them, in order, on a single page (on a table of at most 2^53 rows). *)
Theorem large_limit_returns_every_match :
  forall (req : Request) (w : World) (l : Z),
    reject_findMany (client w) (Js.Num 0) (Js.Num l)
      (orderBy_of (query req)) = None ->
    Z.of_nat (List.length (table w)) <= 2 ^ 53 ->
    page_of (query req) = Js.Num 1 ->
    limit_of (query req) = Js.Num l ->
    total_of (query req) w <= l ->
    states_of (fst (getStates req w)) = matching_rows (query req) w
    /\ (field "totalPages" (fst (getStates req w)) = Some (Js.JNum 1)
        \/ (total_of (query req) w = 0
            /\ field "totalPages" (fst (getStates req w)) =
                 Some (Js.JNum 0))).
Proof.
  intros req w l Hacc Hfit Hpage Hlimit Hlarge.
  pose proof (limit_of_at_least_1 (query req)) as Hl.
  rewrite Hlimit in Hl. cbn in Hl.
  pose proof (total_of_range (query req) w Hfit) as Htotal.
  destruct (Math_ceil_div_spec (total_of (query req) w) l Htotal Hl)
    as (tp & Htp & Hbounds & Hrange).
  assert (Hskip : skip_of (query req) = Js.Num 0).
  { rewrite (skip_of_exact (query req) 1 l Hpage Hlimit ltac:(lia) Hl);
      [reflexivity|]. vm_compute. discriminate. }
  assert (Hacc' : accepts_list w (query req)).
  { unfold accepts_list. rewrite Hskip, Hlimit. exact Hacc. }
  rewrite (getStates_accepted req w Hacc').
  unfold states_of, field, list_response.
  cbn [fst json Js.get String.eqb Ascii.eqb Bool.eqb].
  rewrite Hskip, Hlimit, Htp.
  cbn [number_json Prisma.take_rows Prisma.skip_rows Z.to_nat skipn].
  split.
  - apply firstn_all2. apply Nat2Z.inj_le.
    rewrite length_matching_rows, Z2Nat.id by lia. exact Hlarge.
  - destruct (Z.eq_dec (total_of (query req) w) 0) as [H0|Hpos].
    + right. split; [exact H0|]. do 2 f_equal. nia.
    + left. do 2 f_equal. nia.
Qed.

Lemma large_limit_returns_every_match_witness :
  states_of
    (fst (getStates
            (mkRequest None (mkQuery None (Some "1000") None None None)
               Js.JUndefined) sample_world)) =
  matching_rows (mkQuery None (Some "1000") None None None) sample_world.
Proof.
  apply
    (large_limit_returns_every_match
       (mkRequest None (mkQuery None (Some "1000") None None None)
          Js.JUndefined) sample_world 1000 eq_refl
       ltac:(vm_compute; discriminate) eq_refl eq_refl).
  vm_compute. discriminate.
Defined.
